(** * create_sample_file.py: sample CM SAF dataset generator

    A shallow embedding of [src/create_sample_file.py].  numpy's [float64] is
    Rocq's primitive binary64 [float]; numpy arrays are nested lists indexed
    (time, lat, lon); Python exceptions are an explicit error result. *)

From Stdlib Require Import ZArith List Floats Lia Bool.
From stdpp Require Import base option list gmap strings.

Set Warnings "-inexact-float".
Local Open Scope Z_scope.

(** ** binary64 comparisons

    The comparisons of the source ([<], [>], [<=], [==] on float64) are the
    primitive [ltb], [leb], [eqb].  To reason about them every float that is
    not NaN is given a rank in [Z] (its value in units of 2^-1074, the
    infinities beyond every finite value) on which the comparisons are the
    integer ones. *)
Module F64.

Definition nan : float := PrimFloat.nan.

Definition is_nan (x : float) : bool := negb (PrimFloat.eqb x x).

(** Value of a finite binary64 in units of [2^emin = 2^-1074]. *)
Definition units (s : bool) (m : positive) (e : Z) : Z :=
  (if s then -1 else 1) * (Z.pos m * 2 ^ (e + 1074)).

(** Strictly above every finite value: [m < 2^53] and [e <= 971]. *)
Definition top : Z := 2 ^ 2098.

Definition sf_rank (x : spec_float) : option Z :=
  match x with
  | S754_nan => None
  | S754_infinity s => Some (if s then - top else top)
  | S754_zero _ => Some 0
  | S754_finite s m e => Some (units s m e)
  end.

Definition rank (x : float) : option Z := sf_rank (Prim2SF x).

(** The value of a finite float ([None] for NaN and the infinities). *)
Definition sf_value (x : spec_float) : option Z :=
  match x with
  | S754_zero _ => Some 0
  | S754_finite s m e => Some (units s m e)
  | _ => None
  end.

Definition value (x : float) : option Z := sf_value (Prim2SF x).

End F64.

(** ** Python results and numpy helpers *)

Inductive exn : Set :=
  | ValueError
  | IndexError
  | KeyError
  | ZeroDivisionError
  | OverflowError
  | NotImplementedError.

(** The outcome of a call: a value, an exception, or [Beyond] where the code
    goes on with an object that has no counterpart in this embedding (the
    virtual variables xarray makes up for names that are not variables of a
    dataset, see [getitem]).  [Beyond] is not an exception: nothing is said
    about what the code does from there. *)
Inductive result (A : Type) : Type :=
  | Ok (a : A)
  | Raise (e : exn)
  | Beyond.
Arguments Ok {A} a.
Arguments Raise {A} e.
Arguments Beyond {A}.

#[export] Instance result_ret : MRet result := fun A a => Ok a.
#[export] Instance result_bind : MBind result := fun A B f m =>
  match m with
  | Ok a => f a
  | Raise e => Raise e
  | Beyond => Beyond
  end.

Definition is_ok {A} (r : result A) : bool :=
  match r with Ok _ => true | _ => false end.

(** Loop with a fallible body: [for x in l: acc = body(acc, x)]. *)
Fixpoint for_each {A B} (body : A -> B -> result A) (acc : A) (l : list B) : result A :=
  match l with
  | [] => Ok acc
  | x :: rest => acc' ← body acc x; for_each body acc' rest
  end.

Abbreviation plane A := (list (list A)).
Abbreviation cube A := (list (list (list A))).

(** [range(n)] *)
Definition range (n : nat) : list nat := seq 0 n.

(** [np.zeros((nt, nlat, nlon))] with the dtype's zero [z]. *)
Definition np_zeros {A} (nt nlat nlon : nat) (z : A) : cube A :=
  replicate nt (replicate nlat (replicate nlon z)).

(** [arr[t, :, :] = p] *)
Definition assign_plane {A} (arr : cube A) (t : nat) (p : plane A) : cube A :=
  <[t := p]> arr.

(** [np.meshgrid(lon, lat)]: both results have shape (|lat|, |lon|). *)
Definition np_meshgrid (lon lat : list float) : plane float * plane float :=
  (map (fun _ => lon) lat, map (fun y => map (fun _ => y) lon) lat).

Definition map_plane {A B} (f : A -> B) (p : plane A) : plane B := map (map f) p.
Definition map_cube {A B} (f : A -> B) (c : cube A) : cube B := map (map_plane f) c.
Definition zip_plane {A B C} (f : A -> B -> C) (p : plane A) (q : plane B) : plane C :=
  zip_with (zip_with f) p q.

(** Conversion of a (small) Python [int] to [float]. *)
Definition float_of_nat (n : nat) : float :=
  PrimFloat.of_uint63 (Uint63.of_Z (Z.of_nat n)).

(** [np.deg2rad]: multiplication by the double nearest to pi/180. *)
Definition deg2rad (x : float) : float := (x * 0x1.1df46a2529d39p-6)%float.

(** [x ** 2] on float64 arrays is the square. *)
Definition sq (x : float) : float := (x * x)%float.

(** C's [rint] in the default rounding mode (to nearest, ties to even):
    below 2^52 in magnitude adding and subtracting 2^52 rounds to an
    integer; from 2^52 on every double is an integer. *)
Definition rint (x : float) : float :=
  let a := PrimFloat.abs x in
  if (a <? 0x1p52)%float then
    let r := ((a + 0x1p52) - 0x1p52)%float in
    if get_sign x then (- r)%float else r
  else x.

(** [np.round(x, decimals)] for [decimals > 0]: scale by [10**decimals],
    [rint], scale back. *)
Definition np_round (factor : float) (x : float) : float :=
  (rint (x * factor) / factor)%float.

(** [ceil] of a double as an integer ([None] for NaN and the infinities). *)
Definition ceilZ (x : float) : option Z :=
  match Prim2SF x with
  | S754_zero _ => Some 0
  | S754_finite s m e =>
      let n := if s then Z.neg m else Z.pos m in
      Some (if 0 <=? e then n * 2 ^ e else - ((- n) / 2 ^ (- e)))
  | _ => None
  end.

(** Python's [a / b] on floats: division by [0.0] or [-0.0] raises. *)
Definition py_truediv (a b : float) : result float :=
  if (b =? 0)%float then Raise ZeroDivisionError else Ok (a / b)%float.

(** numpy's [_arange_safe_ceil_to_intp]: the ceiling of the length as a
    signed 64-bit size; NaN is a [ValueError], a ceiling outside the range
    (the infinities among them) an [OverflowError].  The C test admits
    [2^63] itself, whose conversion is left to the platform; it is kept as it
    is here. *)
Definition arange_safe_ceil_to_intp (value : float) : result Z :=
  if F64.is_nan value then Raise ValueError
  else match ceilZ value with
       | Some n => if (- 2 ^ 63 <=? n) && (n <=? 2 ^ 63) then Ok n
                   else Raise OverflowError
       | None => Raise OverflowError
       end.

(** [np.arange(start, stop, step, dtype="f8")] on Python floats.  The length
    is [ceil((stop - start) / step)], computed on Python floats; when the
    quotient is zero although [stop - start] is not (underflow), the length is
    1, or 0 for the quotient [-0.0].  An [OverflowError] of the length
    computation is re-raised as [ValueError] (Maximum allowed size exceeded);
    a length that is not positive gives the empty array.  The first two
    elements are [start] and [start + step], element [i] is
    [start + i * ((start + step) - start)].  Memory limits are not modelled:
    an array of any length that passes these checks is built. *)
Definition np_arange (start stop step : float) : result (list float) :=
  let next := (stop - start)%float in
  value ← py_truediv next step;
  match arange_safe_ceil_to_intp value with
  | Ok len =>
      let len := if (value =? 0)%float && negb (next =? 0)%float
                 then if get_sign value then 0 else 1
                 else len in
      let delta := ((start + step) - start)%float in
      Ok (map (fun i : nat =>
                 match i with
                 | O => start
                 | S O => (start + step)%float
                 | _ => (start + float_of_nat i * delta)%float
                 end) (range (Z.to_nat len)))
  | Raise OverflowError => Raise ValueError
  | Raise e => Raise e
  | Beyond => Beyond
  end.

(** numpy's [minimum] and [maximum] propagate NaN. *)
Definition np_minimum (a b : float) : float :=
  if F64.is_nan a then a else if F64.is_nan b then b
  else if (b <? a)%float then b else a.

Definition np_maximum (a b : float) : float :=
  if F64.is_nan a then a else if F64.is_nan b then b
  else if (a <? b)%float then b else a.

(** [arr.min()], [arr.max()]: a zero-size array has no minimum. *)
Definition np_min (l : list float) : result float :=
  match l with
  | [] => Raise ValueError
  | x :: rest => Ok (fold_left np_minimum rest x)
  end.

Definition np_max (l : list float) : result float :=
  match l with
  | [] => Raise ValueError
  | x :: rest => Ok (fold_left np_maximum rest x)
  end.

(** Python's builtin [max] on a list of ints. *)
Definition py_max (l : list nat) : result nat :=
  match l with
  | [] => Raise ValueError
  | x :: rest => Ok (fold_left Nat.max rest x)
  end.

(** Positional indexing of a 1-D array by a list of Python ints: negative
    positions count from the end, anything outside [-n, n) raises. *)
Definition py_index {A} (l : list A) (i : Z) : result A :=
  let n := Z.of_nat (length l) in
  let pos := if i <? 0 then n + i else i in
  if (0 <=? pos) && (pos <? n) then
    match l !! Z.to_nat pos with
    | Some x => Ok x
    | None => Raise IndexError
    end
  else Raise IndexError.

Fixpoint np_take {A} (l : list A) (idx : list Z) : result (list A) :=
  match idx with
  | [] => Ok []
  | i :: rest => x ← py_index l i; xs ← np_take l rest; Ok (x :: xs)
  end.

(** The functions of libm and scipy the generators call.  [rotate_at h angle
    i j] is the value at output cell (i, j) of
    [scipy.ndimage.rotate(h, angle=angle, reshape=False)]; [cast_uint8] is the
    C conversion numpy applies when a float64 value is stored in a uint8
    array. *)
Class Numerics : Type := {
  sin : float -> float;
  cos : float -> float;
  cast_uint8 : float -> Z;
  rotate_at : plane bool -> float -> nat -> nat -> bool
}.

(** ** xarray data model *)

(** An array element: float64 (cfc_dm, sdu) or uint8 (nobs, quality,
    record_status).  A missing float64 value is NaN. *)
Inductive cell : Set :=
  | CFloat (x : float)
  | CUInt8 (n : Z).

(** A dataset as the generator uses it.  [time_index] is what [ds["time"]]
    evaluates to: the values of the time coordinate, or, when the time
    dimension carries no coordinate (the groups are built from arrays without
    coordinates), the positions [0 .. n-1].  Variable attributes are not
    modelled. *)
Record Dataset : Type := {
  time_index : list Z;
  data_vars : gmap string (list (list (list cell)));
  attrs : list (string * string)
}.

Definition time_size {A} (vars : list (string * cube A)) : nat :=
  match vars with
  | [] => O
  | (_, a) :: _ => length a
  end.

(** [xr.Dataset({name: array, ...}, attrs=...)] from arrays on
    (time, lat, lon) without coordinates: the sizes of the time dimension
    must agree. *)
Definition xr_Dataset (vars : list (string * cube cell))
    (attrs : list (string * string)) : result Dataset :=
  let n := time_size vars in
  if forallb (fun nv => Nat.eqb (length nv.2) n) vars then
    Ok {| time_index := map Z.of_nat (range n);
          data_vars := list_to_map vars;
          attrs := attrs |}
  else Raise ValueError.

(** The dimensions of every dataset of the generator. *)
Definition dims : list string := ["time"; "lat"; "lon"].

(** Names [ds[name]] resolves although the dataset holds no such variable:
    a dimension name stands for the index variable of that dimension (this is
    how [ds["time"]] is read in [Mask.mask_timestamps]), and a dotted name
    [ref.attr] for an attribute of the variable [ref]. *)
Definition virtual_name (name : string) : bool :=
  bool_decide (name ∈ dims)
  || match String.index 0 "." name with Some _ => true | None => false end.

(** [ds[name]]: a variable of the dataset, else a virtual variable, else
    [KeyError].  Virtual variables are not (time, lat, lon) arrays and are not
    represented: there the result is [Beyond]. *)
Definition getitem (ds : Dataset) (name : string) : result (cube cell) :=
  match data_vars ds !! name with
  | Some a => Ok a
  | None => if virtual_name name then Beyond else Raise KeyError
  end.

(** [ds[name] = a] *)
Definition setitem (ds : Dataset) (name : string) (a : cube cell) : Dataset :=
  {| time_index := time_index ds;
     data_vars := <[name := a]> (data_vars ds);
     attrs := attrs ds |}.

(** [time.isin(values)] on one element *)
Definition isin (t : Z) (values : list Z) : bool := bool_decide (t ∈ values).

(** [arr.where(cond, other)] with [cond] along the time dimension: keep the
    timestep where [cond] holds, [other] in every cell elsewhere. *)
Definition xr_where (a : cube cell) (cond : list bool) (other : cell)
    : result (cube cell) :=
  if Nat.eqb (length cond) (length a) then
    Ok (zip_with (fun (c : bool) p => if c then p else map_plane (fun _ => other) p) cond a)
  else Raise ValueError.

(** ** class Mask *)
Module Mask.

Record t : Type := { void_timestamps : list Z }.

Definition mask_timestamps (self : t) (ds : Dataset)
    (vars_to_mask : list (string * cell)) : result Dataset :=
  let time := time_index ds in
  time_to_mask ← np_take time (void_timestamps self);
  for_each (fun ds (item : string * cell) =>
              let should_be_masked := map (fun t => isin t time_to_mask) time in
              v ← getitem ds item.1;
              v' ← xr_where v (map negb should_be_masked) item.2;
              Ok (setitem ds item.1 v'))
           ds vars_to_mask.

End Mask.

(** ** class RecordStatus *)
Module RecordStatus.

Record t : Type := {
  time : list Z;
  tvoid : list Z
}.

(** Storing a Python int in a uint8 array. *)
Definition uint8 (n : Z) : Z := n mod 256.

Definition get_record_status (self : t) : list Z :=
  map (fun i : nat => uint8 (if bool_decide (Z.of_nat i ∈ tvoid self) then 1 else 0))
      (range (length (time self))).

End RecordStatus.

(** ** class Clouds *)
Module Clouds.

Record t : Type := {
  time : list Z;
  lon : list float;
  lat : list float;
  mlon : list (list float);
  mlat : list (list float);
  mask : Mask.t
}.

Definition __init__ (time : list Z) (lon lat : list float) (mask : Mask.t) : t :=
  let g := np_meshgrid lon lat in
  {| time := time; lon := lon; lat := lat; mlon := g.1; mlat := g.2; mask := mask |}.

Section Generators.
Context `{Numerics}.

(** The value [100 * lon_term * lat_term] of one cell at time position [t]. *)
Definition cfc_value (t : nat) (lon lat : float) : float :=
  let lon_term := sq (sin (float_of_nat t / 5 * deg2rad lon)) in
  let lat_term := sq (cos (float_of_nat t / 10 * deg2rad lat)) in
  (100 * lon_term * lat_term)%float.

(** [(cfc < 10) | (cfc > 20)] *)
Definition cfc_valid (v : float) : bool := (v <? 10)%float || (20 <? v)%float.

Definition _get_cfc (self : t) : cube float :=
  let nt := length (time self) in
  let cfc := np_zeros nt (length (lat self)) (length (lon self)) 0%float in
  let cfc :=
    fold_left (fun cfc t =>
                 assign_plane cfc t (zip_plane (cfc_value t) (mlon self) (mlat self)))
              (range nt) cfc in
  let cfc := map_cube (fun v => if cfc_valid v then v else F64.nan) cfc in
  map_cube (np_round 100) cfc.

(** [(lon_max - lon_min) / 2.0 * t / float(tmax)] *)
Definition span_term (lon_min lon_max : float) (t tmax : nat) : float :=
  ((lon_max - lon_min) / 2 * float_of_nat t / float_of_nat tmax)%float.

Definition nobs_value (lon_min lon_max : float) (t tmax : nat) (lon lat : float) : float :=
  (96 * sq (sin (float_of_nat t / 5
                 * deg2rad (lon + span_term lon_min lon_max t tmax)
                 * deg2rad lat)))%float.

Definition _get_nobs (self : t) : result (cube Z) :=
  lon_min ← np_min (lon self);
  lon_max ← np_max (lon self);
  let nt := length (time self) in
  let nobs := np_zeros nt (length (lat self)) (length (lon self)) 0 in
  let times := range nt in
  tmax ← py_max times;
  Ok (fold_left (fun nobs t =>
                   assign_plane nobs t
                     (map_plane cast_uint8
                        (zip_plane (nobs_value lon_min lon_max t tmax)
                                   (mlon self) (mlat self))))
                times nobs).

(** [qual[:, rows, :] = code] with a boolean index along the lat axis. *)
Definition assign_lat_rows (qual : cube Z) (rows : list bool) (code : Z) : cube Z :=
  map (fun p => zip_with (fun (b : bool) row => if b then map (fun _ => code) row else row)
                         rows p) qual.

Definition _get_quality (self : t) : cube Z :=
  let lat := lat self in
  let lon := lon self in
  let qual := np_zeros (length (time self)) (length lat) (length lon) 0 in
  let low_lats := map (fun l => (PrimFloat.abs l <? 30)%float) lat in
  let med_lats := map (fun l => (30 <? PrimFloat.abs l)%float && (PrimFloat.abs l <? 65)%float) lat in
  let hi_lats := map (fun l => (65 <? PrimFloat.abs l)%float) lat in
  let qual := assign_lat_rows qual low_lats 0 in
  let qual := assign_lat_rows qual med_lats 1 in
  assign_lat_rows qual hi_lats 2.

Definition get_dataset (self : t) : result Dataset :=
  let cfc := _get_cfc self in
  nobs ← _get_nobs self;
  let quality := _get_quality self in
  ds ← xr_Dataset
         [("cfc_dm", map_cube CFloat cfc);
          ("nobs", map_cube CUInt8 nobs);
          ("quality", map_cube CUInt8 quality)]
         [("title", "Clouds"); ("variable_id", "cfc_dm")];
  Mask.mask_timestamps (mask self) ds
    [("cfc_dm", CFloat F64.nan); ("nobs", CUInt8 0)].

End Generators.
End Clouds.

(** ** class Radiation *)
Module Radiation.

Record t : Type := {
  time : list Z;
  lon : list float;
  lat : list float;
  mask : Mask.t
}.

Definition __init__ (time : list Z) (lon lat : list float) (mask : Mask.t) : t :=
  {| time := time; lon := lon; lat := lat; mask := mask |}.

Definition float_of_Z (z : Z) : float :=
  if z <? 0 then (- float_of_nat (Z.to_nat (- z)))%float else float_of_nat (Z.to_nat z).

(** One axis of [np.ogrid[start:stop:complex(0, n)]]: [n] points
    [k * step + start] with [step = (stop - start) / float(n - 1)], and
    [step = 1] when [n = 1]. *)
Definition ogrid_axis (start stop : Z) (n : nat) : list float :=
  let step :=
    match n with
    | 1%nat => 1%float
    | _ => (float_of_Z (stop - start) / float_of_Z (Z.of_nat n - 1))%float
    end in
  map (fun k => (float_of_nat k * step + float_of_Z start)%float) (range n).

Definition heart_extent : float := 1.2%float.

(** [(x**2 + (5 * y / 4 - np.sqrt(np.abs(x))) ** 2 - 1) <= 0] *)
Definition heart_cell (x y : float) : bool :=
  (x * x + sq (5 * y / 4 - PrimFloat.sqrt (PrimFloat.abs x)) - 1 <=? 0)%float.

Definition heart (rows cols : nat) : plane bool :=
  let y := ogrid_axis 1 (-1) rows in
  let x := ogrid_axis (-1) 1 cols in
  let x := map (fun v => (v * heart_extent)%float) x in
  let y := map (fun v => (v * heart_extent)%float) y in
  map (fun yi => map (fun xj => heart_cell xj yi) x) y.

(** Storing a boolean in a float64 array. *)
Definition float_of_bool (b : bool) : float := if b then 1%float else 0%float.

Section Generators.
Context `{Numerics}.

(** [rotate(h, angle=angle, reshape=False)]: the output has the shape of
    the input. *)
Definition rotate (h : plane bool) (angle : float) : plane bool :=
  imap (fun i row => imap (fun j _ => rotate_at h angle i j) row) h.

Definition get_sdu (self : t) : cube float :=
  let ntimes := length (time self) in
  let rows := length (lat self) in
  let cols := length (lon self) in
  let heart := heart rows cols in
  let hearts := np_zeros ntimes rows cols 0%float in
  fold_left (fun hearts i =>
               let angle := (float_of_nat (360 * i) / float_of_nat ntimes)%float in
               assign_plane hearts i (map_plane float_of_bool (rotate heart angle)))
            (range ntimes) hearts.

Definition get_dataset (self : t) : result Dataset :=
  ds ← xr_Dataset
         [("sdu", map_cube CFloat (get_sdu self))]
         [("title", "Clouds"); ("variable_id", "sdu")];
  Mask.mask_timestamps (mask self) ds [("sdu", CFloat F64.nan)].

End Generators.
End Radiation.

(** ** class DataTreeMaker *)
Module DataTreeMaker.

(** What [_get_bounds] asks of a coordinate type [C] with resolution type
    [R]: [c + r], [c - r] and [0.5 * r].  float64 coordinates have a float64
    resolution; [datetime64[ms]] coordinates (milliseconds) have a
    [timedelta64[D]] resolution (whole days, so that [0.5 * r] truncates). *)
Class Coord (C R : Type) : Type := {
  plus : C -> R -> C;
  minus : C -> R -> C;
  half : R -> R
}.

#[global] Instance float_coord : Coord float float := {
  plus c r := (c + r)%float;
  minus c r := (c - r)%float;
  half r := (0.5 * r)%float
}.

Definition day_ms : Z := 86400000.

#[global] Instance time_coord : Coord Z Z := {
  plus c r := c + r * day_ms;
  minus c r := c - r * day_ms;
  half r := Z.quot r 2
}.

Definition _get_bounds {C R} `{Coord C R} (coords : list C) (resol : R)
    (align : string) : result (list (C * C)) :=
  if String.eqb align "left" then
    Ok (map (fun c => (c, plus c resol)) coords)
  else if String.eqb align "center" then
    Ok (map (fun c => (minus c (half resol), plus c (half resol))) coords)
  else Raise NotImplementedError.

(** [xr.DataArray(np.array(bounds), dims=(axis, "bounds"))]: [np.array] of
    an empty list has one dimension, not two, and the constructor refuses
    data whose number of dimensions differs from that of [dims]. *)
Definition bounds_array {C} (bounds : list (C * C)) : result (list (C * C)) :=
  match bounds with
  | [] => Raise ValueError
  | _ => Ok bounds
  end.

(** [dtstart.replace(microsecond=0)] on a datetime in milliseconds: the
    start of its second. *)
Definition whole_second (t : Z) : Z := t - t mod 1000.

(** [list(rrule(dtstart=tstart, until=tend, freq=DAILY))] on datetimes in
    milliseconds (a fraction of a millisecond of either argument does not
    change the result): rrule drops the fraction of a second of [dtstart]
    and yields that instant, one day later, ... as long as [tend] is not
    passed. *)
Definition rrule_daily (tstart tend : Z) : list Z :=
  let dtstart := whole_second tstart in
  if tend <? dtstart then []
  else map (fun k : nat => dtstart + Z.of_nat k * day_ms)
           (range (S (Z.to_nat ((tend - dtstart) / day_ms)))).

Definition get_time (tstart tend : Z) : list Z := rrule_daily tstart tend.

Definition get_lon (lon_min lon_max dlon : float) : result (list float) :=
  lon ← np_arange lon_min (lon_max + dlon)%float dlon;
  Ok (map (np_round 10) lon).

Definition get_lat (lat_min lat_max dlat : float) : result (list float) :=
  lat ← np_arange lat_min (lat_max + dlat)%float dlat;
  Ok (map (np_round 10) lat).

Record t : Type := {
  grid_resol : float;
  time : list Z;
  lon : list float;
  lat : list float;
  time_bounds : list (Z * Z);
  lon_bounds : list (float * float);
  lat_bounds : list (float * float);
  clouds : Clouds.t;
  radiation : Radiation.t;
  rec_status : RecordStatus.t
}.

Definition get_time_bounds (time : list Z) : result (list (Z * Z)) :=
  b ← _get_bounds time 1 "left"; bounds_array b.

Definition get_lon_bounds (lon : list float) (grid_resol : float)
    : result (list (float * float)) :=
  b ← _get_bounds lon grid_resol "center"; bounds_array b.

Definition get_lat_bounds (lat : list float) (grid_resol : float)
    : result (list (float * float)) :=
  b ← _get_bounds lat grid_resol "center"; bounds_array b.

Definition __init__ (tstart tend : Z)
    (lon_min lon_max lat_min lat_max grid_resol : float)
    (void_timestamps : list Z) : result t :=
  let time := get_time tstart tend in
  lon ← get_lon lon_min lon_max grid_resol;
  lat ← get_lat lat_min lat_max grid_resol;
  time_bounds ← get_time_bounds time;
  lon_bounds ← get_lon_bounds lon grid_resol;
  lat_bounds ← get_lat_bounds lat grid_resol;
  let mask := {| Mask.void_timestamps := void_timestamps |} in
  Ok {| grid_resol := grid_resol;
        time := time; lon := lon; lat := lat;
        time_bounds := time_bounds;
        lon_bounds := lon_bounds;
        lat_bounds := lat_bounds;
        clouds := Clouds.__init__ time lon lat mask;
        radiation := Radiation.__init__ time lon lat mask;
        rec_status := {| RecordStatus.time := time;
                         RecordStatus.tvoid := void_timestamps |} |}.

(** The root group: bounds, record status and the coordinates.  The global
    attributes are descriptive metadata and are not modelled. *)
Record Root : Type := {
  root_time_bounds : list (Z * Z);
  root_lon_bounds : list (float * float);
  root_lat_bounds : list (float * float);
  root_record_status : list Z;
  coord_time : list Z;
  coord_lon : list float;
  coord_lat : list float
}.

Record DataTree : Type := {
  tree_root : Root;
  tree_clouds : Dataset;
  tree_radiation : Dataset
}.

Definition get_root (self : t) : Root :=
  {| root_time_bounds := time_bounds self;
     root_lon_bounds := lon_bounds self;
     root_lat_bounds := lat_bounds self;
     root_record_status := RecordStatus.get_record_status (rec_status self);
     coord_time := time self;
     coord_lon := lon self;
     coord_lat := lat self |}.

Section Tree.
Context `{Numerics}.

Definition get_data_tree (self : t) : result DataTree :=
  let root := get_root self in
  c ← Clouds.get_dataset (clouds self);
  r ← Radiation.get_dataset (radiation self);
  Ok {| tree_root := root; tree_clouds := c; tree_radiation := r |}.

End Tree.
End DataTreeMaker.

(** ** class DatasetWriter *)
Module DatasetWriter.

(** A value of an encoding dictionary: a string, a boolean or [None]. *)
Inductive enc_value : Set :=
  | EStr (s : string)
  | EBool (b : bool)
  | ENone.

(** [get_encoding()]: per group, per variable, the encoding options. *)
Definition get_encoding
    : list (string * list (string * list (string * enc_value))) :=
  [("/",
    [("time", [("dtype", EStr "float64");
               ("units", EStr "days since 2000-01-01 00:00:00");
               ("calendar", EStr "standard");
               ("_FillValue", ENone)]);
     ("time_bounds", [("dtype", EStr "float64"); ("_FillValue", ENone)]);
     ("lon", [("dtype", EStr "float64"); ("_FillValue", ENone)]);
     ("lon_bounds", [("dtype", EStr "float64"); ("_FillValue", ENone)]);
     ("lat", [("dtype", EStr "float64"); ("_FillValue", ENone)]);
     ("lat_bounds", [("dtype", EStr "float64"); ("_FillValue", ENone)]);
     ("record_status", [("dtype", EStr "uint8")])]);
   ("/clouds",
    [("cfc_dm", [("dtype", EStr "float32"); ("zlib", EBool true)]);
     ("nobs", [("dtype", EStr "uint8"); ("zlib", EBool true)]);
     ("quality", [("dtype", EStr "uint8"); ("zlib", EBool true)])]);
   ("/radiation",
    [("sdu", [("dtype", EStr "float32"); ("zlib", EBool true)])])].

(** [d[key]] on a dictionary given as its items. *)
Fixpoint dict_get {V} (d : list (string * V)) (key : string) : option V :=
  match d with
  | [] => None
  | (k, v) :: rest => if String.eqb k key then Some v else dict_get rest key
  end.

(** [get_encoding()[group][name]["dtype"]] *)
Definition encoding_dtype (group name : string) : option enc_value :=
  match dict_get get_encoding group with
  | Some vars =>
      match dict_get vars name with
      | Some opts => dict_get opts "dtype"
      | None => None
      end
  | None => None
  end.

End DatasetWriter.

(** An executable instance on which the generators can be run: cubic and
    quadratic polynomials stand in for libm's sine and cosine, the uint8
    store truncates toward zero, and the image is returned unrotated. *)
Definition example_numerics : Numerics :=
  {| sin x := (x - x * x * x / 6)%float;
     cos x := (1 - x * x / 2)%float;
     cast_uint8 x :=
       match Prim2SF x with
       | S754_finite s m e =>
           let n := if s then Z.neg m else Z.pos m in
           (if 0 <=? e then n * 2 ^ e else Z.quot n (2 ^ (- e))) mod 256
       | _ => 0
       end;
     rotate_at h angle i j :=
       match h !! i with
       | Some row => default false (row !! j)
       | None => false
       end |}.

(** * Verification *)

(** ** Facts about binary64 comparisons *)
Module F64Facts.
Import F64.

Lemma digits2_pos_bounds (m : positive) :
  2 ^ (Z.pos (digits2_pos m) - 1) <= Z.pos m < 2 ^ Z.pos (digits2_pos m).
Proof.
  induction m as [p IH | p IH | ]; cbn [digits2_pos].
  - rewrite Pos2Z.inj_succ. change (Z.pos p~1) with (2 * Z.pos p + 1).
    replace (Z.succ (Z.pos (digits2_pos p)) - 1) with (Z.succ (Z.pos (digits2_pos p) - 1)) by lia.
    rewrite !Z.pow_succ_r by lia.
    revert IH. generalize (2 ^ (Z.pos (digits2_pos p) - 1)) (2 ^ Z.pos (digits2_pos p)). lia.
  - rewrite Pos2Z.inj_succ. change (Z.pos p~0) with (2 * Z.pos p).
    replace (Z.succ (Z.pos (digits2_pos p)) - 1) with (Z.succ (Z.pos (digits2_pos p) - 1)) by lia.
    rewrite !Z.pow_succ_r by lia.
    revert IH. generalize (2 ^ (Z.pos (digits2_pos p) - 1)) (2 ^ Z.pos (digits2_pos p)). lia.
  - cbn. lia.
Qed.

Lemma bounded_inv (m : positive) (e : Z) :
  bounded prec emax m e = true ->
  -1074 <= e <= 971 /\ Z.pos m < 2 ^ 53 /\ (-1074 < e -> 2 ^ 52 <= Z.pos m).
Proof.
  unfold bounded, canonical_mantissa, fexp, SpecFloat.emin, prec, emax.
  intros H. apply andb_prop in H as [Hc He].
  apply Z.eqb_eq in Hc. apply Z.leb_le in He.
  pose proof (digits2_pos_bounds m) as [Hlo Hhi].
  set (d := Z.pos (digits2_pos m)) in *.
  assert (Hd : 0 < d) by (unfold d; lia).
  repeat split; try lia.
  - eapply Z.lt_le_trans; [exact Hhi |]. apply Z.pow_le_mono_r; lia.
  - intros Hgt. assert (d = 53) as Hd53 by lia.
    rewrite Hd53 in Hlo. exact Hlo.
Qed.

Lemma units_pos_lt (m1 m2 : positive) (e1 e2 : Z) :
  bounded prec emax m1 e1 = true -> bounded prec emax m2 e2 = true ->
  e1 < e2 -> Z.pos m1 * 2 ^ (e1 + 1074) < Z.pos m2 * 2 ^ (e2 + 1074).
Proof.
  intros H1 H2 Hlt.
  apply bounded_inv in H1 as (He1 & Hm1 & _).
  apply bounded_inv in H2 as (He2 & _ & Hm2).
  specialize (Hm2 ltac:(lia)).
  assert (Hp : 0 < 2 ^ (e1 + 1074)) by (apply Z.pow_pos_nonneg; lia).
  assert (Hs : 2 * 2 ^ (e1 + 1074) <= 2 ^ (e2 + 1074)).
  { rewrite <- Z.pow_succ_r by lia. apply Z.pow_le_mono_r; lia. }
  change (2 ^ 53) with (2 * 2 ^ 52) in Hm1.
  assert (H52 : 0 < 2 ^ 52) by (apply Z.pow_pos_nonneg; lia).
  revert Hm1 Hm2 Hp Hs H52.
  generalize (2 ^ 52) (2 ^ (e1 + 1074)) (2 ^ (e2 + 1074)).
  intros a b c. nia.
Qed.

Lemma units_lt_top (s : bool) (m : positive) (e : Z) :
  bounded prec emax m e = true -> - top < units s m e < top.
Proof.
  intros H. apply bounded_inv in H as (He & Hm & _).
  assert (Hu : 0 < Z.pos m * 2 ^ (e + 1074) < top).
  { assert (Ht : top = 2 ^ 53 * 2 ^ 2045)
      by (unfold top; rewrite <- Z.pow_add_r by lia; reflexivity).
    rewrite Ht.
    assert (0 < 2 ^ (e + 1074) <= 2 ^ 2045).
    { split; [apply Z.pow_pos_nonneg; lia | apply Z.pow_le_mono_r; lia]. }
    revert Hm H. generalize (2 ^ 53) (2 ^ (e + 1074)) (2 ^ 2045). intros; nia. }
  unfold units. destruct s; lia.
Qed.

Lemma units_pos (m : positive) (e : Z) :
  bounded prec emax m e = true -> 0 < Z.pos m * 2 ^ (e + 1074).
Proof.
  intros H. apply bounded_inv in H as (He & _ & _).
  assert (0 < 2 ^ (e + 1074)) by (apply Z.pow_pos_nonneg; lia). lia.
Qed.

Definition cmp_ranks (a b : option Z) : option comparison :=
  match a, b with
  | Some x, Some y => Some (x ?= y)
  | _, _ => None
  end.

Ltac cmp_goal :=
  lazy beta iota;
  lazymatch goal with
  | |- Some ?c = Some (_ ?= _) =>
      apply f_equal; symmetry;
      lazymatch c with
      | Lt => apply Z.compare_lt_iff
      | Gt => apply Z.compare_gt_iff
      | Eq => apply Z.compare_eq_iff
      end
  end.

Lemma units_cmp_same_exp (mx my : positive) (k : Z) :
  0 < k -> (Z.pos mx * k ?= Z.pos my * k) = Pos.compare_cont Eq mx my.
Proof.
  intros Hk. rewrite Pos.compare_cont_spec. cbn [Pos.switch_Eq].
  change (Pos.compare mx my) with (Z.pos mx ?= Z.pos my).
  destruct (Z.compare_spec (Z.pos mx) (Z.pos my)) as [E | L | G].
  - apply Z.compare_eq_iff. rewrite E. reflexivity.
  - apply Z.compare_lt_iff. nia.
  - apply Z.compare_gt_iff. nia.
Qed.

(** On valid binary64 values the IEEE comparison is the comparison of ranks. *)
Lemma SFcompare_rank (x y : spec_float) :
  valid_binary x = true -> valid_binary y = true ->
  SFcompare x y = cmp_ranks (sf_rank x) (sf_rank y).
Proof.
  assert (Htop : 0 < top) by (apply Z.pow_pos_nonneg; lia).
  destruct x as [sx | sx | | sx mx ex], y as [sy | sy | | sy my ey];
    cbn [valid_binary sf_rank cmp_ranks SFcompare]; intros Hx Hy;
    try reflexivity.
  - destruct sy; cmp_goal; lia.
  - pose proof (units_pos my ey Hy). unfold units. destruct sy; cmp_goal; lia.
  - destruct sx; cmp_goal; lia.
  - destruct sx, sy; cmp_goal; lia.
  - pose proof (units_lt_top sy my ey Hy). destruct sx; cmp_goal; lia.
  - pose proof (units_pos mx ex Hx). unfold units. destruct sx; cmp_goal; lia.
  - pose proof (units_lt_top sx mx ex Hx). destruct sy; cmp_goal; lia.
  - pose proof (units_pos mx ex Hx) as Px. pose proof (units_pos my ey Hy) as Py.
    assert (Hk : 0 < 2 ^ (ey + 1074))
      by (apply bounded_inv in Hy; apply Z.pow_pos_nonneg; lia).
    unfold units. destruct sx, sy; try (cmp_goal; lia).
    + destruct (Z.compare_spec ex ey) as [-> | Hlt | Hgt].
      * apply f_equal. rewrite <- (units_cmp_same_exp mx my _ Hk).
        rewrite <- Z.compare_antisym, <- Z.compare_opp. f_equal; lia.
      * pose proof (units_pos_lt mx my ex ey Hx Hy Hlt). cmp_goal; lia.
      * pose proof (units_pos_lt my mx ey ex Hy Hx Hgt). cmp_goal; lia.
    + destruct (Z.compare_spec ex ey) as [-> | Hlt | Hgt].
      * apply f_equal. rewrite <- (units_cmp_same_exp mx my _ Hk).
        f_equal; lia.
      * pose proof (units_pos_lt mx my ex ey Hx Hy Hlt). cmp_goal; lia.
      * pose proof (units_pos_lt my mx ey ex Hy Hx Hgt). cmp_goal; lia.
Qed.

Lemma compare_rank (x y : float) :
  SFcompare (Prim2SF x) (Prim2SF y) = cmp_ranks (rank x) (rank y).
Proof. apply SFcompare_rank; apply Prim2SF_valid. Qed.

Lemma ltb_rank (x y : float) :
  PrimFloat.ltb x y =
  match rank x, rank y with Some a, Some b => a <? b | _, _ => false end.
Proof.
  rewrite FloatAxioms.ltb_spec. unfold SFltb. rewrite compare_rank. unfold cmp_ranks.
  destruct (rank x) as [a |], (rank y) as [b |]; reflexivity.
Qed.

Lemma leb_rank (x y : float) :
  PrimFloat.leb x y =
  match rank x, rank y with Some a, Some b => a <=? b | _, _ => false end.
Proof.
  rewrite FloatAxioms.leb_spec. unfold SFleb. rewrite compare_rank. unfold cmp_ranks.
  destruct (rank x) as [a |], (rank y) as [b |]; reflexivity.
Qed.

Lemma eqb_rank (x y : float) :
  PrimFloat.eqb x y =
  match rank x, rank y with Some a, Some b => a =? b | _, _ => false end.
Proof.
  rewrite FloatAxioms.eqb_spec. unfold SFeqb. rewrite compare_rank. unfold cmp_ranks.
  destruct (rank x) as [a |], (rank y) as [b |]; try reflexivity.
  symmetry. apply Z.eqb_compare.
Qed.

Lemma rank_abs (x : float) : rank (PrimFloat.abs x) = Z.abs <$> rank x.
Proof.
  unfold rank. rewrite FloatAxioms.abs_spec.
  pose proof (Prim2SF_valid x) as Hv.
  assert (Htop : 0 < top) by (apply Z.pow_pos_nonneg; lia).
  destruct (Prim2SF x) as [s | s | | s m e]; cbn [SFabs sf_rank fmap option_fmap option_map].
  - reflexivity.
  - destruct s; f_equal; lia.
  - reflexivity.
  - cbn [valid_binary] in Hv. pose proof (units_pos m e Hv).
    unfold units. destruct s; f_equal; lia.
Qed.

Lemma value_rank (x : float) (a : Z) : value x = Some a -> rank x = Some a.
Proof.
  unfold value, rank. destruct (Prim2SF x); cbn; congruence.
Qed.

Lemma is_nan_rank (x : float) : is_nan x = true <-> rank x = None.
Proof.
  unfold is_nan. rewrite eqb_rank.
  destruct (rank x) as [a |]; [rewrite Z.eqb_refl |]; cbn; split; congruence.
Qed.

Lemma rank_None_nan (x : float) : rank x = None -> x = nan.
Proof.
  unfold rank. intros H. apply Prim2SF_inj.
  destruct (Prim2SF x); try discriminate. reflexivity.
Qed.

End F64Facts.

(** ** Rounding of binary64 sums

    [binary_round] of the specification rounds a mantissa and an exponent.
    Its result depends on their value [m * 2^e] only, and is the float itself
    when [m], [e] is a float; hence the sum and the difference of two finite
    floats are obtained by rounding the exact sum or difference. *)
Module F64Round.
Import F64.

Fixpoint shl (m : positive) (n : nat) : positive :=
  match n with
  | O => m
  | S n => xO (shl m n)
  end.

Fixpoint shr_n (n : nat) (mrs : shr_record) : shr_record :=
  match n with
  | O => mrs
  | S n => shr_1 (shr_n n mrs)
  end.

Definition rec0 (m : positive) : shr_record :=
  {| shr_m := Z.pos m; shr_r := false; shr_s := false |}.

Lemma shr_n_add (j k : nat) (mrs : shr_record) :
  shr_n (j + k) mrs = shr_n j (shr_n k mrs).
Proof. induction j as [| j IH]; [done |]. cbn. by rewrite IH. Qed.

Lemma shr_n_succ_r (n : nat) (mrs : shr_record) :
  shr_n (S n) mrs = shr_n n (shr_1 mrs).
Proof. replace (S n) with (n + 1)%nat by lia. by rewrite shr_n_add. Qed.

Lemma iter_pos_shr (p : positive) (mrs : shr_record) :
  SpecFloat.iter_pos shr_1 p mrs = shr_n (Pos.to_nat p) mrs.
Proof.
  revert mrs. induction p as [p IH | p IH |]; intros mrs; cbn [SpecFloat.iter_pos].
  - rewrite !IH, Pos2Nat.inj_xI, <- shr_n_add, <- shr_n_succ_r. f_equal. lia.
  - rewrite !IH, Pos2Nat.inj_xO, <- shr_n_add. f_equal. lia.
  - reflexivity.
Qed.

Lemma pos_iter_shl (m d : positive) : Pos.iter xO m d = shl m (Pos.to_nat d).
Proof.
  rewrite Pos2Nat.inj_iter. induction (Pos.to_nat d) as [| n IH]; [done |].
  cbn. by rewrite IH.
Qed.

Lemma shl_align_nat (mx : positive) (ex ex' : Z) :
  shl_align mx ex ex' = (shl mx (Z.to_nat (ex - ex')), Z.min ex ex').
Proof.
  unfold shl_align. destruct (ex' - ex) as [| d | d] eqn:Hd.
  - replace (Z.to_nat (ex - ex')) with 0%nat by lia. cbn. f_equal. lia.
  - replace (Z.to_nat (ex - ex')) with 0%nat by lia. cbn. f_equal. lia.
  - rewrite pos_iter_shl.
    replace (Z.to_nat (ex - ex')) with (Pos.to_nat d) by lia.
    f_equal. lia.
Qed.

Lemma shr_nat (mrs : shr_record) (e n : Z) :
  shr mrs e n = (shr_n (Z.to_nat n) mrs, e + Z.max n 0).
Proof.
  unfold shr. destruct n as [| p | p]; cbn [Z.to_nat shr_n].
  - f_equal; lia.
  - rewrite iter_pos_shr. f_equal; lia.
  - f_equal; lia.
Qed.

Lemma digits_shl (m : positive) (n : nat) :
  Z.pos (digits2_pos (shl m n)) = Z.pos (digits2_pos m) + Z.of_nat n.
Proof.
  induction n as [| n IH]; [cbn; lia |].
  cbn [shl digits2_pos]. lia.
Qed.

Lemma Zpos_shl (m : positive) (n : nat) : Z.pos (shl m n) = Z.pos m * 2 ^ Z.of_nat n.
Proof.
  induction n as [| n IH]; [cbn; lia |].
  cbn [shl]. rewrite Nat2Z.inj_succ, Z.pow_succ_r by lia. lia.
Qed.

Lemma shl_shl (m : positive) (k n : nat) : shl (shl m k) n = shl m (n + k).
Proof. induction n as [| n IH]; [done |]. cbn. by rewrite IH. Qed.

Lemma shr_shl (m : positive) (j n : nat) :
  shr_n j (rec0 (shl m (j + n))) = rec0 (shl m n).
Proof.
  revert n. induction j as [| j IH]; intros n; [reflexivity |].
  cbn [shr_n]. replace (S j + n)%nat with (j + S n)%nat by lia.
  rewrite IH. reflexivity.
Qed.

(** The first alignment of [binary_round]: the mantissa brought to the
    exponent [fexp] asks for, with the bits shifted out recorded. *)
Definition stage (m : positive) (e : Z) : shr_record * Z :=
  let F := fexp prec emax (Z.pos (digits2_pos m) + e) in
  (shr_n (Z.to_nat (F - e)) (rec0 (shl m (Z.to_nat (e - F)))), F).

Definition finish (sx : bool) (st : shr_record * Z) : spec_float :=
  let '(mrs', e') := st in
  let '(mrs'', e'') :=
    shr_fexp prec emax (round_nearest_even (shr_m mrs') (loc_of_shr_record mrs'))
             e' loc_Exact in
  match shr_m mrs'' with
  | Z0 => S754_zero sx
  | Zpos m => if e'' <=? emax - prec then S754_finite sx m e'' else S754_infinity sx
  | _ => S754_nan
  end.

Lemma binary_round_stage (s : bool) (m : positive) (e : Z) :
  binary_round prec emax s m e = finish s (stage m e).
Proof.
  unfold binary_round, stage. rewrite shl_align_nat.
  set (F := fexp prec emax (Z.pos (digits2_pos m) + e)).
  unfold binary_round_aux, finish.
  replace (shr_fexp prec emax (Z.pos (shl m (Z.to_nat (e - F)))) (e `min` F) loc_Exact)
    with (shr_n (Z.to_nat (F - e)) (rec0 (shl m (Z.to_nat (e - F)))), F); [done |].
  unfold shr_fexp. cbn [Zdigits2 shr_record_of_loc]. rewrite digits_shl.
  replace (Z.pos (digits2_pos m) + Z.of_nat (Z.to_nat (e - F)) + e `min` F)
    with (Z.pos (digits2_pos m) + e) by lia.
  fold F. rewrite shr_nat. fold (rec0 (shl m (Z.to_nat (e - F)))).
  f_equal; [f_equal |]; lia.
Qed.

Lemma stage_shl (m : positive) (k : nat) (e : Z) :
  stage (shl m k) e = stage m (e + Z.of_nat k).
Proof.
  unfold stage. rewrite digits_shl.
  replace (Z.pos (digits2_pos m) + Z.of_nat k + e)
    with (Z.pos (digits2_pos m) + (e + Z.of_nat k)) by lia.
  set (F := fexp prec emax _). f_equal. rewrite shl_shl.
  destruct (Z.le_gt_cases F e) as [H1 | H1].
  - replace (Z.to_nat (F - e)) with 0%nat by lia.
    replace (Z.to_nat (F - (e + Z.of_nat k))) with 0%nat by lia.
    cbn [shr_n]. do 2 f_equal. lia.
  - destruct (Z.le_gt_cases F (e + Z.of_nat k)) as [H2 | H2].
    + replace (Z.to_nat (F - (e + Z.of_nat k))) with 0%nat by lia. cbn [shr_n].
      replace (Z.to_nat (e - F) + k)%nat
        with (Z.to_nat (F - e) + Z.to_nat (e + Z.of_nat k - F))%nat by lia.
      apply shr_shl.
    + replace (Z.to_nat (e - F) + k)%nat with (k + 0)%nat by lia.
      replace (Z.to_nat (F - e)) with (Z.to_nat (F - (e + Z.of_nat k)) + k)%nat by lia.
      rewrite shr_n_add, shr_shl.
      by replace (Z.to_nat (e + Z.of_nat k - F)) with 0%nat by lia.
Qed.

(** Rounding does not depend on how the value is written. *)
Lemma binary_round_shl (s : bool) (m : positive) (k : nat) (e : Z) :
  binary_round prec emax s (shl m k) e = binary_round prec emax s m (e + Z.of_nat k).
Proof. by rewrite !binary_round_stage, stage_shl. Qed.

Lemma binary_normalize_scale (M k e : Z) (sz : bool) :
  0 <= k ->
  binary_normalize prec emax (M * 2 ^ k) e sz = binary_normalize prec emax M (e + k) sz.
Proof.
  intros Hk. destruct M as [| m | m].
  - reflexivity.
  - replace (Z.pos m * 2 ^ k) with (Z.pos (shl m (Z.to_nat k)))
      by (rewrite Zpos_shl, Z2Nat.id by done; reflexivity).
    cbn [binary_normalize]. rewrite binary_round_shl. f_equal. lia.
  - replace (Z.neg m * 2 ^ k) with (Z.neg (shl m (Z.to_nat k))).
    + cbn [binary_normalize]. rewrite binary_round_shl. f_equal. lia.
    + pose proof (Zpos_shl m (Z.to_nat k)) as Hp. rewrite Z2Nat.id in Hp by done. lia.
Qed.

Lemma binary_round_canonical (s : bool) (m : positive) (e : Z) :
  bounded prec emax m e = true -> binary_round prec emax s m e = S754_finite s m e.
Proof.
  intros Hb. apply andb_prop in Hb as [Hc He].
  unfold canonical_mantissa in Hc. apply Z.eqb_eq in Hc.
  rewrite binary_round_stage. unfold stage. cbv zeta. rewrite Hc, Z.sub_diag.
  change (Z.to_nat 0) with 0%nat.
  cbn [shr_n shl finish rec0 shr_m loc_of_shr_record round_nearest_even].
  unfold shr_fexp. cbn [Zdigits2 shr_record_of_loc]. rewrite Hc, Z.sub_diag.
  cbn [shr shr_m]. by rewrite He.
Qed.


Lemma shr_1_nonneg (mrs : shr_record) : 0 <= shr_m mrs -> 0 <= shr_m (shr_1 mrs).
Proof. destruct mrs as [[| [p | p |] | p] r s]; cbn; lia. Qed.

Lemma shr_n_nonneg (n : nat) (mrs : shr_record) :
  0 <= shr_m mrs -> 0 <= shr_m (shr_n n mrs).
Proof. intros Hm. induction n as [| n IH]; [done |]. by apply shr_1_nonneg. Qed.

Lemma round_nearest_even_nonneg (m : Z) (l : location) :
  0 <= m -> 0 <= round_nearest_even m l.
Proof. intros Hm. destruct l as [| []]; cbn; try destruct (Z.even m); lia. Qed.

Lemma finish_not_nan (s : bool) (mrs : shr_record) (e : Z) :
  0 <= shr_m mrs -> finish s (mrs, e) <> S754_nan.
Proof.
  intros Hm. unfold finish, shr_fexp. rewrite shr_nat. cbn [shr_record_of_loc].
  pose proof (shr_n_nonneg
                (Z.to_nat
                   (fexp prec emax
                      (Zdigits2 (round_nearest_even (shr_m mrs) (loc_of_shr_record mrs))
                       + e) - e))
                {| shr_m := round_nearest_even (shr_m mrs) (loc_of_shr_record mrs);
                   shr_r := false; shr_s := false |}
                (round_nearest_even_nonneg _ _ Hm)) as Hn.
  destruct (shr_m (shr_n _ _)) as [| p | p]; [done | | lia].
  by destruct (_ <=? _).
Qed.

Lemma binary_round_not_nan (s : bool) (m : positive) (e : Z) :
  binary_round prec emax s m e <> S754_nan.
Proof.
  rewrite binary_round_stage. unfold stage. cbv zeta.
  apply finish_not_nan, shr_n_nonneg. cbn. lia.
Qed.

(** The float nearest to [v * 2^-1074]. *)
Definition round_units (v : Z) : spec_float := binary_normalize prec emax v (-1074) false.

(** A float with the sign of a zero forgotten. *)
Definition unsign (x : spec_float) : spec_float :=
  match x with
  | S754_zero _ => S754_zero false
  | _ => x
  end.

Lemma round_units_not_nan (v : Z) : round_units v <> S754_nan.
Proof.
  unfold round_units. destruct v; cbn [binary_normalize];
    [done | apply binary_round_not_nan ..].
Qed.

Lemma bounded_exp (m : positive) (e : Z) : bounded prec emax m e = true -> -1074 <= e.
Proof.
  intros Hb. apply andb_prop in Hb as [Hc _].
  unfold canonical_mantissa, fexp, SpecFloat.emin, prec, emax in Hc. apply Z.eqb_eq in Hc. lia.
Qed.

Lemma units_align (s : bool) (m : positive) (e ez : Z) :
  -1074 <= ez <= e ->
  units s m e
  = cond_Zopp s (Z.pos (shl m (Z.to_nat (e - ez)))) * 2 ^ (ez + 1074).
Proof.
  intros He. unfold units. rewrite Zpos_shl, Z2Nat.id by lia.
  replace (e + 1074) with ((e - ez) + (ez + 1074)) by lia.
  rewrite Z.pow_add_r by lia. destruct s; cbn [cond_Zopp]; lia.
Qed.

Lemma round_units_finite (s : bool) (m : positive) (e : Z) :
  bounded prec emax m e = true -> round_units (units s m e) = S754_finite s m e.
Proof.
  intros Hb. pose proof (bounded_exp m e Hb) as He.
  unfold round_units. rewrite (units_align s m e e) by lia.
  rewrite Z.sub_diag. cbn [Z.to_nat shl].
  rewrite binary_normalize_scale by lia.
  replace (-1074 + (e + 1074)) with e by lia.
  destruct s; cbn [cond_Zopp Z.opp binary_normalize]; by apply binary_round_canonical.
Qed.

Lemma round_units_align (S ez : Z) :
  -1074 <= ez ->
  round_units (S * 2 ^ (ez + 1074)) = binary_normalize prec emax S ez false.
Proof.
  intros He. unfold round_units. rewrite binary_normalize_scale by lia.
  f_equal. lia.
Qed.

Lemma sf_add_units (x y : spec_float) (a b : Z) :
  valid_binary x = true -> valid_binary y = true ->
  sf_value x = Some a -> sf_value y = Some b ->
  unsign (SFadd prec emax x y) = unsign (round_units (a + b)).
Proof.
  intros Hx Hy Ha Hb.
  destruct x as [sx | sx | | sx mx ex], y as [sy | sy | | sy my ey];
    cbn [sf_value] in Ha, Hb; try discriminate;
    injection Ha as <-; injection Hb as <-; cbn [SpecFloat.valid_binary] in Hx, Hy.
  - by destruct sx, sy.
  - cbn [SFadd]. rewrite Z.add_0_l. by rewrite round_units_finite.
  - cbn [SFadd]. rewrite Z.add_0_r. by rewrite round_units_finite.
  - pose proof (bounded_exp _ _ Hx). pose proof (bounded_exp _ _ Hy).
    cbn [SFadd]. cbv zeta. rewrite !shl_align_nat. cbn [fst].
    rewrite (units_align sx mx ex (Z.min ex ey)) by lia.
    rewrite (units_align sy my ey (Z.min ex ey)) by lia.
    rewrite <- Z.mul_add_distr_r, round_units_align by lia. reflexivity.
Qed.

Lemma sf_sub_units (x y : spec_float) (a b : Z) :
  valid_binary x = true -> valid_binary y = true ->
  sf_value x = Some a -> sf_value y = Some b ->
  unsign (SFsub prec emax x y) = unsign (round_units (a - b)).
Proof.
  intros Hx Hy Ha Hb.
  destruct x as [sx | sx | | sx mx ex], y as [sy | sy | | sy my ey];
    cbn [sf_value] in Ha, Hb; try discriminate;
    injection Ha as <-; injection Hb as <-; cbn [SpecFloat.valid_binary] in Hx, Hy.
  - by destruct sx, sy.
  - cbn [SFsub].
    replace (0 - units sy my ey) with (units (negb sy) my ey)
      by (unfold units; destruct sy; cbn [negb]; lia).
    by rewrite round_units_finite.
  - cbn [SFsub]. rewrite Z.sub_0_r. by rewrite round_units_finite.
  - pose proof (bounded_exp _ _ Hx). pose proof (bounded_exp _ _ Hy).
    cbn [SFsub]. cbv zeta. rewrite !shl_align_nat. cbn [fst].
    rewrite (units_align sx mx ex (Z.min ex ey)) by lia.
    rewrite (units_align sy my ey (Z.min ex ey)) by lia.
    rewrite <- Z.mul_sub_distr_r, round_units_align by lia. reflexivity.
Qed.

(** Addition and subtraction of finite floats round the exact result. *)
Lemma add_units (x y : float) (a b : Z) :
  value x = Some a -> value y = Some b ->
  unsign (Prim2SF (x + y)) = unsign (round_units (a + b)).
Proof.
  intros Ha Hb. rewrite add_spec.
  apply sf_add_units; try done; apply Prim2SF_valid.
Qed.

Lemma sub_units (x y : float) (a b : Z) :
  value x = Some a -> value y = Some b ->
  unsign (Prim2SF (x - y)) = unsign (round_units (a - b)).
Proof.
  intros Ha Hb. rewrite sub_spec.
  apply sf_sub_units; try done; apply Prim2SF_valid.
Qed.

Lemma unsign_not_nan (x : spec_float) : unsign x <> S754_nan -> x <> S754_nan.
Proof. by destruct x. Qed.

Lemma unsign_eqb (x y : spec_float) :
  unsign x = unsign y -> x <> S754_nan -> SFeqb x y = true.
Proof.
  intros Hxy Hx. unfold SFeqb.
  destruct x as [sx | sx | | sx mx ex], y as [sy | sy | | sy my ey];
    cbn [unsign] in Hxy; try discriminate; try done.
  - injection Hxy as ->. by destruct sy.
  - injection Hxy as -> -> ->. cbn [SFcompare].
    rewrite Z.compare_refl, Pos.compare_cont_refl. by destruct sy.
Qed.

(** Two sums with the same exact value are equal floats. *)
Lemma same_value_eqb (u l : float) (v : Z) :
  unsign (Prim2SF u) = unsign (round_units v) ->
  unsign (Prim2SF l) = unsign (round_units v) ->
  (u =? l)%float = true.
Proof.
  intros Hu Hl. rewrite FloatAxioms.eqb_spec. apply unsign_eqb; [congruence |].
  apply unsign_not_nan. rewrite Hu.
  pose proof (round_units_not_nan v). by destruct (round_units v).
Qed.

End F64Round.

(** ** Reading arrays *)

(** [a[t, i, j]] *)
Definition cell_at {A} (a : cube A) (t i j : nat) : option A :=
  match a !! t with
  | Some p => match p !! i with
              | Some r => r !! j
              | None => None
              end
  | None => None
  end.

(** [p.shape == (nlat, nlon)] and [a.shape == (nt, nlat, nlon)] *)
Definition plane_shape {A} (p : plane A) (nlat nlon : nat) : Prop :=
  length p = nlat /\ Forall (fun r => length r = nlon) p.

Definition has_shape {A} (a : cube A) (nt nlat nlon : nat) : Prop :=
  length a = nt /\ Forall (fun p => plane_shape p nlat nlon) a.

(** The array whose cell (t, i, j) is [h t lon[j] lat[i]]: the closed form of
    the generators' loops over [range(nt)] on the meshgrid. *)
Definition grid {A} (nt : nat) (lat lon : list float)
    (h : nat -> float -> float -> A) : cube A :=
  map (fun t => map (fun y => map (fun x => h t x y) lon) lat) (range nt).

Section ArrayFacts.
Context {A B : Type}.

Lemma fold_assign_prefix (f : nat -> plane A) (k : nat) (arr : cube A) :
  (k <= length arr)%nat ->
  fold_left (fun a t => assign_plane a t (f t)) (range k) arr
  = map f (range k) ++ drop k arr.
Proof.
  unfold range, assign_plane. induction k as [| k IH]; intros Hk.
  - cbn. by rewrite drop_0.
  - rewrite seq_S, fold_left_app, IH by lia. cbn [fold_left plus].
    rewrite map_app. cbn [map].
    destruct (lookup_lt_is_Some_2 arr k ltac:(lia)) as [x Hx].
    rewrite (drop_S _ _ _ Hx).
    rewrite insert_app_r_alt by (rewrite length_map, length_seq; lia).
    rewrite length_map, length_seq, Nat.sub_diag. cbn [insert list_insert].
    by rewrite <- app_assoc.
Qed.

Lemma fold_assign_range (f : nat -> plane A) (n : nat) (arr : cube A) :
  length arr = n ->
  fold_left (fun a t => assign_plane a t (f t)) (range n) arr = map f (range n).
Proof.
  intros Hn. rewrite fold_assign_prefix by lia.
  rewrite drop_ge by lia. apply app_nil_r.
Qed.

Lemma zip_meshgrid (f : float -> float -> A) (lon lat : list float) :
  zip_plane f (np_meshgrid lon lat).1 (np_meshgrid lon lat).2
  = map (fun y => map (fun x => f x y) lon) lat.
Proof.
  unfold zip_plane, np_meshgrid. cbn [fst snd].
  induction lat as [| y lat IH]; [done |].
  cbn [map zip_with]. f_equal; [| exact IH].
  clear. induction lon as [| x lon IH]; [done |].
  cbn [map zip_with]. by rewrite IH.
Qed.

Lemma np_zeros_grid (z : A) (nt : nat) (lat lon : list float) :
  np_zeros nt (length lat) (length lon) z = grid nt lat lon (fun _ _ _ => z).
Proof.
  unfold np_zeros, grid, range.
  assert (Hr : forall (C D : Type) (l : list C) (d : D),
             replicate (length l) d = map (fun _ => d) l).
  { intros C D l d. induction l; [done |]. cbn. by f_equal. }
  rewrite !Hr. by rewrite <- (Hr nat _ (seq 0 nt)), length_seq.
Qed.

Lemma map_cube_grid (g : A -> B) (h : nat -> float -> float -> A)
    (nt : nat) (lat lon : list float) :
  map_cube g (grid nt lat lon h) = grid nt lat lon (fun t x y => g (h t x y)).
Proof.
  unfold map_cube, map_plane, grid.
  rewrite map_map. apply map_ext. intros t.
  rewrite map_map. apply map_ext. intros y.
  by rewrite map_map.
Qed.

Lemma grid_cell_at (h : nat -> float -> float -> A) (nt : nat)
    (lat lon : list float) (t i j : nat) (x y : float) :
  (t < nt)%nat -> lat !! i = Some y -> lon !! j = Some x ->
  cell_at (grid nt lat lon h) t i j = Some (h t x y).
Proof.
  intros Ht Hy Hx. unfold cell_at, grid, range.
  rewrite list_lookup_fmap, lookup_seq_lt by done. cbn.
  rewrite list_lookup_fmap, Hy. cbn.
  by rewrite list_lookup_fmap, Hx.
Qed.

Lemma map_plane_shape (g : A -> B) (p : plane A) (nlat nlon : nat) :
  plane_shape p nlat nlon -> plane_shape (map_plane g p) nlat nlon.
Proof.
  unfold plane_shape, map_plane. intros [Hl Hf].
  split; [by rewrite length_map |].
  apply List.Forall_forall. intros r Hr. apply in_map_iff in Hr as (r0 & <- & Hr0).
  rewrite List.Forall_forall in Hf. rewrite length_map. by apply Hf.
Qed.

Lemma grid_shape (h : nat -> float -> float -> A) (nt : nat) (lat lon : list float) :
  has_shape (grid nt lat lon h) nt (length lat) (length lon).
Proof.
  unfold has_shape, plane_shape, grid, range. split.
  - by rewrite length_map, length_seq.
  - apply List.Forall_forall. intros p Hp. apply in_map_iff in Hp as (t & <- & _).
    split; [by rewrite length_map |].
    apply List.Forall_forall. intros r Hr. apply in_map_iff in Hr as (y & <- & _).
    by rewrite length_map.
Qed.

Lemma map_cube_shape (g : A -> B) (a : cube A) (nt nlat nlon : nat) :
  has_shape a nt nlat nlon -> has_shape (map_cube g a) nt nlat nlon.
Proof.
  unfold has_shape, map_cube. intros [Hl Hf]. split.
  - by rewrite length_map.
  - apply List.Forall_forall. intros p Hp. apply in_map_iff in Hp as (p0 & <- & Hp0).
    rewrite List.Forall_forall in Hf. by apply map_plane_shape, Hf.
Qed.

End ArrayFacts.

(** ** Closed forms of the generators *)

Lemma zip_with_map_same {A B C D} (f : B -> C -> D) (g : A -> B) (k : A -> C)
    (l : list A) :
  zip_with f (map g l) (map k l) = map (fun a => f (g a) (k a)) l.
Proof. induction l as [| a l IH]; [done |]. cbn. by rewrite IH. Qed.

Lemma assign_lat_rows_grid (h : nat -> float -> float -> Z) (m : float -> bool)
    (code : Z) (nt : nat) (lat lon : list float) :
  Clouds.assign_lat_rows (grid nt lat lon h) (map m lat) code
  = grid nt lat lon (fun t x y => if m y then code else h t x y).
Proof.
  unfold Clouds.assign_lat_rows, grid.
  rewrite map_map. apply map_ext. intros t.
  rewrite zip_with_map_same. apply map_ext. intros y.
  destruct (m y); [by rewrite map_map | done].
Qed.

(** The quality code of a latitude: the three assignments in order on the
    zero-initialised array. *)
Definition quality_code (y : float) : Z :=
  if (65 <? PrimFloat.abs y)%float then 2
  else if (30 <? PrimFloat.abs y)%float && (PrimFloat.abs y <? 65)%float then 1
  else if (PrimFloat.abs y <? 30)%float then 0
  else 0.

Lemma get_quality_grid (time : list Z) (lon lat : list float) (mask : Mask.t) :
  Clouds._get_quality (Clouds.__init__ time lon lat mask)
  = grid (length time) lat lon (fun _ _ y => quality_code y).
Proof.
  unfold Clouds._get_quality, Clouds.__init__. cbn [Clouds.time Clouds.lat Clouds.lon].
  rewrite np_zeros_grid, !assign_lat_rows_grid. reflexivity.
Qed.

Lemma fold_max_seq (n s acc : nat) :
  (acc <= s)%nat ->
  fold_left Nat.max (seq s n) acc = match n with O => acc | S k => (s + k)%nat end.
Proof.
  revert s acc. induction n as [| n IH]; intros s acc Hle; [done |].
  cbn [seq fold_left]. rewrite (Nat.max_r acc s Hle), IH by lia.
  destruct n; lia.
Qed.

(** [max(list(range(n + 1)))] is the last index [n]. *)
Lemma py_max_range (n : nat) : py_max (range (S n)) = Ok n.
Proof.
  unfold py_max, range. cbn [seq]. rewrite fold_max_seq by lia.
  destruct n; reflexivity.
Qed.

Section GeneratorFacts.
Context `{Numerics}.

Definition cfc_cell (t : nat) (x y : float) : float :=
  np_round 100 (let v := Clouds.cfc_value t x y in
                if Clouds.cfc_valid v then v else F64.nan).

Lemma get_cfc_grid (time : list Z) (lon lat : list float) (mask : Mask.t) :
  Clouds._get_cfc (Clouds.__init__ time lon lat mask)
  = grid (length time) lat lon cfc_cell.
Proof.
  unfold Clouds._get_cfc, Clouds.__init__.
  cbn [Clouds.time Clouds.lat Clouds.lon Clouds.mlon Clouds.mlat].
  rewrite fold_assign_range
    by (unfold np_zeros; by rewrite length_replicate).
  erewrite map_ext by (intros t; apply zip_meshgrid).
  change (map _ (range (length time)))
    with (grid (length time) lat lon Clouds.cfc_value).
  rewrite !map_cube_grid. reflexivity.
Qed.

Lemma get_nobs_grid (time : list Z) (lon lat : list float) (mask : Mask.t)
    (x0 : float) (lon' : list float) (t0 : Z) (time' : list Z) :
  lon = x0 :: lon' -> time = t0 :: time' ->
  exists lon_min lon_max,
    np_min lon = Ok lon_min /\ np_max lon = Ok lon_max /\
    Clouds._get_nobs (Clouds.__init__ time lon lat mask)
    = Ok (grid (length time) lat lon
            (fun t x y => cast_uint8
               (Clouds.nobs_value lon_min lon_max t (length time') x y))).
Proof.
  intros -> ->.
  exists (fold_left np_minimum lon' x0), (fold_left np_maximum lon' x0).
  split; [done |]. split; [done |].
  unfold Clouds._get_nobs, Clouds.__init__.
  cbn [Clouds.time Clouds.lat Clouds.lon Clouds.mlon Clouds.mlat].
  cbn [np_min np_max mbind result_bind].
  cbn [length]. rewrite py_max_range. cbn [mbind result_bind]. f_equal.
  rewrite fold_assign_range
    by (unfold np_zeros; by rewrite length_replicate).
  unfold grid, map_plane. apply map_ext. intros t.
  rewrite zip_meshgrid, map_map. apply map_ext. intros y.
  by rewrite map_map.
Qed.

End GeneratorFacts.

(** ** Constants of the source as ranks *)

Definition unit64 : Z := 2 ^ 1074.

Lemma unit64_pos : 0 < unit64.
Proof. unfold unit64. apply Z.pow_pos_nonneg; lia. Qed.

Lemma rank_10 : F64.rank 10 = Some (10 * unit64).
Proof. vm_compute. reflexivity. Qed.

Lemma rank_20 : F64.rank 20 = Some (20 * unit64).
Proof. vm_compute. reflexivity. Qed.

Lemma rank_30 : F64.rank 30 = Some (30 * unit64).
Proof. vm_compute. reflexivity. Qed.

Lemma rank_65 : F64.rank 65 = Some (65 * unit64).
Proof. vm_compute. reflexivity. Qed.

Ltac to_ranks :=
  rewrite ?F64Facts.ltb_rank, ?F64Facts.leb_rank, ?F64Facts.eqb_rank, ?F64Facts.rank_abs,
          ?rank_10, ?rank_20, ?rank_30, ?rank_65 in *.

Ltac z_cases :=
  repeat match goal with
         | H : context [Z.ltb ?a ?b] |- _ => destruct (Z.ltb_spec a b)
         | |- context [Z.ltb ?a ?b] => destruct (Z.ltb_spec a b)
         | H : context [Z.leb ?a ?b] |- _ => destruct (Z.leb_spec a b)
         | |- context [Z.leb ?a ?b] => destruct (Z.leb_spec a b)
         | H : context [Z.eqb ?a ?b] |- _ => destruct (Z.eqb_spec a b)
         | |- context [Z.eqb ?a ?b] => destruct (Z.eqb_spec a b)
         end.

Lemma quality_code_bands (y : float) :
  ((PrimFloat.abs y <? 30)%float = true -> quality_code y = 0) /\
  ((30 <? PrimFloat.abs y)%float = true -> (PrimFloat.abs y <? 65)%float = true ->
   quality_code y = 1) /\
  ((65 <? PrimFloat.abs y)%float = true -> quality_code y = 2) /\
  ((PrimFloat.abs y =? 30)%float = true \/ (PrimFloat.abs y =? 65)%float = true ->
   quality_code y = 0).
Proof.
  pose proof unit64_pos as Hu. unfold quality_code. to_ranks.
  destruct (F64.rank y) as [a |]; cbn [fmap option_fmap option_map].
  - repeat split; intros; z_cases; cbn in *; try done; try lia;
      repeat match goal with H : _ \/ _ |- _ => destruct H end; try done; lia.
  - repeat split; intros; try done;
      repeat match goal with H : _ \/ _ |- _ => destruct H end; done.
Qed.

(** ** Record status *)

(** C2: the record status has one uint8 code per time position; the code at
    position [i] is 1 exactly when [i] is in the void set and 0 otherwise, so
    code 2 never occurs. *)
Theorem record_status_spec (time tvoid : list Z) :
  length (RecordStatus.get_record_status
            {| RecordStatus.time := time; RecordStatus.tvoid := tvoid |})
  = length time /\
  forall i : nat, (i < length time)%nat ->
    exists c,
      RecordStatus.get_record_status
        {| RecordStatus.time := time; RecordStatus.tvoid := tvoid |} !! i = Some c /\
      0 <= c < 256 /\
      (c = 1 <-> Z.of_nat i ∈ tvoid) /\
      (c = 0 <-> Z.of_nat i ∉ tvoid) /\
      c <> 2.
Proof.
  unfold RecordStatus.get_record_status, range. cbn [RecordStatus.time RecordStatus.tvoid].
  split; [by rewrite length_map, length_seq |].
  intros i Hi. rewrite list_lookup_fmap, lookup_seq_lt by done. cbn.
  eexists. split; [reflexivity |].
  unfold RecordStatus.uint8. case_bool_decide; cbn; repeat split; try lia; try done.
Qed.

(** ** Quality flag *)

(** C5: the quality flag of a cell is decided by the magnitude of its
    latitude alone: 0 below 30, 1 strictly between 30 and 65, 2 above 65, and
    the initial 0 at exactly 30 and exactly 65; every time position and
    longitude of that latitude row carries the same code. *)
Theorem quality_flag_bands (time : list Z) (lon lat : list float) (mask : Mask.t)
    (t i j : nat) (x y : float) :
  (t < length time)%nat -> lat !! i = Some y -> lon !! j = Some x ->
  exists q,
    cell_at (Clouds._get_quality (Clouds.__init__ time lon lat mask)) t i j = Some q /\
    ((PrimFloat.abs y <? 30)%float = true -> q = 0) /\
    ((30 <? PrimFloat.abs y)%float = true -> (PrimFloat.abs y <? 65)%float = true ->
     q = 1) /\
    ((65 <? PrimFloat.abs y)%float = true -> q = 2) /\
    ((PrimFloat.abs y =? 30)%float = true \/ (PrimFloat.abs y =? 65)%float = true ->
     q = 0) /\
    (forall (t' j' : nat) (x' : float),
        (t' < length time)%nat -> lon !! j' = Some x' ->
        cell_at (Clouds._get_quality (Clouds.__init__ time lon lat mask)) t' i j'
        = Some q).
Proof.
  intros Ht Hy Hx. exists (quality_code y).
  rewrite get_quality_grid.
  split; [exact (grid_cell_at (fun _ _ y => quality_code y) _ _ _ t i j x y Ht Hy Hx) |].
  destruct (quality_code_bands y) as (H1 & H2 & H3 & H4).
  repeat split; try assumption.
  intros t' j' x' Ht' Hx'.
  exact (grid_cell_at (fun _ _ y => quality_code y) _ _ _ t' i j' x' y Ht' Hy Hx').
Qed.

Lemma quality_flag_bands_witness :
  cell_at (Clouds._get_quality
             (Clouds.__init__ [0] [0.5%float] [45.5%float]
                {| Mask.void_timestamps := [] |})) 0 0 0 = Some 1.
Proof.
  destruct (quality_flag_bands [0] [0.5%float] [45.5%float]
              {| Mask.void_timestamps := [] |} 0 0 0 0.5%float 45.5%float
              (Nat.lt_0_succ 0) eq_refl eq_refl)
    as (q & Hq & _ & Hmed & _).
  rewrite Hq. f_equal. apply Hmed; reflexivity.
Defined.

(** ** Rounding to an integer

    What [rint] computes by adding and subtracting 2^52, from the rounding
    specification of binary64 addition: shifting [n] bits out of a mantissa
    and rounding to nearest-even leaves the nearest multiple of [2^n]. *)
Module F64Rint.
Import F64 F64Round.

Lemma shr_1_spec (q : Z) (r s : bool) :
  0 <= q ->
  shr_1 {| shr_m := q; shr_r := r; shr_s := s |}
  = {| shr_m := q / 2; shr_r := Z.odd q; shr_s := r || s |}.
Proof.
  intros Hq. rewrite <- Z.div2_div.
  destruct q as [| [p | p |] | p]; try lia; reflexivity.
Qed.

Lemma low_bits_zero (P h : Z) :
  0 <= P -> 0 < h ->
  Z.odd (P / h) || negb (P mod h =? 0) = negb (P mod (h * 2) =? 0).
Proof.
  intros HP Hh. rewrite Z.rem_mul_r by lia.
  pose proof (Z.mod_pos_bound P h Hh) as Hu.
  pose proof (Z.mod_pos_bound (P / h) 2 ltac:(lia)) as Hv.
  rewrite Zodd_mod.
  destruct (Z.eqb_spec ((P / h) mod 2) 1) as [E | E];
    destruct (Z.eqb_spec (P mod h) 0) as [E' | E'];
    destruct (Z.eqb_spec (P mod h + h * ((P / h) mod 2)) 0) as [E'' | E''];
    cbn; try reflexivity; nia.
Qed.

Lemma shr_n_spec (p : positive) (k : nat) :
  shr_n (S k) (rec0 p)
  = {| shr_m := Z.pos p / (2 ^ Z.of_nat k * 2);
       shr_r := Z.odd (Z.pos p / 2 ^ Z.of_nat k);
       shr_s := negb (Z.pos p mod 2 ^ Z.of_nat k =? 0) |}.
Proof.
  induction k as [| k IH].
  - cbn [shr_n]. unfold rec0. rewrite shr_1_spec by lia.
    cbn [Z.of_nat]. rewrite Z.pow_0_r, Z.div_1_r, Z.mod_1_r. reflexivity.
  - change (shr_n (S (S k)) (rec0 p)) with (shr_1 (shr_n (S k) (rec0 p))).
    assert (Hpow : 0 < 2 ^ Z.of_nat k) by (apply Z.pow_pos_nonneg; lia).
    rewrite IH, shr_1_spec by (apply Z.div_pos; lia).
    rewrite Nat2Z.inj_succ, Z.pow_succ_r by lia.
    replace (2 * 2 ^ Z.of_nat k) with (2 ^ Z.of_nat k * 2) by lia.
    f_equal.
    + rewrite Z.div_div by lia. reflexivity.
    + apply low_bits_zero; lia.
Qed.

(** The mantissa after [n] bits are shifted out and the rest is rounded to
    nearest, ties to even: no further than half a unit of the new last
    place from [P], and even in a tie. *)
Lemma round_shifted (p : positive) (k : nat) (T : Z) :
  T = round_nearest_even (shr_m (shr_n (S k) (rec0 p)))
                         (loc_of_shr_record (shr_n (S k) (rec0 p))) ->
  let n := 2 ^ Z.of_nat k * 2 in
  Z.pos p / n <= T <= Z.pos p / n + 1 /\
  2 * Z.abs (T * n - Z.pos p) <= n /\
  (2 * Z.abs (T * n - Z.pos p) = n -> Z.even T = true).
Proof.
  intros HT n. rewrite shr_n_spec in HT. cbn [shr_m loc_of_shr_record] in HT.
  assert (Hh : 0 < 2 ^ Z.of_nat k) by (apply Z.pow_pos_nonneg; lia).
  fold n in HT.
  pose proof (Z.div_mod (Z.pos p) n ltac:(unfold n; lia)) as Hdm.
  pose proof (Z.rem_mul_r (Z.pos p) (2 ^ Z.of_nat k) 2 ltac:(lia) ltac:(lia)) as Hrem.
  fold n in Hrem.
  pose proof (Z.mod_pos_bound (Z.pos p) (2 ^ Z.of_nat k) Hh) as Hu.
  pose proof (Z.mod_pos_bound (Z.pos p / 2 ^ Z.of_nat k) 2 ltac:(lia)) as Hv.
  rewrite Zodd_mod in HT.
  set (q := Z.pos p / n) in *. set (h := 2 ^ Z.of_nat k) in *.
  set (u := Z.pos p mod h) in *. set (v := (Z.pos p / h) mod 2) in *.
  set (rho := Z.pos p mod n) in *.
  assert (Hn : n = 2 * h) by (unfold n; lia).
  assert (Hq : q * n = 2 * (q * h)) by (rewrite Hn; lia).
  assert (Hq1 : (q + 1) * n = 2 * (q * h) + 2 * h) by (rewrite Hn; lia).
  assert (HP : Z.pos p = 2 * (q * h) + rho) by lia.
  destruct (Z.eqb_spec v 1) as [Ev | Ev]; destruct (Z.eqb_spec u 0) as [Eu | Eu];
    cbn [negb loc_of_shr_record round_nearest_even] in HT.
  - destruct (Z.even q) eqn:Eq; subst T.
    + rewrite Hq, HP. repeat split; try lia. by intros _.
    + rewrite Hq1, HP. repeat split; try lia. intros _.
      rewrite Z.add_1_r, Z.even_succ, <- Z.negb_even, Eq. reflexivity.
  - subst T. rewrite Hq1, HP. repeat split; lia.
  - subst T. rewrite Hq, HP. repeat split; lia.
  - subst T. rewrite Hq, HP. repeat split; lia.
Qed.

Lemma digits_unique (m : positive) (k : Z) :
  2 ^ (k - 1) <= Z.pos m < 2 ^ k -> Z.pos (digits2_pos m) = k.
Proof.
  intros [Hlo Hhi]. pose proof (F64Facts.digits2_pos_bounds m) as [Dlo Dhi].
  set (d := Z.pos (digits2_pos m)) in *.
  assert (Hd : 0 < d) by done.
  destruct (Z.lt_trichotomy d k) as [Hlt | [Heq | Hgt]]; [| done |].
  - pose proof (Z.pow_le_mono_r 2 d (k - 1) ltac:(lia) ltac:(lia)). lia.
  - assert (0 <= k).
    { destruct (Z.le_gt_cases 0 k) as [? | Hneg]; [done |].
      rewrite (Z.pow_neg_r 2 k) in Hhi by lia. lia. }
    pose proof (Z.pow_le_mono_r 2 k (d - 1) ltac:(lia) ltac:(lia)). lia.
Qed.

Lemma digits_le (m : positive) (k : Z) :
  0 <= k -> Z.pos m < 2 ^ k -> Z.pos (digits2_pos m) <= k.
Proof.
  intros Hk Hm. pose proof (F64Facts.digits2_pos_bounds m) as [Dlo _].
  destruct (Z.le_gt_cases (Z.pos (digits2_pos m)) k) as [? | Hgt]; [done |].
  pose proof (Z.pow_le_mono_r 2 k (Z.pos (digits2_pos m) - 1) ltac:(lia) ltac:(lia)).
  lia.
Qed.

(** A mantissa of at most 53 bits with an exponent in range is a float. *)
Lemma binary_round_exact (s : bool) (p : positive) (e : Z) :
  -1074 <= e -> Z.pos (digits2_pos p) <= 53 -> Z.pos (digits2_pos p) + e <= 1024 ->
  sf_value (binary_round prec emax s p e) = Some (units s p e).
Proof.
  intros He Hd Hmax.
  set (F := fexp prec emax (Z.pos (digits2_pos p) + e)).
  assert (HF : -1074 <= F <= e /\ F <= 971)
    by (unfold F, fexp, SpecFloat.emin, prec, emax; lia).
  replace e with (F + Z.of_nat (Z.to_nat (e - F))) at 1 by lia.
  rewrite <- binary_round_shl, binary_round_canonical.
  - cbn [sf_value]. f_equal. rewrite (units_align s p e F) by lia.
    unfold units. destruct s; cbn [cond_Zopp]; lia.
  - unfold bounded, canonical_mantissa. rewrite digits_shl.
    replace (Z.pos (digits2_pos p) + Z.of_nat (Z.to_nat (e - F)) + F)
      with (Z.pos (digits2_pos p) + e) by lia.
    fold F. rewrite Z.eqb_refl. apply Z.leb_le. unfold emax, prec. lia.
Qed.

Lemma sf_value_unsign (x : spec_float) : sf_value (unsign x) = sf_value x.
Proof. by destruct x. Qed.

(** Integers below 2^53 in magnitude are floats. *)
Lemma round_units_small (N : Z) :
  Z.abs N < 2 ^ 53 -> sf_value (round_units (N * 2 ^ 1074)) = Some (N * 2 ^ 1074).
Proof.
  intros HN. change (2 ^ 1074) with (2 ^ (0 + 1074)).
  rewrite round_units_align by lia.
  destruct N as [| p | p]; cbn [binary_normalize]; [reflexivity | |].
  - rewrite binary_round_exact; [| lia | apply digits_le; lia |].
    + f_equal; unfold units; lia.
    + pose proof (digits_le p 53 ltac:(lia) ltac:(lia)). lia.
  - rewrite binary_round_exact; [| lia | apply digits_le; lia |].
    + f_equal; unfold units; lia.
    + pose proof (digits_le p 53 ltac:(lia) ltac:(lia)). lia.
Qed.

(** Rounding a number between 2^52 and 2^53: the result is an integer,
    nearest to the number, even in a tie. *)
Lemma round_units_big (S : Z) :
  2 ^ 52 * unit64 <= S < 2 ^ 53 * unit64 ->
  exists T,
    sf_value (round_units S) = Some (T * unit64) /\
    2 ^ 52 <= T <= 2 ^ 53 /\
    2 * Z.abs (T * unit64 - S) <= unit64 /\
    (2 * Z.abs (T * unit64 - S) = unit64 -> Z.even T = true).
Proof.
  intros HS. pose proof unit64_pos as HU.
  destruct S as [| p | p]; [lia | | lia].
  assert (Hd : Z.pos (digits2_pos p) = 1127).
  { apply digits_unique.
    change (2 ^ (1127 - 1)) with (2 ^ 52 * unit64).
    change (2 ^ 1127) with (2 ^ 53 * unit64). exact HS. }
  unfold round_units. cbn [binary_normalize].
  rewrite binary_round_stage. unfold stage. cbv zeta. rewrite Hd.
  change (fexp prec emax (1127 + -1074)) with 0.
  change (Z.to_nat (0 - -1074)) with (1073 + 1)%nat.
  change (Z.to_nat (-1074 - 0)) with 0%nat. cbn [shl].
  rewrite Nat.add_1_r.
  set (mrs := shr_n (S 1073) (rec0 p)).
  set (T := round_nearest_even (shr_m mrs) (loc_of_shr_record mrs)).
  destruct (round_shifted p 1073 T eq_refl) as (Hq & Herr & Htie).
  change (2 ^ Z.of_nat 1073 * 2) with unit64 in Hq, Herr, Htie.
  assert (Hquot : 2 ^ 52 <= Z.pos p / unit64 < 2 ^ 53).
  { split; [apply Z.div_le_lower_bound | apply Z.div_lt_upper_bound]; lia. }
  exists T. split; [| split; [lia | split; assumption]].
  unfold finish. fold T.
  destruct (Z.eq_dec T (2 ^ 53)) as [-> | Hne].
  - vm_compute. reflexivity.
  - destruct T as [| t | t] eqn:ET; [lia | | lia].
    assert (Hdt : Z.pos (digits2_pos t) = 53) by (apply digits_unique; lia).
    unfold shr_fexp. cbn [Zdigits2]. rewrite Hdt.
    change (fexp prec emax (53 + 0) - 0) with 0.
    cbn [shr shr_record_of_loc shr_m].
    change (0 <=? emax - prec) with true. cbn [sf_value].
    f_equal; unfold units, unit64; lia.
Qed.

Lemma units_abs (s : bool) (m : positive) (e : Z) :
  Z.abs (units s m e) = units false m e.
Proof.
  unfold units. pose proof (Z.pow_nonneg 2 (e + 1074) ltac:(lia)).
  destruct s; nia.
Qed.

Lemma value_abs (w : float) (vw : Z) :
  value w = Some vw -> value (PrimFloat.abs w) = Some (Z.abs vw).
Proof.
  unfold value. rewrite FloatAxioms.abs_spec.
  destruct (Prim2SF w) as [s | s | | s m e]; cbn [SFabs sf_value]; intros [= <-];
    [reflexivity |]. by rewrite units_abs.
Qed.

Lemma value_opp (w : float) (vw : Z) :
  value w = Some vw -> value (- w)%float = Some (- vw).
Proof.
  unfold value. rewrite opp_spec.
  destruct (Prim2SF w) as [s | s | | s m e]; cbn [SFopp sf_value]; intros [= <-];
    [reflexivity |]. f_equal. unfold units. destruct s; cbn [negb]; lia.
Qed.

Lemma get_sign_value (w : float) (vw : Z) :
  value w = Some vw -> if get_sign w then vw <= 0 else 0 <= vw.
Proof.
  intros Hw. apply F64Facts.value_rank in Hw.
  unfold get_sign, is_zero.
  assert (H0 : rank zero = Some 0) by reflexivity.
  destruct (w =? zero)%float eqn:Hz.
  - rewrite F64Facts.eqb_rank, Hw, H0 in Hz. apply Z.eqb_eq in Hz. subst vw.
    by destruct (_ <? _)%float.
  - rewrite F64Facts.ltb_rank, Hw, H0. destruct (Z.ltb_spec vw 0); lia.
Qed.

Lemma value_2p52 : value 0x1p52 = Some (2 ^ 52 * unit64).
Proof. vm_compute. reflexivity. Qed.

Lemma value_add (x y : float) (a b : Z) :
  value x = Some a -> value y = Some b ->
  value (x + y)%float = sf_value (round_units (a + b)).
Proof.
  intros Ha Hb. unfold value.
  by rewrite <- sf_value_unsign, (add_units x y a b Ha Hb), sf_value_unsign.
Qed.

Lemma value_sub (x y : float) (a b : Z) :
  value x = Some a -> value y = Some b ->
  value (x - y)%float = sf_value (round_units (a - b)).
Proof.
  intros Ha Hb. unfold value.
  by rewrite <- sf_value_unsign, (sub_units x y a b Ha Hb), sf_value_unsign.
Qed.

(** A float of magnitude 2^52 or more is an integer. *)
Lemma big_is_integer (w : float) (vw : Z) :
  value w = Some vw -> 2 ^ 52 * unit64 <= Z.abs vw -> exists n, vw = n * unit64.
Proof.
  intros Hw Hbig. pose proof unit64_pos as HU.
  pose proof (Prim2SF_valid w) as Hv. unfold value in Hw.
  destruct (Prim2SF w) as [s | s | | s m e]; cbn [sf_value] in Hw; try discriminate;
    injection Hw as <-; [cbn in Hbig; lia |].
  cbn [SpecFloat.valid_binary] in Hv. pose proof (bounded_exp m e Hv) as He.
  apply andb_prop in Hv as [Hc _].
  unfold canonical_mantissa, fexp, SpecFloat.emin, prec, emax in Hc.
  apply Z.eqb_eq in Hc.
  pose proof (F64Facts.digits2_pos_bounds m) as [_ Hm].
  pose proof (Z.pow_le_mono_r 2 (Z.pos (digits2_pos m)) 53 ltac:(lia) ltac:(lia)) as Hm53.
  rewrite units_abs in Hbig. unfold units in Hbig.
  destruct (Z.le_gt_cases 0 e) as [Hpos | Hneg].
  - exists ((if s then -1 else 1) * (Z.pos m * 2 ^ e)).
    unfold units, unit64. rewrite Z.pow_add_r by lia. lia.
  - exfalso.
    pose proof (Z.pow_le_mono_r 2 (e + 1074) 1073 ltac:(lia) ltac:(lia)) as Hp.
    pose proof (Z.pow_pos_nonneg 2 (e + 1074) ltac:(lia) ltac:(lia)) as Hp0.
    assert (Hlim : 2 ^ 53 * 2 ^ 1073 = 2 ^ 52 * unit64) by reflexivity.
    revert Hbig Hm Hm53 Hp Hp0 Hlim.
    generalize (2 ^ (e + 1074)) (2 ^ Z.pos (digits2_pos m)) (2 ^ 53) (2 ^ 1073)
               (2 ^ 52 * unit64).
    intros. nia.
Qed.

(** C's [rint]: the result is an integer, nearest to the argument, even in
    a tie; [unit64] is the number 1 in units of 2^-1074. *)
Lemma rint_nearest (w : float) (vw : Z) :
  value w = Some vw ->
  exists n,
    value (rint w) = Some (n * unit64) /\
    2 * Z.abs (n * unit64 - vw) <= unit64 /\
    (2 * Z.abs (n * unit64 - vw) = unit64 -> Z.even n = true).
Proof.
  intros Hw. pose proof unit64_pos as HU. unfold rint. cbv zeta.
  pose proof (value_abs w vw Hw) as Ha.
  destruct (PrimFloat.abs w <? 0x1p52)%float eqn:Hlt.
  - rewrite F64Facts.ltb_rank, (F64Facts.value_rank _ _ Ha),
      (F64Facts.value_rank _ _ value_2p52) in Hlt.
    apply Z.ltb_lt in Hlt.
    destruct (round_units_big (Z.abs vw + 2 ^ 52 * unit64) ltac:(lia))
      as (T & HT & Hrange & Herr & Htie).
    assert (Ht : value (PrimFloat.abs w + 0x1p52)%float = Some (T * unit64))
      by (rewrite (value_add _ _ _ _ Ha value_2p52); exact HT).
    assert (Hr : value (PrimFloat.abs w + 0x1p52 - 0x1p52)%float
                 = Some ((T - 2 ^ 52) * unit64)).
    { rewrite (value_sub _ _ _ _ Ht value_2p52).
      replace (T * unit64 - 2 ^ 52 * unit64) with ((T - 2 ^ 52) * 2 ^ 1074)
        by (unfold unit64; lia).
      rewrite round_units_small by lia. reflexivity. }
    assert (Heven : Z.even (T - 2 ^ 52) = Z.even T).
    { rewrite Z.even_sub. change (Z.even (2 ^ 52)) with true. by destruct (Z.even T). }
    pose proof (get_sign_value w vw Hw) as Hsign.
    destruct (get_sign w).
    + exists (- (T - 2 ^ 52)). split; [| split].
      * rewrite (value_opp _ _ Hr). f_equal. lia.
      * lia.
      * intros Hhalf. rewrite Z.even_opp, Heven. apply Htie. lia.
    + exists (T - 2 ^ 52). split; [exact Hr | split].
      * lia.
      * intros Hhalf. rewrite Heven. apply Htie. lia.
  - rewrite F64Facts.ltb_rank, (F64Facts.value_rank _ _ Ha),
      (F64Facts.value_rank _ _ value_2p52) in Hlt.
    apply Z.ltb_ge in Hlt.
    destruct (big_is_integer w vw Hw Hlt) as [n ->].
    exists n. split; [exact Hw |]. split; lia.
Qed.

End F64Rint.

(** ** Cloud fraction *)

Lemma np_round_nan : np_round 100 F64.nan = F64.nan.
Proof. reflexivity. Qed.

Lemma cfc_band_invalid (v : float) :
  (10 <=? v)%float && (v <=? 20)%float = true -> Clouds.cfc_valid v = false.
Proof.
  pose proof unit64_pos as Hu. unfold Clouds.cfc_valid. to_ranks.
  destruct (F64.rank v) as [a |]; [| done].
  intros Hb. apply andb_prop in Hb as [H1 H2].
  apply Z.leb_le in H1. apply Z.leb_le in H2.
  apply orb_false_intro; apply Z.ltb_ge; lia.
Qed.

Lemma cfc_outside_band (v : float) :
  (10 <=? v)%float && (v <=? 20)%float = false ->
  Clouds.cfc_valid v = true \/ v = F64.nan.
Proof.
  pose proof unit64_pos as Hu. unfold Clouds.cfc_valid.
  destruct (F64.rank v) as [a |] eqn:Hr.
  - left. revert H. to_ranks. rewrite Hr. intros Hb.
    apply andb_false_iff in Hb as [Hb | Hb]; apply Z.leb_gt in Hb;
      apply orb_true_iff; [left | right]; apply Z.ltb_lt; lia.
  - right. by apply F64Facts.rank_None_nan.
Qed.

Section CloudFraction.
Context `{Numerics}.

(** C8: the value generated for the cell at time position [t], longitude
    [x], latitude [y] is [v = 100 * sin(t/5 * rad x)^2 * cos(t/10 * rad y)^2]
    with [rad z = z * (pi/180)].  A cell with [10 <= v <= 20] is missing (NaN)
    in the cloud-fraction output; every other cell holds [v] rounded to two
    decimals, [r / 100], where [r] is [v * 100] rounded to an integer: for a
    finite [v * 100], [r] is an integer no further than 1/2 from it, and even
    when it is exactly 1/2 away (values in units of 2^-1074); NaN stays NaN.
    The band is tested on the unrounded value: rounding comes after the
    filter. *)
Theorem cfc_gap_band (time : list Z) (lon lat : list float) (mask : Mask.t)
    (t i j : nat) (x y : float) :
  (t < length time)%nat -> lat !! i = Some y -> lon !! j = Some x ->
  let s := sin (float_of_nat t / 5 * (x * 0x1.1df46a2529d39p-6))%float in
  let c := cos (float_of_nat t / 10 * (y * 0x1.1df46a2529d39p-6))%float in
  let v := (100 * (s * s) * (c * c))%float in
  let w := (v * 100)%float in
  let a := PrimFloat.abs w in
  let r := if (a <? 0x1p52)%float
           then if get_sign w then (- (a + 0x1p52 - 0x1p52))%float
                else (a + 0x1p52 - 0x1p52)%float
           else w in
  (forall vw : Z, F64.value w = Some vw ->
     exists n : Z,
       F64.value r = Some (n * 2 ^ 1074) /\
       2 * Z.abs (n * 2 ^ 1074 - vw) <= 2 ^ 1074 /\
       (2 * Z.abs (n * 2 ^ 1074 - vw) = 2 ^ 1074 -> Z.even n = true)) /\
  exists out,
    cell_at (Clouds._get_cfc (Clouds.__init__ time lon lat mask)) t i j = Some out /\
    ((10 <=? v)%float && (v <=? 20)%float = true -> out = F64.nan) /\
    ((10 <=? v)%float && (v <=? 20)%float = false -> out = (r / 100)%float).
Proof.
  intros Ht Hy Hx s c v w a r.
  split; [intros vw Hw; exact (F64Rint.rint_nearest w vw Hw) |].
  exists (cfc_cell t x y).
  rewrite get_cfc_grid. split; [by apply grid_cell_at |].
  unfold cfc_cell. cbv zeta.
  change (Clouds.cfc_value t x y) with v.
  split; intros Hb.
  - by rewrite (cfc_band_invalid _ Hb).
  - destruct (cfc_outside_band _ Hb) as [Hv | Hn].
    + by rewrite Hv.
    + assert (Hnan : np_round 100 F64.nan = (r / 100)%float).
      { unfold r, a, w. by rewrite Hn. }
      by destruct (Clouds.cfc_valid v); [rewrite Hn |].
Qed.

End CloudFraction.

Lemma cfc_gap_band_witness :
  cell_at (@Clouds._get_cfc example_numerics
             (Clouds.__init__ [0; 86400000] [10%float; 115%float] [0%float]
                {| Mask.void_timestamps := [] |})) 1 0 1 = Some F64.nan /\
  cell_at (@Clouds._get_cfc example_numerics
             (Clouds.__init__ [0; 86400000] [10%float; 115%float] [0%float]
                {| Mask.void_timestamps := [] |})) 1 0 0 = Some 0.12%float.
Proof.
  split.
  - destruct (@cfc_gap_band example_numerics [0; 86400000] [10%float; 115%float]
                [0%float] {| Mask.void_timestamps := [] |} 1 0 1 115%float 0%float
                (Nat.lt_succ_diag_r 1) eq_refl eq_refl)
      as (_ & out & Hout & Hband & _).
    rewrite Hout. f_equal. apply Hband. vm_compute. reflexivity.
  - destruct (@cfc_gap_band example_numerics [0; 86400000] [10%float; 115%float]
                [0%float] {| Mask.void_timestamps := [] |} 1 0 0 10%float 0%float
                (Nat.lt_succ_diag_r 1) eq_refl eq_refl)
      as (_ & out & Hout & _ & Hkeep).
    rewrite Hout. f_equal. rewrite Hkeep by (vm_compute; reflexivity).
    vm_compute. reflexivity.
Defined.

(** ** Masking of void timestamps *)

(** The body of the loop of [mask_timestamps] for a fixed condition. *)
Definition mask_step (cond : list bool) (ds : Dataset) (item : string * cell)
    : result Dataset :=
  v ← getitem ds item.1;
  v' ← xr_where v cond item.2;
  Ok (setitem ds item.1 v').

Definition where_planes (cond : list bool) (other : cell) (a : cube cell) : cube cell :=
  zip_with (fun (c : bool) p => if c then p else map_plane (fun _ => other) p) cond a.

Lemma py_index_ok {A} (l : list A) (i : Z) :
  - Z.of_nat (length l) <= i < Z.of_nat (length l) -> exists x, py_index l i = Ok x.
Proof.
  intros Hi. unfold py_index.
  set (n := Z.of_nat (length l)) in *.
  set (pos := if i <? 0 then n + i else i).
  assert (Hpos : 0 <= pos < n) by (unfold pos; destruct (Z.ltb_spec i 0); lia).
  replace ((0 <=? pos) && (pos <? n)) with true
    by (symmetry; apply andb_true_iff; split; [apply Z.leb_le | apply Z.ltb_lt]; lia).
  destruct (lookup_lt_is_Some_2 l (Z.to_nat pos) ltac:(unfold n in Hpos; lia)) as [x Hx].
  exists x. by rewrite Hx.
Qed.

Lemma py_index_nonneg {A} (l : list A) (i : Z) (x : A) :
  0 <= i -> l !! Z.to_nat i = Some x -> py_index l i = Ok x.
Proof.
  intros Hi Hx. unfold py_index.
  pose proof (lookup_lt_Some _ _ _ Hx) as Hlt.
  replace (i <? 0) with false by (symmetry; apply Z.ltb_ge; lia).
  replace ((0 <=? i) && (i <? Z.of_nat (length l))) with true
    by (symmetry; apply andb_true_iff; split; [apply Z.leb_le | apply Z.ltb_lt]; lia).
  by rewrite Hx.
Qed.

Lemma np_take_ok {A} (l : list A) (idx : list Z) :
  Forall (fun i => - Z.of_nat (length l) <= i < Z.of_nat (length l)) idx ->
  exists xs, np_take l idx = Ok xs.
Proof.
  induction 1 as [| i idx Hi _ IH]; cbn [np_take]; [by eexists |].
  destruct (py_index_ok l i Hi) as [x ->]. destruct IH as [xs ->].
  by eexists.
Qed.

Lemma np_take_nonneg {A} (l : list A) (idx : list Z) :
  Forall (fun i => 0 <= i < Z.of_nat (length l)) idx ->
  exists xs, np_take l idx = Ok xs /\
    forall x, x ∈ xs <-> exists i, i ∈ idx /\ l !! Z.to_nat i = Some x.
Proof.
  induction 1 as [| i idx Hi _ IH]; cbn [np_take].
  - exists []. split; [done |]. intros x. split.
    + by intros ?%elem_of_nil.
    + by intros (i & ?%elem_of_nil & _).
  - destruct (lookup_lt_is_Some_2 l (Z.to_nat i) ltac:(lia)) as [x0 Hx0].
    rewrite (py_index_nonneg l i x0) by (done || lia).
    destruct IH as (xs & -> & Hxs). cbn [mbind result_bind].
    exists (x0 :: xs). split; [done |]. intros x.
    rewrite elem_of_cons, Hxs. split.
    + intros [-> | (k & Hk & Hl)].
      * exists i. split; [left | done].
      * exists k. split; [by right | done].
    + intros (k & Hk & Hl). apply elem_of_cons in Hk as [-> | Hk].
      * left. congruence.
      * right. by exists k.
Qed.

(** With pairwise distinct time values the value test [isin] selects exactly
    the void positions. *)
Lemma isin_void_positions (time tm : list Z) (void : list Z) (t : nat) (x : Z) :
  NoDup time ->
  Forall (fun i => 0 <= i < Z.of_nat (length time)) void ->
  (forall x, x ∈ tm <-> exists i, i ∈ void /\ time !! Z.to_nat i = Some x) ->
  time !! t = Some x ->
  isin x tm = bool_decide (Z.of_nat t ∈ void).
Proof.
  intros Hnd Hvoid Htm Hx. unfold isin. apply bool_decide_ext.
  rewrite Htm. split.
  - intros (i & Hi & Hl).
    rewrite Forall_forall in Hvoid. specialize (Hvoid i Hi).
    pose proof (NoDup_lookup _ _ _ _ Hnd Hl Hx) as Heq.
    by replace (Z.of_nat t) with i by lia.
  - intros Hin. exists (Z.of_nat t). split; [done |]. by rewrite Nat2Z.id.
Qed.

Lemma mask_step_ok (cond : list bool) (ds : Dataset) (n : string) (f : cell)
    (a : cube cell) :
  data_vars ds !! n = Some a -> length a = length cond ->
  mask_step cond ds (n, f) = Ok (setitem ds n (where_planes cond f a)).
Proof.
  intros Ha Hlen. unfold mask_step, getitem, xr_where. cbn [fst snd].
  rewrite Ha. cbn [mbind result_bind].
  by rewrite Hlen, Nat.eqb_refl.
Qed.

Lemma mask_loop_spec (cond : list bool) (vars : list (string * cell)) :
  forall ds : Dataset,
  NoDup vars.*1 ->
  (forall name fill, (name, fill) ∈ vars ->
     exists a, data_vars ds !! name = Some a /\ length a = length cond) ->
  exists ds',
    for_each (mask_step cond) ds vars = Ok ds' /\
    time_index ds' = time_index ds /\
    attrs ds' = attrs ds /\
    (forall name fill a, (name, fill) ∈ vars -> data_vars ds !! name = Some a ->
       data_vars ds' !! name = Some (where_planes cond fill a)) /\
    (forall name, name ∉ vars.*1 -> data_vars ds' !! name = data_vars ds !! name).
Proof.
  induction vars as [| [n f] vars IH]; intros ds Hnd Hex.
  - exists ds. repeat split; try done. by intros ? ? ? ?%elem_of_nil.
  - cbn [fmap list_fmap fst] in Hnd. apply NoDup_cons in Hnd as [Hn Hnd].
    destruct (Hex n f ltac:(left)) as (a0 & Ha0 & Hlen).
    cbn [for_each]. rewrite (mask_step_ok cond ds n f a0 Ha0 Hlen).
    cbn [mbind result_bind].
    set (ds1 := setitem ds n (where_planes cond f a0)).
    assert (Hother : forall name, name <> n ->
              data_vars ds1 !! name = data_vars ds !! name).
    { intros name Hne. unfold ds1, setitem. cbn. by rewrite lookup_insert_ne. }
    assert (Htail : forall name fill, (name, fill) ∈ vars -> name <> n).
    { intros name fill Hin ->. apply Hn. apply list_elem_of_fmap.
      by exists (n, fill). }
    destruct (IH ds1 Hnd) as (ds' & Hrun & Htime & Hattrs & Hmasked & Hframe).
    { intros name fill Hin. rewrite Hother by eauto. apply (Hex name fill). by right. }
    exists ds'. split; [exact Hrun |]. split; [by rewrite Htime |].
    split; [by rewrite Hattrs |]. split.
    + intros name fill a Hin Ha. apply elem_of_cons in Hin as [Heq | Hin].
      * injection Heq as -> ->. rewrite Hframe by done.
        unfold ds1, setitem. cbn. rewrite lookup_insert_eq. congruence.
      * apply (Hmasked name fill a Hin). rewrite Hother by eauto. exact Ha.
    + intros name Hnot. cbn [fmap list_fmap fst] in Hnot.
      apply not_elem_of_cons in Hnot as [Hne Hnot].
      rewrite Hframe by done. by apply Hother.
Qed.

Lemma where_planes_lookup (cond : list bool) (other : cell) (a : cube cell)
    (t : nat) (c : bool) (p : plane cell) :
  cond !! t = Some c -> a !! t = Some p ->
  where_planes cond other a !! t
  = Some (if c then p else map_plane (fun _ => other) p).
Proof.
  intros Hc Hp. unfold where_planes. by rewrite lookup_zip_with, Hc, Hp.
Qed.

Lemma where_planes_length (cond : list bool) (other : cell) (a : cube cell) :
  length cond = length a -> length (where_planes cond other a) = length a.
Proof. intros Hl. unfold where_planes. rewrite length_zip_with. lia. Qed.

Lemma mask_timestamps_unfold (self : Mask.t) (ds : Dataset)
    (vars : list (string * cell)) :
  Mask.mask_timestamps self ds vars
  = (tm ← np_take (time_index ds) (Mask.void_timestamps self);
     for_each
       (mask_step (map negb (map (fun t => isin t tm) (time_index ds)))) ds vars).
Proof. reflexivity. Qed.

(** C1: on a dataset whose time values are pairwise distinct, with void
    positions inside the index range, masking replaces every cell of each
    named variable at the void time positions by that variable's fill value,
    keeps its other timesteps as they were, and leaves the variables that
    are not named untouched. *)
Theorem mask_timestamps_frame (void : list Z) (ds : Dataset)
    (vars : list (string * cell)) :
  NoDup (time_index ds) ->
  Forall (fun v => 0 <= v < Z.of_nat (length (time_index ds))) void ->
  NoDup vars.*1 ->
  (forall name fill, (name, fill) ∈ vars ->
     exists a, data_vars ds !! name = Some a /\ length a = length (time_index ds)) ->
  exists ds',
    Mask.mask_timestamps {| Mask.void_timestamps := void |} ds vars = Ok ds' /\
    (forall name fill a, (name, fill) ∈ vars -> data_vars ds !! name = Some a ->
       exists a',
         data_vars ds' !! name = Some a' /\
         length a' = length a /\
         forall (t : nat) (p : plane cell), a !! t = Some p ->
           a' !! t = Some (if bool_decide (Z.of_nat t ∈ void)
                           then map_plane (fun _ => fill) p
                           else p)) /\
    (forall name, name ∉ vars.*1 -> data_vars ds' !! name = data_vars ds !! name).
Proof.
  intros Hnd Hvoid Hkeys Hex.
  rewrite mask_timestamps_unfold. cbn [Mask.void_timestamps].
  destruct (np_take_nonneg (time_index ds) void Hvoid) as (tm & -> & Htm).
  cbn [mbind result_bind].
  set (cond := map negb (map (fun t => isin t tm) (time_index ds))).
  assert (Hcond : length cond = length (time_index ds))
    by (unfold cond; by rewrite !length_map).
  destruct (mask_loop_spec cond vars ds Hkeys) as (ds' & Hrun & _ & _ & Hmasked & Hframe).
  { intros name fill Hin. destruct (Hex name fill Hin) as (a & Ha & Hl).
    exists a. split; [done | congruence]. }
  exists ds'. split; [exact Hrun |]. split; [| exact Hframe].
  intros name fill a Hin Ha.
  destruct (Hex name fill Hin) as (a0 & Ha0 & Hl).
  assert (a0 = a) as -> by congruence.
  exists (where_planes cond fill a). split; [by apply Hmasked |].
  split; [apply where_planes_length; congruence |].
  intros t p Hp.
  destruct (lookup_lt_is_Some_2 (time_index ds) t) as [x Hx].
  { rewrite <- Hl. by eapply lookup_lt_Some. }
  assert (Hc : cond !! t = Some (negb (bool_decide (Z.of_nat t ∈ void)))).
  { unfold cond. rewrite !list_lookup_fmap, Hx. cbn.
    by rewrite (isin_void_positions _ tm void t x Hnd Hvoid Htm Hx). }
  rewrite (where_planes_lookup cond fill a t _ p Hc Hp).
  by destruct (bool_decide (Z.of_nat t ∈ void)).
Qed.

Definition example_group : Dataset :=
  {| time_index := [0; 1; 2];
     data_vars :=
       list_to_map
         [("sdu", [[[CFloat 1]]; [[CFloat 0]]; [[CFloat 1]]]);
          ("quality", [[[CUInt8 0]]; [[CUInt8 1]]; [[CUInt8 2]]])];
     attrs := [] |}.

Lemma mask_timestamps_frame_witness :
  exists ds',
    Mask.mask_timestamps {| Mask.void_timestamps := [1] |} example_group
      [("sdu", CFloat F64.nan)] = Ok ds' /\
    data_vars ds' !! "sdu"
    = Some [[[CFloat 1]]; [[CFloat F64.nan]]; [[CFloat 1]]] /\
    data_vars ds' !! "quality" = data_vars example_group !! "quality".
Proof.
  destruct (mask_timestamps_frame [1] example_group [("sdu", CFloat F64.nan)])
    as (ds' & Hrun & Hmasked & Hframe).
  - apply (bool_decide_unpack _). reflexivity.
  - repeat constructor; vm_compute; congruence.
  - apply (bool_decide_unpack _). reflexivity.
  - intros name fill Hin. apply list_elem_of_singleton in Hin. injection Hin as -> ->.
    eexists. split; [reflexivity | reflexivity].
  - exists ds'. split; [exact Hrun |]. split.
    + destruct (Hmasked "sdu" (CFloat F64.nan) _ ltac:(left) eq_refl)
        as (a' & Ha' & Hlen & Hcells).
      rewrite Ha'. f_equal.
      pose proof (Hcells 0%nat _ eq_refl) as H0.
      pose proof (Hcells 1%nat _ eq_refl) as H1.
      pose proof (Hcells 2%nat _ eq_refl) as H2.
      destruct a' as [| p0 [| p1 [| p2 [| ? ?]]]]; try discriminate Hlen.
      vm_compute in H0, H1, H2.
      injection H0 as ->. injection H1 as ->. injection H2 as ->. reflexivity.
    + apply Hframe. apply (bool_decide_unpack _). reflexivity.
Defined.

(** ** Degenerate time axes *)

Lemma get_time_empty (tstart tend : Z) :
  tend < tstart - tstart mod 1000 -> DataTreeMaker.get_time tstart tend = [].
Proof.
  intros Hlt.
  unfold DataTreeMaker.get_time, DataTreeMaker.rrule_daily, DataTreeMaker.whole_second.
  cbv zeta.
  by replace (tend <? tstart - tstart mod 1000) with true
    by (symmetry; apply Z.ltb_lt; lia).
Qed.

Lemma get_nobs_no_time `{Numerics} (lon lat : list float) (mask : Mask.t) :
  Clouds._get_nobs (Clouds.__init__ [] lon lat mask) = Raise ValueError.
Proof.
  unfold Clouds._get_nobs, Clouds.__init__. cbn [Clouds.lon Clouds.time].
  destruct lon as [| x lon]; reflexivity.
Qed.

(** On an empty time axis the constructor stops at the time bounds, if it
    gets that far. *)
Lemma init_no_time (tstart tend : Z)
    (lon_min lon_max lat_min lat_max grid_resol : float) (void : list Z) :
  DataTreeMaker.get_time tstart tend = [] ->
  (forall maker,
     DataTreeMaker.__init__ tstart tend lon_min lon_max lat_min lat_max grid_resol void
     <> Ok maker) /\
  (forall lon lat,
     DataTreeMaker.get_lon lon_min lon_max grid_resol = Ok lon ->
     DataTreeMaker.get_lat lat_min lat_max grid_resol = Ok lat ->
     DataTreeMaker.__init__ tstart tend lon_min lon_max lat_min lat_max grid_resol void
     = Raise ValueError).
Proof.
  intros Hempty. unfold DataTreeMaker.__init__. rewrite Hempty. split.
  - intros maker.
    destruct (DataTreeMaker.get_lon lon_min lon_max grid_resol) as [lon | e |];
      cbn [mbind result_bind]; [| done | done].
    destruct (DataTreeMaker.get_lat lat_min lat_max grid_resol) as [lat | e |];
      cbn [mbind result_bind]; done.
  - by intros lon lat -> ->.
Qed.

(** C3: when [tend] lies before the start of the second of [tstart] (rrule
    drops the fraction of a second of its start) the time axis is empty, but
    the construction does not complete: [DataTreeMaker.__init__] never
    returns a maker, and once the longitude and latitude axes are built it
    raises ValueError (the time bounds of an empty axis are not a 2-D array);
    on the empty time axis [Clouds._get_nobs], hence [Clouds.get_dataset],
    raises ValueError ([max] of an empty list). *)
Theorem empty_time_range_raises (tstart tend : Z) :
  tend < tstart - tstart mod 1000 ->
  DataTreeMaker.get_time tstart tend = [] /\
  (forall (lon_min lon_max lat_min lat_max grid_resol : float) (void : list Z),
     (forall maker,
        DataTreeMaker.__init__ tstart tend lon_min lon_max lat_min lat_max
          grid_resol void <> Ok maker) /\
     (forall lon lat,
        DataTreeMaker.get_lon lon_min lon_max grid_resol = Ok lon ->
        DataTreeMaker.get_lat lat_min lat_max grid_resol = Ok lat ->
        DataTreeMaker.__init__ tstart tend lon_min lon_max lat_min lat_max
          grid_resol void = Raise ValueError)) /\
  (forall (N : Numerics) (lon lat : list float) (mask : Mask.t),
     Clouds._get_nobs
       (Clouds.__init__ (DataTreeMaker.get_time tstart tend) lon lat mask)
     = Raise ValueError /\
     Clouds.get_dataset
       (Clouds.__init__ (DataTreeMaker.get_time tstart tend) lon lat mask)
     = Raise ValueError).
Proof.
  intros Hlt. pose proof (get_time_empty _ _ Hlt) as Hempty.
  split; [exact Hempty |]. split.
  - intros lon_min lon_max lat_min lat_max grid_resol void.
    by apply init_no_time.
  - intros N lon lat mask. rewrite Hempty. split; [apply get_nobs_no_time |].
    unfold Clouds.get_dataset. by rewrite get_nobs_no_time.
Qed.

Lemma empty_time_range_raises_witness :
  DataTreeMaker.get_time 86400000 0 = [] /\
  DataTreeMaker.__init__ 86400000 0 (-179.5) 179.5 (-89.5) 89.5 1 [4; 20]
  = Raise ValueError /\
  @Clouds.get_dataset example_numerics
    (Clouds.__init__ (DataTreeMaker.get_time 86400000 0) [0.5%float] [0.5%float]
       {| Mask.void_timestamps := [] |})
  = Raise ValueError.
Proof.
  destruct (empty_time_range_raises 86400000 0 ltac:(reflexivity))
    as (Htime & Hinit & Hclouds).
  split; [exact Htime |]. split.
  - eapply (proj2 (Hinit _ _ _ _ _ _)); vm_compute; reflexivity.
  - apply Hclouds.
Defined.

(** ** A single timestep *)

Lemma prim_nan : Prim2SF F64.nan = S754_nan.
Proof. reflexivity. Qed.

Lemma float_is_nan (x : float) : Prim2SF x = S754_nan -> x = F64.nan.
Proof. intros Hx. apply Prim2SF_inj. by rewrite Hx. Qed.

Lemma add_nan_r (x : float) : (x + F64.nan)%float = F64.nan.
Proof.
  apply float_is_nan. rewrite add_spec, prim_nan.
  by destruct (Prim2SF x) as [[] | [] | | [] ? ?].
Qed.

Lemma mul_nan_l (x : float) : (F64.nan * x)%float = F64.nan.
Proof.
  apply float_is_nan. rewrite mul_spec, prim_nan.
  by destruct (Prim2SF x).
Qed.

Lemma mul_zero_div_zero (x : float) : (x * 0 / 0)%float = F64.nan.
Proof.
  apply float_is_nan. rewrite div_spec, mul_spec.
  change (Prim2SF 0) with (S754_zero false).
  by destruct (Prim2SF x) as [[] | [] | | [] ? ?].
Qed.

Lemma grid_ext {A} (h h' : nat -> float -> float -> A) (nt : nat)
    (lat lon : list float) :
  (forall t x y, (t < nt)%nat -> h t x y = h' t x y) ->
  grid nt lat lon h = grid nt lat lon h'.
Proof.
  intros Hh. unfold grid, range. apply map_ext_in. intros t Ht.
  apply in_seq in Ht. apply map_ext. intros y. apply map_ext. intros x.
  apply Hh. lia.
Qed.

(** With one timestep [tmax = 0] and the span term is [0.0 / 0.0]. *)
Lemma span_term_single (lon_min lon_max : float) :
  Clouds.span_term lon_min lon_max 0 0 = F64.nan.
Proof.
  unfold Clouds.span_term. change (float_of_nat 0) with 0%float.
  apply mul_zero_div_zero.
Qed.

(** C4: for a grid of exactly one timestep nothing special-cases
    [tmax = 0]: the span term is [0.0 / 0.0], that is NaN and not 0, and
    every observation count is the uint8 store of a value computed from NaN,
    whatever the longitude and latitude. *)
Theorem single_timestep_span_is_nan (N : Numerics) (t0 : Z) (x0 : float)
    (lon' lat : list float) (mask : Mask.t) :
  (forall lon_min lon_max, Clouds.span_term lon_min lon_max 0 0 = F64.nan) /\
  Clouds._get_nobs (Clouds.__init__ [t0] (x0 :: lon') lat mask)
  = Ok (grid 1 lat (x0 :: lon')
          (fun _ _ _ => cast_uint8 (96 * sq (sin F64.nan))%float)).
Proof.
  split; [apply span_term_single |].
  destruct (get_nobs_grid [t0] (x0 :: lon') lat mask x0 lon' t0 [] eq_refl eq_refl)
    as (lon_min & lon_max & _ & _ & ->).
  f_equal. apply grid_ext. intros t x y Ht.
  assert (t = 0%nat) as -> by (cbn in Ht; lia).
  unfold Clouds.nobs_value. cbn [length]. rewrite span_term_single, add_nan_r.
  change (float_of_nat 0 / 5 * deg2rad F64.nan)%float with F64.nan.
  by rewrite mul_nan_l.
Qed.

(** ** Coordinate bounds *)

Lemma get_bounds_length {C R} `{DataTreeMaker.Coord C R} (coords : list C)
    (resol : R) (align : string) (bounds : list (C * C)) :
  DataTreeMaker._get_bounds coords resol align = Ok bounds ->
  length bounds = length coords.
Proof.
  unfold DataTreeMaker._get_bounds.
  destruct (String.eqb align "left"); [| destruct (String.eqb align "center")];
    intros [= <-] || discriminate; by rewrite length_map.
Qed.

(** When the step from [c0] to [c1] is the resolution exactly and
    [0.5 * resol] is exactly its half, [c0 + 0.5 * resol] and
    [c1 - 0.5 * resol] round the same number. *)
Lemma exact_spacing_abut (c0 c1 resol : float) (a b r h : Z) :
  F64.value c0 = Some a -> F64.value c1 = Some b -> F64.value resol = Some r ->
  F64.value (0.5 * resol)%float = Some h ->
  b - a = r -> 2 * h = r ->
  (c0 + 0.5 * resol =? c1 - 0.5 * resol)%float = true.
Proof.
  intros Ha Hb Hr Hh Hstep Hhalf.
  apply (F64Round.same_value_eqb _ _ (a + h)).
  - by apply F64Round.add_units.
  - replace (a + h) with (b - h) by lia. by apply F64Round.sub_units.
Qed.

(** C6, as the code has it: for the alignments "left" and "center"
    [_get_bounds] returns one (lower, upper) pair per coordinate value, for
    any coordinate type (any other alignment raises NotImplementedError);
    under center alignment on float64 coordinates, upper[i] == lower[i+1]
    for adjacent coordinates whose step is the resolution exactly (as
    numbers: the values [a], [b], [r] are in units of 2^-1074), provided
    [0.5 * resol] is exactly half the resolution. *)
Theorem get_bounds_count_and_abut :
  (forall (C R : Type) (K : DataTreeMaker.Coord C R) (coords : list C) (resol : R),
     (exists b, DataTreeMaker._get_bounds coords resol "left" = Ok b) /\
     (exists b, DataTreeMaker._get_bounds coords resol "center" = Ok b) /\
     (forall align, align <> "left" -> align <> "center" ->
        DataTreeMaker._get_bounds coords resol align = Raise NotImplementedError) /\
     forall align b, DataTreeMaker._get_bounds coords resol align = Ok b ->
       length b = length coords) /\
  (forall (coords : list float) (resol : float) (i : nat) (c0 c1 : float)
          (a b r h : Z),
     coords !! i = Some c0 -> coords !! S i = Some c1 ->
     F64.value c0 = Some a -> F64.value c1 = Some b -> F64.value resol = Some r ->
     b - a = r ->
     F64.value (0.5 * resol)%float = Some h -> 2 * h = r ->
     exists (bounds : list (float * float)) (l0 u0 l1 u1 : float),
       DataTreeMaker._get_bounds coords resol "center" = Ok bounds /\
       bounds !! i = Some (l0, u0) /\ bounds !! S i = Some (l1, u1) /\
       (u0 =? l1)%float = true).
Proof.
  split.
  - intros C R K coords resol. split; [by eexists |]. split; [by eexists |].
    split; [| intros align b; apply get_bounds_length].
    intros align Hl Hc. unfold DataTreeMaker._get_bounds.
    apply String.eqb_neq in Hl, Hc. by rewrite Hl, Hc.
  - intros coords resol i c0 c1 a b r h H0 H1 Ha Hb Hr Hstep Hh Hhalf.
    eexists _, _, _, _, _.
    split; [reflexivity |]. rewrite !list_lookup_fmap, H0, H1.
    split; [reflexivity |]. split; [reflexivity |].
    cbn [DataTreeMaker.plus DataTreeMaker.minus DataTreeMaker.half
         DataTreeMaker.float_coord].
    by apply (exact_spacing_abut c0 c1 resol a b r h).
Qed.

Lemma get_bounds_count_and_abut_witness :
  (exists (bounds : list (float * float)) (l0 u0 l1 u1 : float),
     DataTreeMaker._get_bounds [(-179.5)%float; (-178.5)%float] 1%float "center"
     = Ok bounds /\
     bounds !! 0%nat = Some (l0, u0) /\ bounds !! 1%nat = Some (l1, u1) /\
     (u0 =? l1)%float = true) /\
  (exists (bounds : list (float * float)) (l0 u0 l1 u1 : float),
     DataTreeMaker._get_bounds [1%float; 0x1.0000000000001p0%float] 0x1p-52%float
       "center" = Ok bounds /\
     bounds !! 0%nat = Some (l0, u0) /\ bounds !! 1%nat = Some (l1, u1) /\
     (u0 =? l1)%float = true).
Proof.
  split.
  - eapply (proj2 get_bounds_count_and_abut
              [(-179.5)%float; (-178.5)%float] 1%float 0%nat
              (-179.5)%float (-178.5)%float _ _ _ _ eq_refl eq_refl);
      vm_compute; reflexivity.
  - eapply (proj2 get_bounds_count_and_abut
              [1%float; 0x1.0000000000001p0%float] 0x1p-52%float 0%nat
              1%float 0x1.0000000000001p0%float _ _ _ _ eq_refl eq_refl);
      vm_compute; reflexivity.
Defined.

(** The claim as stated fails: the axis [0.0, 5e-324] is increasing with
    step exactly the resolution 5e-324 (the smallest positive float64, one
    unit of 2^-1074), yet the upper bound of the first cell is 0.0 and the
    lower bound of the second is 5e-324: half the resolution is not a
    float64 and [0.5 * resol] is 0.0. *)
Lemma center_bounds_gap_counterexample :
  (0 <? 0x1p-1074)%float = true /\
  F64.value 0 = Some 0 /\ F64.value 0x1p-1074 = Some 1 /\
  (0x1p-1074 - 0 =? 0x1p-1074)%float = true /\
  (0.5 * 0x1p-1074 =? 0)%float = true /\
  DataTreeMaker._get_bounds [0%float; 0x1p-1074%float] 0x1p-1074%float "center"
  = Ok [((0 - 0.5 * 0x1p-1074)%float, (0 + 0.5 * 0x1p-1074)%float);
        ((0x1p-1074 - 0.5 * 0x1p-1074)%float, (0x1p-1074 + 0.5 * 0x1p-1074)%float)] /\
  (0 + 0.5 * 0x1p-1074 =? 0x1p-1074 - 0.5 * 0x1p-1074)%float = false.
Proof. vm_compute. repeat split. Qed.

(** Spacing that equals the resolution only after float64 rounding does not
    make the bounds meet either: the axis [0.1, 1.1] that
    [get_lon(0.1, 1.1, 1.0)] builds has [1.1 - 0.1 == 1.0] in float64 (the
    exact difference is larger), and 0.6 is followed by
    0.6000000000000001. *)
Lemma rounded_spacing_gap :
  DataTreeMaker.get_lon 0.1 1.1 1 = Ok [0.1%float; 1.1%float] /\
  (1.1 - 0.1 =? 1)%float = true /\
  (0.1 + 0.5 * 1 =? 1.1 - 0.5 * 1)%float = false.
Proof. vm_compute. repeat split. Qed.

(** ** Shapes of the fields *)

Lemma where_planes_shape (cond : list bool) (other : cell) (a : cube cell)
    (nt nlat nlon : nat) :
  length cond = nt -> has_shape a nt nlat nlon ->
  has_shape (where_planes cond other a) nt nlat nlon.
Proof.
  intros Hc [Hl Hf]. split.
  - rewrite where_planes_length; congruence.
  - unfold where_planes. apply Forall_lookup. intros i p Hp.
    apply lookup_zip_with_Some in Hp as (c & p0 & -> & _ & Hp0).
    rewrite Forall_lookup in Hf. specialize (Hf i p0 Hp0).
    destruct c; [done | by apply map_plane_shape].
Qed.

(** Building a group from fields of one shape and masking some of them
    succeeds when the void positions are valid indices, and yields the same
    variables, each of that shape, with the attributes given. *)
Lemma masked_dataset_shape (n0 : string) (a0 : cube cell)
    (rest : list (string * cube cell)) (attrs0 : list (string * string))
    (void : list Z) (vars : list (string * cell)) (nt nlat nlon : nat) :
  (forall name a, (name, a) ∈ (n0, a0) :: rest -> has_shape a nt nlat nlon) ->
  Forall (fun v => - Z.of_nat nt <= v < Z.of_nat nt) void ->
  NoDup vars.*1 ->
  (forall name fill, (name, fill) ∈ vars -> name ∈ ((n0, a0) :: rest).*1) ->
  exists ds0 ds,
    xr_Dataset ((n0, a0) :: rest) attrs0 = Ok ds0 /\
    Mask.mask_timestamps {| Mask.void_timestamps := void |} ds0 vars = Ok ds /\
    attrs ds = attrs0 /\
    (forall name a, data_vars ds !! name = Some a -> has_shape a nt nlat nlon) /\
    (forall name, is_Some (data_vars ds !! name) <-> name ∈ ((n0, a0) :: rest).*1).
Proof.
  intros Hshape Hvoid Hnd Hnames.
  set (vars0 := (n0, a0) :: rest) in *.
  assert (Hn0 : length a0 = nt) by (apply (Hshape n0 a0); by left).
  assert (Hds0 : xr_Dataset vars0 attrs0
                 = Ok {| time_index := map Z.of_nat (range nt);
                         data_vars := list_to_map vars0;
                         attrs := attrs0 |}).
  { unfold xr_Dataset. change (time_size vars0) with (length a0). rewrite Hn0.
    replace (forallb _ vars0) with true; [done |].
    symmetry. apply forallb_forall. intros [name a] Hin.
    apply Nat.eqb_eq. cbn. apply (Hshape name a). by apply list_elem_of_In. }
  set (ds0 := {| time_index := map Z.of_nat (range nt);
                 data_vars := list_to_map vars0; attrs := attrs0 |}).
  assert (Htime : length (time_index ds0) = nt)
    by (cbn; unfold range; by rewrite length_map, length_seq).
  assert (Hlook : forall name a, data_vars ds0 !! name = Some a ->
            has_shape a nt nlat nlon).
  { intros name a Ha. apply (Hshape name a). by apply elem_of_list_to_map_2. }
  assert (Hsome : forall name, is_Some (data_vars ds0 !! name) <-> name ∈ vars0.*1).
  { intros name. cbn [data_vars ds0]. split.
    - intros [a Ha]. apply list_elem_of_fmap. exists (name, a).
      split; [done | by apply elem_of_list_to_map_2].
    - intros Hin. destruct (list_to_map vars0 !! name) as [a |] eqn:Ha; [by eexists |].
      by apply (not_elem_of_list_to_map_2 (M := gmap string)) in Ha. }
  destruct (np_take_ok (time_index ds0) void) as [tm Htm];
    [by rewrite Htime |].
  set (cond := map negb (map (fun t => isin t tm) (time_index ds0))).
  assert (Hcond : length cond = nt) by (unfold cond; by rewrite !length_map).
  destruct (mask_loop_spec cond vars ds0 Hnd)
    as (ds & Hrun & _ & Hattrs & Hmasked & Hframe).
  { intros name fill Hin. apply Hnames, Hsome in Hin as [a Ha].
    exists a. split; [done |]. rewrite Hcond. by apply (Hlook name a). }
  assert (Hcases : forall name,
            (exists fill a, data_vars ds0 !! name = Some a /\
                            data_vars ds !! name = Some (where_planes cond fill a)) \/
            data_vars ds !! name = data_vars ds0 !! name).
  { intros name. destruct (decide (name ∈ vars.*1)) as [Hin | Hout].
    - left. apply list_elem_of_fmap in Hin as ([name' fill] & -> & Hin). cbn.
      destruct (proj2 (Hsome name') (Hnames _ _ Hin)) as [a Ha].
      exists fill, a. split; [done |]. by apply Hmasked.
    - right. by apply Hframe. }
  exists ds0, ds. split; [exact Hds0 |]. split.
  { rewrite mask_timestamps_unfold. cbn [Mask.void_timestamps].
    rewrite Htm. exact Hrun. }
  split; [by rewrite Hattrs |]. split.
  - intros name a Ha.
    destruct (Hcases name) as [(fill & a1 & Ha1 & Hd) | Heq].
    + rewrite Hd in Ha. injection Ha as <-.
      apply where_planes_shape; [done | by apply (Hlook name)].
    + rewrite Heq in Ha. by apply (Hlook name).
  - intros name. rewrite <- Hsome.
    destruct (Hcases name) as [(fill & a1 & Ha1 & Hd) | Heq].
    + rewrite Hd, Ha1. split; by eexists.
    + by rewrite Heq.
Qed.

Lemma ogrid_axis_length (start stop : Z) (n : nat) :
  length (Radiation.ogrid_axis start stop n) = n.
Proof. unfold Radiation.ogrid_axis, range. by rewrite length_map, length_seq. Qed.

Lemma heart_shape (rows cols : nat) : plane_shape (Radiation.heart rows cols) rows cols.
Proof.
  unfold Radiation.heart, plane_shape. split.
  - by rewrite !length_map, ogrid_axis_length.
  - apply List.Forall_forall. intros r Hr. apply in_map_iff in Hr as (y & <- & _).
    by rewrite !length_map, ogrid_axis_length.
Qed.

Section RadiationFacts.
Context `{Numerics}.

Lemma rotate_shape (h : plane bool) (angle : float) (nlat nlon : nat) :
  plane_shape h nlat nlon -> plane_shape (Radiation.rotate h angle) nlat nlon.
Proof.
  unfold plane_shape, Radiation.rotate. intros [Hl Hf].
  split; [by rewrite length_imap |].
  apply Forall_lookup. intros i r Hr.
  rewrite list_lookup_imap in Hr.
  destruct (h !! i) as [r0 |] eqn:Hr0; [| done].
  injection Hr as <-. rewrite length_imap.
  rewrite Forall_lookup in Hf. by apply (Hf i).
Qed.

(** The angle of timestep [i] of [n]: [360 * i / n]. *)
Definition angle_of (i n : nat) : float :=
  (float_of_nat (360 * i) / float_of_nat n)%float.

Lemma get_sdu_planes (time : list Z) (lon lat : list float) (mask : Mask.t) :
  Radiation.get_sdu (Radiation.__init__ time lon lat mask)
  = map (fun i => map_plane Radiation.float_of_bool
                    (Radiation.rotate (Radiation.heart (length lat) (length lon))
                                      (angle_of i (length time))))
        (range (length time)).
Proof.
  unfold Radiation.get_sdu, Radiation.__init__.
  cbn [Radiation.time Radiation.lat Radiation.lon].
  by rewrite fold_assign_range by (unfold np_zeros; by rewrite length_replicate).
Qed.

Lemma get_sdu_shape (time : list Z) (lon lat : list float) (mask : Mask.t) :
  has_shape (Radiation.get_sdu (Radiation.__init__ time lon lat mask))
            (length time) (length lat) (length lon).
Proof.
  rewrite get_sdu_planes. unfold has_shape, range. split.
  - by rewrite length_map, length_seq.
  - apply List.Forall_forall. intros p Hp. apply in_map_iff in Hp as (i & <- & _).
    apply map_plane_shape, rotate_shape, heart_shape.
Qed.

End RadiationFacts.

Lemma bounds_array_ok {C} (b b' : list (C * C)) :
  DataTreeMaker.bounds_array b = Ok b' -> b' = b /\ b <> [].
Proof. destruct b; cbn; [done |]. by intros [= <-]. Qed.

(** A maker that was constructed has non-empty axes, shared with the two
    groups. *)
Lemma init_inv (tstart tend : Z) (lon_min lon_max lat_min lat_max grid_resol : float)
    (void : list Z) (maker : DataTreeMaker.t) :
  DataTreeMaker.__init__ tstart tend lon_min lon_max lat_min lat_max grid_resol void
  = Ok maker ->
  exists time lon lat,
    time <> [] /\ lon <> [] /\ lat <> [] /\
    time = DataTreeMaker.get_time tstart tend /\
    DataTreeMaker.get_lon lon_min lon_max grid_resol = Ok lon /\
    DataTreeMaker.get_lat lat_min lat_max grid_resol = Ok lat /\
    DataTreeMaker.time maker = time /\
    DataTreeMaker.lon maker = lon /\
    DataTreeMaker.lat maker = lat /\
    DataTreeMaker.clouds maker
    = Clouds.__init__ time lon lat {| Mask.void_timestamps := void |} /\
    DataTreeMaker.radiation maker
    = Radiation.__init__ time lon lat {| Mask.void_timestamps := void |} /\
    DataTreeMaker.rec_status maker
    = {| RecordStatus.time := time; RecordStatus.tvoid := void |}.
Proof.
  unfold DataTreeMaker.__init__.
  destruct (DataTreeMaker.get_lon _ _ _) as [lon | |]; [| done | done].
  destruct (DataTreeMaker.get_lat _ _ _) as [lat | |]; [| done | done].
  cbn [mbind result_bind].
  unfold DataTreeMaker.get_time_bounds, DataTreeMaker.get_lon_bounds,
    DataTreeMaker.get_lat_bounds, DataTreeMaker._get_bounds.
  cbn [String.eqb Ascii.eqb Bool.eqb mbind result_bind].
  destruct (DataTreeMaker.bounds_array (map _ (DataTreeMaker.get_time tstart tend)))
    as [tb | |] eqn:Htb; [| done | done].
  destruct (DataTreeMaker.bounds_array (map _ lon)) as [lob | |] eqn:Hlob; [| done | done].
  destruct (DataTreeMaker.bounds_array (map _ lat)) as [lab | |] eqn:Hlab; [| done | done].
  cbn [mbind result_bind]. intros [= <-].
  apply bounds_array_ok in Htb as [_ Htb], Hlob as [_ Hlob], Hlab as [_ Hlab].
  exists (DataTreeMaker.get_time tstart tend), lon, lat.
  repeat split; try done.
  - intros E. by rewrite E in Htb.
  - intros E. by rewrite E in Hlob.
  - intros E. by rewrite E in Hlab.
Qed.

Lemma mask_loop_attrs (cond : list bool) (vars : list (string * cell)) :
  forall ds ds', for_each (mask_step cond) ds vars = Ok ds' -> attrs ds' = attrs ds.
Proof.
  induction vars as [| item vars IH]; intros ds ds'; cbn [for_each].
  - by intros [= <-].
  - destruct (mask_step cond ds item) as [ds1 | |] eqn:Hs;
      cbn [mbind result_bind]; [| done | done].
    intros Hrun. rewrite (IH _ _ Hrun).
    unfold mask_step in Hs.
    destruct (getitem ds item.1) as [v | |]; cbn [mbind result_bind] in Hs; [| done | done].
    destruct (xr_where v cond item.2) as [v' | |]; cbn [mbind result_bind] in Hs; [| done | done].
    by injection Hs as <-.
Qed.

Definition valid_positions (void : list Z) (nt : nat) : Prop :=
  Forall (fun v => - Z.of_nat nt <= v < Z.of_nat nt) void.

Definition clouds_attrs : list (string * string) :=
  [("title", "Clouds"); ("variable_id", "cfc_dm")].

Definition radiation_attrs : list (string * string) :=
  [("title", "Clouds"); ("variable_id", "sdu")].

Section GroupFacts.
Context `{Numerics}.

Lemma clouds_dataset_shape (time : list Z) (lon lat : list float) (void : list Z) :
  time <> [] -> lon <> [] -> valid_positions void (length time) ->
  exists ds,
    Clouds.get_dataset
      (Clouds.__init__ time lon lat {| Mask.void_timestamps := void |}) = Ok ds /\
    attrs ds = clouds_attrs /\
    (forall name a, data_vars ds !! name = Some a ->
       has_shape a (length time) (length lat) (length lon)) /\
    (forall name, is_Some (data_vars ds !! name)
                  <-> name ∈ ["cfc_dm"; "nobs"; "quality"]).
Proof.
  intros Ht Hl Hvoid.
  destruct time as [| t0 time']; [done |]. destruct lon as [| x0 lon']; [done |].
  set (time := t0 :: time') in *. set (lon := x0 :: lon') in *.
  set (mask := {| Mask.void_timestamps := void |}).
  destruct (get_nobs_grid time lon lat mask x0 lon' t0 time' eq_refl eq_refl)
    as (lon_min & lon_max & _ & _ & Hnobs).
  unfold Clouds.get_dataset. rewrite Hnobs. cbn [mbind result_bind].
  rewrite get_cfc_grid, get_quality_grid.
  pose proof (fun (A : Type) (g : A -> cell) h =>
                map_cube_shape g _ _ _ _ (grid_shape h (length time) lat lon))
    as Hgrid.
  match goal with
  | |- context [xr_Dataset ((?n0, ?a0) :: ?rest) ?at0] =>
      destruct (masked_dataset_shape n0 a0 rest at0 void
                  [("cfc_dm", CFloat F64.nan); ("nobs", CUInt8 0)]
                  (length time) (length lat) (length lon))
        as (ds0 & ds & Hds0 & Hrun & Hattrs & Hshape & Hnames)
  end.
  - intros name a Hin.
    apply elem_of_cons in Hin as [Heq | Hin];
      [injection Heq as _ ->; exact (Hgrid _ _ _) |].
    apply elem_of_cons in Hin as [Heq | Hin];
      [injection Heq as _ ->; exact (Hgrid _ _ _) |].
    apply elem_of_cons in Hin as [Heq | Hin];
      [injection Heq as _ ->; exact (Hgrid _ _ _) |].
    by apply elem_of_nil in Hin.
  - exact Hvoid.
  - apply (bool_decide_unpack _). reflexivity.
  - intros name fill Hin.
    repeat (apply elem_of_cons in Hin as [[= -> ->] | Hin]);
      [| | by apply elem_of_nil in Hin];
      apply (bool_decide_unpack _); reflexivity.
  - exists ds. rewrite Hds0. cbn [mbind result_bind].
    change (Clouds.mask (Clouds.__init__ time lon lat mask)) with mask.
    split; [exact Hrun |]. split; [exact Hattrs |]. split; [exact Hshape |].
    exact Hnames.
Qed.

Lemma radiation_dataset_shape (time : list Z) (lon lat : list float) (void : list Z) :
  valid_positions void (length time) ->
  exists ds,
    Radiation.get_dataset
      (Radiation.__init__ time lon lat {| Mask.void_timestamps := void |}) = Ok ds /\
    attrs ds = radiation_attrs /\
    (forall name a, data_vars ds !! name = Some a ->
       has_shape a (length time) (length lat) (length lon)) /\
    (forall name, is_Some (data_vars ds !! name) <-> name ∈ ["sdu"]).
Proof.
  intros Hvoid.
  set (mask := {| Mask.void_timestamps := void |}).
  unfold Radiation.get_dataset.
  match goal with
  | |- context [xr_Dataset ((?n0, ?a0) :: ?rest) ?at0] =>
      destruct (masked_dataset_shape n0 a0 rest at0 void
                  [("sdu", CFloat F64.nan)]
                  (length time) (length lat) (length lon))
        as (ds0 & ds & Hds0 & Hrun & Hattrs & Hshape & Hnames)
  end.
  - intros name a Hin.
    apply elem_of_cons in Hin as [Heq | Hin]; [| by apply elem_of_nil in Hin].
    injection Heq as _ ->. apply map_cube_shape, get_sdu_shape.
  - exact Hvoid.
  - apply (bool_decide_unpack _). reflexivity.
  - intros name fill Hin.
    apply elem_of_cons in Hin as [[= -> ->] | Hin]; [| by apply elem_of_nil in Hin].
    apply (bool_decide_unpack _); reflexivity.
  - exists ds. rewrite Hds0. cbn [mbind result_bind].
    change (Radiation.mask (Radiation.__init__ time lon lat mask)) with mask.
    split; [exact Hrun |]. split; [exact Hattrs |]. split; [exact Hshape |].
    exact Hnames.
Qed.

(** C7: when the maker was constructed and the void positions are valid
    indices of the time axis, the tree is built, the clouds group holds
    exactly cfc_dm, nobs and quality, the radiation group holds exactly sdu,
    and each of these fields has the shape (|time|, |lat|, |lon|) of the
    root coordinates. *)
Theorem fields_have_grid_shape (tstart tend : Z)
    (lon_min lon_max lat_min lat_max grid_resol : float) (void : list Z)
    (maker : DataTreeMaker.t) :
  DataTreeMaker.__init__ tstart tend lon_min lon_max lat_min lat_max grid_resol void
  = Ok maker ->
  valid_positions void (length (DataTreeMaker.time maker)) ->
  exists tree,
    DataTreeMaker.get_data_tree maker = Ok tree /\
    (forall name, is_Some (data_vars (DataTreeMaker.tree_clouds tree) !! name)
                  <-> name ∈ ["cfc_dm"; "nobs"; "quality"]) /\
    (forall name, is_Some (data_vars (DataTreeMaker.tree_radiation tree) !! name)
                  <-> name ∈ ["sdu"]) /\
    (forall name a,
       data_vars (DataTreeMaker.tree_clouds tree) !! name = Some a \/
       data_vars (DataTreeMaker.tree_radiation tree) !! name = Some a ->
       has_shape a
         (length (DataTreeMaker.coord_time (DataTreeMaker.tree_root tree)))
         (length (DataTreeMaker.coord_lat (DataTreeMaker.tree_root tree)))
         (length (DataTreeMaker.coord_lon (DataTreeMaker.tree_root tree)))).
Proof.
  intros Hinit Hvoid.
  apply init_inv in Hinit
    as (time & lon & lat & Ht & Hlo & Hla & _ & _ & _ & Etime & Elon & Elat & Ecl & Erad & _).
  rewrite Etime in Hvoid.
  destruct (clouds_dataset_shape time lon lat void Ht Hlo Hvoid)
    as (c & Hc & _ & Hcshape & Hcnames).
  destruct (radiation_dataset_shape time lon lat void Hvoid)
    as (r & Hr & _ & Hrshape & Hrnames).
  unfold DataTreeMaker.get_data_tree. rewrite Ecl, Erad, Hc, Hr.
  cbn [mbind result_bind]. eexists. split; [reflexivity |].
  cbn [DataTreeMaker.tree_clouds DataTreeMaker.tree_radiation DataTreeMaker.tree_root
       DataTreeMaker.get_root DataTreeMaker.coord_time DataTreeMaker.coord_lat
       DataTreeMaker.coord_lon].
  rewrite Etime, Elon, Elat.
  split; [exact Hcnames |]. split; [exact Hrnames |].
  intros name a [Ha | Ha]; [by apply (Hcshape name) | by apply (Hrshape name)].
Qed.

(** C10: whatever the input, a radiation group that is returned carries the
    attributes title = "Clouds" and variable_id = "sdu"; and it is returned
    whenever the void positions are valid indices of the time axis. *)
Theorem radiation_group_attrs (time : list Z) (lon lat : list float) (void : list Z) :
  (forall ds,
     Radiation.get_dataset
       (Radiation.__init__ time lon lat {| Mask.void_timestamps := void |}) = Ok ds ->
     attrs ds = [("title", "Clouds"); ("variable_id", "sdu")]) /\
  (valid_positions void (length time) ->
   exists ds,
     Radiation.get_dataset
       (Radiation.__init__ time lon lat {| Mask.void_timestamps := void |}) = Ok ds /\
     attrs ds = [("title", "Clouds"); ("variable_id", "sdu")]).
Proof.
  split.
  - intros ds. unfold Radiation.get_dataset.
    destruct (xr_Dataset _ _) as [ds0 | |] eqn:Hds0; [| done | done].
    cbn [mbind result_bind]. rewrite mask_timestamps_unfold.
    destruct (np_take _ _) as [tm | |]; [| done | done]. cbn [mbind result_bind].
    intros Hrun. rewrite (mask_loop_attrs _ _ _ _ Hrun).
    unfold xr_Dataset in Hds0. destruct (forallb _ _); [| done].
    by injection Hds0 as <-.
  - intros Hvoid.
    destruct (radiation_dataset_shape time lon lat void Hvoid) as (ds & Hds & Hattrs & _).
    by exists ds.
Qed.

End GroupFacts.

Lemma fields_have_grid_shape_witness :
  exists maker tree,
    DataTreeMaker.__init__ 0 86400000 (-0.5) 0.5 (-1) 1 1 [1] = Ok maker /\
    @DataTreeMaker.get_data_tree example_numerics maker = Ok tree /\
    forall a, data_vars (DataTreeMaker.tree_clouds tree) !! "nobs" = Some a ->
              has_shape a
                (length (DataTreeMaker.coord_time (DataTreeMaker.tree_root tree)))
                (length (DataTreeMaker.coord_lat (DataTreeMaker.tree_root tree)))
                (length (DataTreeMaker.coord_lon (DataTreeMaker.tree_root tree))).
Proof.
  destruct (DataTreeMaker.__init__ 0 86400000 (-0.5) 0.5 (-1) 1 1 [1])
    as [maker | e |] eqn:E; [| vm_compute in E; discriminate ..].
  pose proof E as E'. vm_compute in E'. injection E' as <-.
  destruct (@fields_have_grid_shape example_numerics _ _ _ _ _ _ _ _ _ E)
    as (tree & Htree & _ & _ & Hshape).
  - repeat constructor; cbn; lia.
  - eexists _, tree. split; [reflexivity |]. split; [exact Htree |].
    intros a Ha. apply (Hshape "nobs" a). by left.
Defined.

Lemma radiation_group_attrs_witness :
  exists ds,
    @Radiation.get_dataset example_numerics
      (Radiation.__init__ [0; 86400000] [0%float] [0%float]
         {| Mask.void_timestamps := [1] |}) = Ok ds /\
    attrs ds = [("title", "Clouds"); ("variable_id", "sdu")].
Proof.
  apply (proj2 (@radiation_group_attrs example_numerics [0; 86400000]
                  [0%float] [0%float] [1])).
  repeat constructor; cbn; lia.
Defined.

(** ** Sunshine duration on a single timestep *)

Lemma ogrid_axis_lookup (start stop : Z) (n k : nat) :
  (k < n)%nat ->
  Radiation.ogrid_axis start stop n !! k
  = Some (float_of_nat k
          * (if Nat.eqb n 1 then 1
             else Radiation.float_of_Z (stop - start) / float_of_nat (n - 1))
          + Radiation.float_of_Z start)%float.
Proof.
  intros Hk. unfold Radiation.ogrid_axis, range.
  rewrite list_lookup_fmap, lookup_seq_lt by done. cbn [fmap option_fmap option_map].
  do 3 f_equal. destruct n as [| [| n]]; [lia | reflexivity |].
  cbn [Nat.eqb]. f_equal. unfold Radiation.float_of_Z.
  replace (Z.of_nat (S (S n)) - 1 <? 0) with false by (symmetry; apply Z.ltb_ge; lia).
  f_equal. lia.
Qed.

Section SingleTimestep.
Context `{Numerics}.

(** C9: on a grid with one timestep the rotation angle is [360 * 0 / 1 =
    0.0], and the sunshine-duration field is what [rotate] returns for the
    heart mask at that angle, stored as 1.0 / 0.0; nothing in [get_sdu]
    treats the angle 0 apart.  The mask at row [i], column [j] is
    x^2 + (5y/4 - sqrt|x|)^2 - 1 <= 0 at x = 1.2 * xs[j], y = 1.2 * ys[i],
    where xs runs from -1 to 1 over the columns and ys from 1 to -1 over the
    rows.  So a cell of the field is the mask's value exactly when the
    rotation by 0 degrees leaves that cell of the image as it is. *)
Theorem sdu_single_timestep_is_rotated_heart (t0 : Z) (lon lat : list float)
    (mask : Mask.t) (i j : nat) :
  (i < length lat)%nat -> (j < length lon)%nat ->
  let ystep := if Nat.eqb (length lat) 1 then 1%float
               else (-2 / float_of_nat (length lat - 1))%float in
  let xstep := if Nat.eqb (length lon) 1 then 1%float
               else (2 / float_of_nat (length lon - 1))%float in
  let y := ((float_of_nat i * ystep + 1) * 1.2)%float in
  let x := ((float_of_nat j * xstep + -1) * 1.2)%float in
  let inside :=
    (x * x + (5 * y / 4 - PrimFloat.sqrt (PrimFloat.abs x))
             * (5 * y / 4 - PrimFloat.sqrt (PrimFloat.abs x)) - 1 <=? 0)%float in
  let heart := Radiation.heart (length lat) (length lon) in
  (float_of_nat (360 * 0) / float_of_nat 1 = 0)%float /\
  (exists row, heart !! i = Some row /\ row !! j = Some inside) /\
  cell_at (Radiation.get_sdu (Radiation.__init__ [t0] lon lat mask)) 0 i j
  = Some (if rotate_at heart 0 i j then 1%float else 0%float) /\
  (cell_at (Radiation.get_sdu (Radiation.__init__ [t0] lon lat mask)) 0 i j
   = Some (if inside then 1%float else 0%float)
   <-> rotate_at heart 0 i j = inside).
Proof.
  intros Hi Hj ystep xstep y x inside heart.
  split; [reflexivity |].
  assert (Hrow : heart !! i
                 = Some (map (fun xj => Radiation.heart_cell xj y)
                           (map (fun v => (v * Radiation.heart_extent)%float)
                              (Radiation.ogrid_axis (-1) 1 (length lon))))).
  { unfold heart, Radiation.heart. rewrite !list_lookup_fmap.
    by rewrite (ogrid_axis_lookup 1 (-1) _ i Hi). }
  assert (Hcell : map (fun xj => Radiation.heart_cell xj y)
                    (map (fun v => (v * Radiation.heart_extent)%float)
                       (Radiation.ogrid_axis (-1) 1 (length lon))) !! j
                  = Some inside).
  { rewrite !list_lookup_fmap. by rewrite (ogrid_axis_lookup (-1) 1 _ j Hj). }
  split; [eexists; split; [exact Hrow | exact Hcell] |].
  assert (Hsdu : cell_at (Radiation.get_sdu (Radiation.__init__ [t0] lon lat mask)) 0 i j
                 = Some (if rotate_at heart 0 i j then 1%float else 0%float)).
  { rewrite get_sdu_planes. cbn [length range seq map].
    change (angle_of 0 1) with 0%float. fold heart.
    unfold cell_at, map_plane, Radiation.rotate. cbn [lookup list_lookup].
    rewrite list_lookup_fmap, list_lookup_imap, Hrow.
    cbn [fmap option_fmap option_map mbind option_bind].
    by rewrite list_lookup_fmap, list_lookup_imap, Hcell. }
  split; [exact Hsdu |]. rewrite Hsdu. split.
  - intros [= Heq]. destruct (rotate_at heart 0 i j), inside; try done;
      vm_compute in Heq; discriminate.
  - by intros ->.
Qed.

End SingleTimestep.

Lemma sdu_single_timestep_is_rotated_heart_witness :
  cell_at (@Radiation.get_sdu example_numerics
             (Radiation.__init__ [0] [(-0.5)%float; 0%float; 0.5%float]
                [0.5%float; 0%float; (-0.5)%float]
                {| Mask.void_timestamps := [] |})) 0 1 1
  = Some 1%float /\
  cell_at (@Radiation.get_sdu example_numerics
             (Radiation.__init__ [0] [(-0.5)%float; 0%float; 0.5%float]
                [0.5%float; 0%float; (-0.5)%float]
                {| Mask.void_timestamps := [] |})) 0 0 0
  = Some 0%float.
Proof.
  split.
  - destruct (@sdu_single_timestep_is_rotated_heart example_numerics 0
                [(-0.5)%float; 0%float; 0.5%float] [0.5%float; 0%float; (-0.5)%float]
                {| Mask.void_timestamps := [] |} 1 1) as (_ & _ & _ & Hiff);
      [cbn; lia | cbn; lia |].
    apply Hiff. vm_compute. reflexivity.
  - destruct (@sdu_single_timestep_is_rotated_heart example_numerics 0
                [(-0.5)%float; 0%float; 0.5%float] [0.5%float; 0%float; (-0.5)%float]
                {| Mask.void_timestamps := [] |} 0 0) as (_ & _ & _ & Hiff);
      [cbn; lia | cbn; lia |].
    apply Hiff. vm_compute. reflexivity.
Defined.

(** * Further properties of the code *)

(** ** The time axis and its bounds *)

Lemma whole_second_le (t : Z) :
  DataTreeMaker.whole_second t <= t < DataTreeMaker.whole_second t + 1000.
Proof.
  unfold DataTreeMaker.whole_second.
  pose proof (Z.mod_pos_bound t 1000 ltac:(lia)). lia.
Qed.

Lemma day_quotient (start tend : Z) :
  start <= tend ->
  0 <= (tend - start) / DataTreeMaker.day_ms /\
  start + (tend - start) / DataTreeMaker.day_ms * DataTreeMaker.day_ms <= tend
  < start + (tend - start) / DataTreeMaker.day_ms * DataTreeMaker.day_ms
    + DataTreeMaker.day_ms.
Proof.
  intros Hle. unfold DataTreeMaker.day_ms.
  pose proof (Z.div_pos (tend - start) 86400000 ltac:(lia) ltac:(lia)).
  pose proof (Z.mul_div_le (tend - start) 86400000 ltac:(lia)).
  pose proof (Z.mul_succ_div_gt (tend - start) 86400000 ltac:(lia)).
  lia.
Qed.

Lemma get_time_from (tstart tend : Z) :
  DataTreeMaker.whole_second tstart <= tend ->
  DataTreeMaker.get_time tstart tend
  = map (fun k : nat => DataTreeMaker.whole_second tstart
                        + Z.of_nat k * DataTreeMaker.day_ms)
        (seq 0 (S (Z.to_nat ((tend - DataTreeMaker.whole_second tstart)
                             / DataTreeMaker.day_ms)))).
Proof.
  intros Hle. unfold DataTreeMaker.get_time, DataTreeMaker.rrule_daily, range.
  cbv zeta.
  by replace (tend <? DataTreeMaker.whole_second tstart) with false
    by (symmetry; apply Z.ltb_ge; lia).
Qed.

Lemma get_time_lookup (tstart tend : Z) (k : nat) (t : Z) :
  DataTreeMaker.whole_second tstart <= tend ->
  DataTreeMaker.get_time tstart tend !! k = Some t <->
  t = DataTreeMaker.whole_second tstart + Z.of_nat k * DataTreeMaker.day_ms /\
  Z.of_nat k <= (tend - DataTreeMaker.whole_second tstart) / DataTreeMaker.day_ms.
Proof.
  intros Hle. pose proof (day_quotient _ tend Hle) as [Hq _].
  rewrite (get_time_from _ _ Hle), list_lookup_fmap. split.
  - intros Hk. destruct (seq _ _ !! k) as [k' |] eqn:Hs; [| done].
    apply lookup_seq in Hs as [-> Hlt]. injection Hk as <-. split; [done | lia].
  - intros [-> Hk]. rewrite lookup_seq_lt by lia. reflexivity.
Qed.

(** X1: rrule starts the axis at [start], the whole second of [tstart].
    When [tend] lies before it the axis is empty; otherwise the axis begins
    with [start], advances by exactly one day per position, does not pass
    [tend], and stops less than one day before [tend] (so it has
    [(tend - start) div 1 day + 1] entries, all distinct). *)
Theorem get_time_daily_axis (tstart tend start : Z) :
  start = tstart - tstart mod 1000 ->
  (tend < start -> DataTreeMaker.get_time tstart tend = []) /\
  (start <= tend ->
   DataTreeMaker.get_time tstart tend !! 0%nat = Some start /\
   length (DataTreeMaker.get_time tstart tend)
   = S (Z.to_nat ((tend - start) / 86400000)) /\
   (forall (k : nat) (t : Z),
      DataTreeMaker.get_time tstart tend !! k = Some t ->
      t = start + Z.of_nat k * 86400000 /\ tstart - 1000 < start <= t /\ t <= tend) /\
   (forall t, last (DataTreeMaker.get_time tstart tend) = Some t ->
              tend < t + 86400000) /\
   NoDup (DataTreeMaker.get_time tstart tend)).
Proof.
  intros ->. split; [apply get_time_empty |].
  change (tstart - tstart mod 1000) with (DataTreeMaker.whole_second tstart).
  change 86400000 with DataTreeMaker.day_ms.
  intros Hle. pose proof (day_quotient _ tend Hle) as (Hq & Hlo & Hhi).
  pose proof (whole_second_le tstart) as Hsec.
  assert (Hlen : length (DataTreeMaker.get_time tstart tend)
                 = S (Z.to_nat ((tend - DataTreeMaker.whole_second tstart)
                                / DataTreeMaker.day_ms))).
  { by rewrite (get_time_from _ _ Hle), length_map, length_seq. }
  assert (Hday : 0 < DataTreeMaker.day_ms) by done.
  split; [apply get_time_lookup; [done |]; split; lia |].
  split; [exact Hlen |]. split; [| split].
  - intros k t Hk. apply get_time_lookup in Hk as [-> Hk]; [| done].
    split; [done |]. nia.
  - intros t Hlast. rewrite last_lookup, Hlen in Hlast. cbn [pred] in Hlast.
    apply get_time_lookup in Hlast as [-> _]; [| done]. rewrite Z2Nat.id by lia. lia.
  - apply NoDup_alt. intros i j t Hi Hj.
    apply get_time_lookup in Hi as [Hi _], Hj as [Hj _]; try done. nia.
Qed.

Lemma get_time_daily_axis_witness :
  DataTreeMaker.get_time 1000 999 = [] /\
  DataTreeMaker.get_time 1577836800500 1577923200000 !! 0%nat = Some 1577836800000 /\
  length (DataTreeMaker.get_time 1577836800500 1577923200000) = 2%nat.
Proof.
  split; [apply (get_time_daily_axis 1000 999 1000 eq_refl); lia |].
  destruct (get_time_daily_axis 1577836800500 1577923200000 1577836800000 eq_refl)
    as (_ & Hdays).
  destruct (Hdays ltac:(lia)) as (H0 & Hlen & _).
  split; [exact H0 | exact Hlen].
Defined.

(** X2: for [tstart <= tend] the time bounds are built, one pair per
    timestamp, each the day starting at its timestamp, and consecutive
    cells abut exactly: the upper bound of one is the lower bound of the
    next. *)
Theorem time_bounds_tile (tstart tend : Z) :
  tstart <= tend ->
  exists bounds,
    DataTreeMaker.get_time_bounds (DataTreeMaker.get_time tstart tend) = Ok bounds /\
    length bounds = length (DataTreeMaker.get_time tstart tend) /\
    (forall (k : nat) (t : Z),
       DataTreeMaker.get_time tstart tend !! k = Some t ->
       bounds !! k = Some (t, t + DataTreeMaker.day_ms)) /\
    (forall (k : nat) (lo up lo' up' : Z),
       bounds !! k = Some (lo, up) -> bounds !! S k = Some (lo', up') -> up = lo').
Proof.
  intros Hle0.
  assert (Hle : DataTreeMaker.whole_second tstart <= tend)
    by (pose proof (whole_second_le tstart); lia).
  set (time := DataTreeMaker.get_time tstart tend).
  set (b := map (fun c => (c, c + 1 * DataTreeMaker.day_ms)) time).
  assert (Hb : DataTreeMaker.get_time_bounds time = Ok b).
  { unfold DataTreeMaker.get_time_bounds, DataTreeMaker._get_bounds.
    cbn [String.eqb Ascii.eqb Bool.eqb mbind result_bind].
    assert (H0 : time !! 0%nat = Some (DataTreeMaker.whole_second tstart)).
    { apply get_time_lookup; [done |]. pose proof (day_quotient _ tend Hle). lia. }
    destruct time as [| t0 time']; [done |]. reflexivity. }
  assert (Hlook : forall (k : nat) (t : Z), time !! k = Some t ->
            b !! k = Some (t, t + DataTreeMaker.day_ms)).
  { intros k t Hk. unfold b. rewrite list_lookup_fmap, Hk. cbn; repeat f_equal; lia. }
  exists b. split; [exact Hb |]. split; [unfold b; by rewrite length_map |].
  split; [exact Hlook |].
  intros k lo up lo' up' Hk Hk'.
  destruct (lookup_lt_is_Some_2 time k) as [t Ht].
  { apply lookup_lt_Some in Hk. unfold b in Hk. rewrite length_map in Hk. lia. }
  destruct (lookup_lt_is_Some_2 time (S k)) as [t' Ht'].
  { apply lookup_lt_Some in Hk'. unfold b in Hk'. by rewrite length_map in Hk'. }
  rewrite (Hlook _ _ Ht) in Hk. rewrite (Hlook _ _ Ht') in Hk'.
  injection Hk as <- <-. injection Hk' as <- <-.
  apply get_time_lookup in Ht as [-> _], Ht' as [-> _]; try done. lia.
Qed.

Lemma time_bounds_tile_witness :
  exists bounds,
    DataTreeMaker.get_time_bounds (DataTreeMaker.get_time 0 86400000) = Ok bounds /\
    bounds !! 1%nat = Some (86400000, 172800000).
Proof.
  destruct (time_bounds_tile 0 86400000) as (bounds & Hb & _ & Hlook & _); [lia |].
  exists bounds. split; [exact Hb |]. apply (Hlook 1%nat 86400000). reflexivity.
Defined.

(** ** Masking: errors, wrap-around, invariants *)

(** The position a Python index denotes in a sequence of length [n]. *)
Definition py_position (n : nat) (i : Z) : nat :=
  Z.to_nat (if i <? 0 then Z.of_nat n + i else i).

(** Position [t] of [n] is selected by the index list [void], read as
    Python indices: as [t] itself or as the negative index [t - n]. *)
Definition masked_position (void : list Z) (n t : nat) : bool :=
  bool_decide (Z.of_nat t ∈ void \/ Z.of_nat t - Z.of_nat n ∈ void).

(** [arr] with the timesteps selected by [void] overwritten by [fill]. *)
Definition mask_cube (void : list Z) (fill : cell) (a : cube cell) : cube cell :=
  imap (fun t p => if masked_position void (length a) t
                   then map_plane (fun _ => fill) p else p) a.

Lemma py_index_invalid {A} (l : list A) (i : Z) :
  ~ (- Z.of_nat (length l) <= i < Z.of_nat (length l)) ->
  py_index l i = Raise IndexError.
Proof.
  intros Hi. unfold py_index.
  destruct (Z.ltb_spec i 0);
    (replace (_ && _) with false; [done |]; symmetry; apply andb_false_iff;
     rewrite Z.leb_gt, Z.ltb_ge; lia).
Qed.

Lemma py_index_valid {A} (l : list A) (i : Z) :
  - Z.of_nat (length l) <= i < Z.of_nat (length l) ->
  exists x, py_index l i = Ok x /\ l !! py_position (length l) i = Some x.
Proof.
  intros Hi. unfold py_index, py_position.
  set (pos := if i <? 0 then Z.of_nat (length l) + i else i).
  assert (Hpos : 0 <= pos < Z.of_nat (length l))
    by (unfold pos; destruct (Z.ltb_spec i 0); lia).
  replace ((0 <=? pos) && (pos <? Z.of_nat (length l))) with true
    by (symmetry; apply andb_true_iff; split; [apply Z.leb_le | apply Z.ltb_lt]; lia).
  destruct (lookup_lt_is_Some_2 l (Z.to_nat pos) ltac:(lia)) as [x Hx].
  exists x. by rewrite Hx.
Qed.

Lemma np_take_invalid {A} (l : list A) (idx : list Z) :
  Exists (fun i => ~ (- Z.of_nat (length l) <= i < Z.of_nat (length l))) idx ->
  np_take l idx = Raise IndexError.
Proof.
  induction idx as [| i idx IH]; intros Hex; [by apply Exists_nil in Hex |].
  cbn [np_take].
  destruct (decide (- Z.of_nat (length l) <= i < Z.of_nat (length l))) as [Hi | Hi].
  - destruct (py_index_valid l i Hi) as (x & -> & _). cbn [mbind result_bind].
    apply Exists_cons in Hex as [Hbad | Hex]; [done |].
    by rewrite (IH Hex).
  - by rewrite (py_index_invalid l i Hi).
Qed.

Lemma np_take_valid {A} (l : list A) (idx : list Z) :
  valid_positions idx (length l) ->
  exists xs, np_take l idx = Ok xs /\
    forall x, x ∈ xs <-> exists i, i ∈ idx /\ l !! py_position (length l) i = Some x.
Proof.
  induction 1 as [| i idx Hi _ IH]; cbn [np_take].
  - exists []. split; [done |]. intros x. split.
    + by intros ?%elem_of_nil.
    + by intros (i & ?%elem_of_nil & _).
  - destruct (py_index_valid l i Hi) as (x0 & -> & Hx0).
    destruct IH as (xs & -> & Hxs). cbn [mbind result_bind].
    exists (x0 :: xs). split; [done |]. intros x.
    rewrite elem_of_cons, Hxs. split.
    + intros [-> | (k & Hk & Hl)].
      * exists i. split; [left | done].
      * exists k. split; [by right | done].
    + intros (k & Hk & Hl). apply elem_of_cons in Hk as [-> | Hk].
      * left. congruence.
      * right. by exists k.
Qed.

(** With distinct time values the condition of the loop is the negation of
    [masked_position]. *)
Lemma mask_cond_lookup (time tm : list Z) (void : list Z) (t : nat) (x : Z) :
  NoDup time ->
  valid_positions void (length time) ->
  (forall x, x ∈ tm <->
     exists i, i ∈ void /\ time !! py_position (length time) i = Some x) ->
  time !! t = Some x ->
  map negb (map (fun t => isin t tm) time) !! t
  = Some (negb (masked_position void (length time) t)).
Proof.
  intros Hnd Hvoid Htm Hx. rewrite !list_lookup_fmap, Hx. cbn. do 2 f_equal.
  unfold isin, masked_position. apply bool_decide_ext. rewrite Htm.
  pose proof (lookup_lt_Some _ _ _ Hx) as Hlt.
  unfold valid_positions in Hvoid. rewrite Forall_forall in Hvoid. split.
  - intros (i & Hi & Hl). specialize (Hvoid i Hi).
    pose proof (NoDup_lookup _ _ _ _ Hnd Hl Hx) as Heq. unfold py_position in Heq.
    destruct (Z.ltb_spec i 0).
    + right. by replace (Z.of_nat t - Z.of_nat (length time)) with i by lia.
    + left. by replace (Z.of_nat t) with i by lia.
  - intros [Hin | Hin]; eexists; (split; [exact Hin |]); unfold py_position.
    + replace (Z.of_nat t <? 0) with false by (symmetry; apply Z.ltb_ge; lia).
      by rewrite Nat2Z.id.
    + replace (Z.of_nat t - Z.of_nat (length time) <? 0) with true
        by (symmetry; apply Z.ltb_lt; lia).
      by replace (Z.to_nat _) with t by lia.
Qed.

Lemma where_planes_mask_cube (time tm : list Z) (void : list Z) (fill : cell)
    (a : cube cell) :
  NoDup time ->
  valid_positions void (length time) ->
  (forall x, x ∈ tm <->
     exists i, i ∈ void /\ time !! py_position (length time) i = Some x) ->
  length a = length time ->
  where_planes (map negb (map (fun t => isin t tm) time)) fill a
  = mask_cube void fill a.
Proof.
  intros Hnd Hvoid Htm Hlen. apply list_eq. intros t.
  unfold mask_cube. rewrite list_lookup_imap.
  destruct (a !! t) as [p |] eqn:Hp.
  - destruct (lookup_lt_is_Some_2 time t) as [x Hx];
      [rewrite <- Hlen; by eapply lookup_lt_Some |].
    rewrite (where_planes_lookup _ fill a t _ p
               (mask_cond_lookup time tm void t x Hnd Hvoid Htm Hx) Hp).
    cbn. rewrite Hlen. by destruct (masked_position void (length time) t).
  - unfold where_planes. rewrite lookup_zip_with, Hp. cbn.
    by destruct (map negb _ !! t).
Qed.

Lemma mask_step_inv (cond : list bool) (ds ds1 : Dataset) (item : string * cell) :
  mask_step cond ds item = Ok ds1 ->
  exists v, data_vars ds !! item.1 = Some v /\ length cond = length v /\
            ds1 = setitem ds item.1 (where_planes cond item.2 v).
Proof.
  unfold mask_step, getitem, xr_where.
  destruct (data_vars ds !! item.1) as [v |]; cbn [mbind result_bind];
    [| by destruct (virtual_name _)].
  destruct (Nat.eqb_spec (length cond) (length v)) as [Hl |];
    cbn [mbind result_bind]; [| done].
  intros [= <-]. by exists v.
Qed.

Lemma mask_loop_keeps (cond : list bool) (vars : list (string * cell)) :
  forall ds ds', for_each (mask_step cond) ds vars = Ok ds' ->
  time_index ds' = time_index ds /\
  dom (data_vars ds') = dom (data_vars ds) /\
  (forall name a', data_vars ds' !! name = Some a' ->
     exists a, data_vars ds !! name = Some a /\ length a' = length a).
Proof.
  induction vars as [| item vars IH]; intros ds ds'; cbn [for_each].
  - intros [= <-]. repeat split; try done. intros name a' Ha. by exists a'.
  - destruct (mask_step cond ds item) as [ds1 | |] eqn:Hs;
      cbn [mbind result_bind]; [| done | done].
    intros Hrun. destruct (IH _ _ Hrun) as (Ht & Hd & Hl).
    apply mask_step_inv in Hs as (v & Hv & Hlen & ->).
    split; [by rewrite Ht |]. split.
    + rewrite Hd. cbn. apply dom_insert_lookup_L. by eexists.
    + intros name a' Ha'. destruct (Hl name a' Ha') as (a1 & Ha1 & Hlen1).
      cbn in Ha1. destruct (decide (item.1 = name)) as [<- | Hne].
      * rewrite lookup_insert_eq in Ha1. injection Ha1 as <-.
        exists v. split; [done |]. rewrite Hlen1.
        apply where_planes_length. exact Hlen.
      * rewrite lookup_insert_ne in Ha1 by done. by exists a1.
Qed.

Lemma mask_loop_held (cond : list bool) (vars : list (string * cell)) :
  forall ds ds', for_each (mask_step cond) ds vars = Ok ds' ->
  forall name fill, (name, fill) ∈ vars -> is_Some (data_vars ds !! name).
Proof.
  induction vars as [| item vars IH]; intros ds ds'; cbn [for_each].
  - by intros _ name fill ?%elem_of_nil.
  - destruct (mask_step cond ds item) as [ds1 | |] eqn:Hs;
      cbn [mbind result_bind]; [| done | done].
    intros Hrun name fill Hin.
    apply mask_step_inv in Hs as (v & Hv & Hlen & ->).
    apply elem_of_cons in Hin as [Heq | Hin]; [rewrite <- Heq in Hv; by eexists |].
    destruct (IH _ _ Hrun name fill Hin) as [a Ha]. cbn in Ha.
    destruct (decide (item.1 = name)) as [<- | Hne]; [by eexists |].
    rewrite lookup_insert_ne in Ha by done. by eexists.
Qed.

(** A name that is neither a dimension name nor a dotted name is not
    resolved to a virtual variable. *)
Lemma plain_name (name : string) :
  name ∉ ["time"; "lat"; "lon"] -> String.index 0 "." name = None ->
  virtual_name name = false.
Proof.
  intros Hdim Hdot. unfold virtual_name, dims. rewrite Hdot.
  by rewrite bool_decide_eq_false_2.
Qed.

Lemma mask_loop_key_error (cond : list bool) (vars : list (string * cell)) :
  forall ds : Dataset,
  (forall name a, data_vars ds !! name = Some a -> length a = length cond) ->
  Forall (fun item : string * cell => virtual_name item.1 = false) vars ->
  (exists name fill, (name, fill) ∈ vars /\ data_vars ds !! name = None) ->
  for_each (mask_step cond) ds vars = Raise KeyError.
Proof.
  induction vars as [| [n f] vars IH];
    intros ds Hinv Hplain (name & fill & Hin & Hnone).
  - by apply elem_of_nil in Hin.
  - cbn [for_each]. apply Forall_cons in Hplain as [Hn Hplain]. cbn [fst] in Hn.
    destruct (data_vars ds !! n) as [a |] eqn:Ha.
    + rewrite (mask_step_ok cond ds n f a Ha (Hinv n a Ha)). cbn [mbind result_bind].
      apply elem_of_cons in Hin as [[= -> ->] | Hin]; [congruence |].
      apply IH; [| exact Hplain |].
      * intros name' a' Ha'. cbn in Ha'.
        destruct (decide (n = name')) as [<- | Hne].
        -- rewrite lookup_insert_eq in Ha'. injection Ha' as <-.
           rewrite where_planes_length; [by apply (Hinv n) |].
           symmetry. by apply (Hinv n).
        -- rewrite lookup_insert_ne in Ha' by done. by apply (Hinv name').
      * exists name, fill. split; [done |]. cbn.
        rewrite lookup_insert_ne; [done |]. congruence.
    + unfold mask_step, getitem. cbn [fst]. by rewrite Ha, Hn.
Qed.

(** X3: a void position outside [-n, n), [n] the length of the time axis,
    makes [mask_timestamps] raise IndexError, whatever the dataset holds and
    whichever variables are to be masked. *)
Theorem mask_index_error (void : list Z) (ds : Dataset) (vars : list (string * cell)) :
  Exists (fun v => ~ (- Z.of_nat (length (time_index ds)) <= v
                      < Z.of_nat (length (time_index ds)))) void ->
  Mask.mask_timestamps {| Mask.void_timestamps := void |} ds vars = Raise IndexError.
Proof.
  intros Hbad. rewrite mask_timestamps_unfold. cbn [Mask.void_timestamps].
  by rewrite (np_take_invalid _ _ Hbad).
Qed.

Lemma mask_index_error_witness :
  Mask.mask_timestamps {| Mask.void_timestamps := [1; 3] |} example_group
    [("sdu", CFloat F64.nan)] = Raise IndexError.
Proof.
  apply (mask_index_error [1; 3] example_group).
  apply Exists_cons. right. apply Exists_cons. left. cbn. lia.
Defined.

(** X4: with valid void positions, on a dataset whose variables all have
    the length of the time axis, and with a fill map none of whose keys is a
    dimension name (time, lat, lon) or a dotted name (those xarray resolves
    to virtual variables), naming a variable the dataset does not hold makes
    [mask_timestamps] raise KeyError. *)
Theorem mask_key_error (void : list Z) (ds : Dataset) (vars : list (string * cell))
    (name : string) (fill : cell) :
  valid_positions void (length (time_index ds)) ->
  (forall name a, data_vars ds !! name = Some a ->
                  length a = length (time_index ds)) ->
  Forall (fun item : string * cell =>
            (item.1 ∉ ["time"; "lat"; "lon"]) /\ String.index 0 "." item.1 = None)
         vars ->
  (name, fill) ∈ vars -> data_vars ds !! name = None ->
  Mask.mask_timestamps {| Mask.void_timestamps := void |} ds vars = Raise KeyError.
Proof.
  intros Hvoid Hinv Hplain Hin Hnone.
  rewrite mask_timestamps_unfold. cbn [Mask.void_timestamps].
  destruct (np_take_ok _ _ Hvoid) as [tm ->]. cbn [mbind result_bind].
  apply mask_loop_key_error.
  - intros name' a Ha. rewrite !length_map. by apply (Hinv name').
  - eapply Forall_impl; [exact Hplain |]. intros item [Hdim Hdot].
    by apply plain_name.
  - by exists name, fill.
Qed.

Lemma example_group_lengths (name : string) (a : cube cell) :
  data_vars example_group !! name = Some a -> length a = 3%nat.
Proof.
  intros Ha. apply (elem_of_list_to_map_2 (M := gmap string)) in Ha.
  repeat (apply elem_of_cons in Ha as [[= -> ->] | Ha]; [reflexivity |]).
  by apply elem_of_nil in Ha.
Qed.

Lemma mask_key_error_witness :
  Mask.mask_timestamps {| Mask.void_timestamps := [1] |} example_group
    [("sdu", CFloat F64.nan); ("nobs", CUInt8 0)] = Raise KeyError.
Proof.
  apply (mask_key_error [1] example_group _ "nobs" (CUInt8 0)).
  - repeat constructor; cbn; lia.
  - exact example_group_lengths.
  - repeat constructor; apply (bool_decide_unpack _); reflexivity.
  - right. left.
  - reflexivity.
Defined.

(** The masked dataset, variable by variable. *)
Lemma mask_timestamps_content (void : list Z) (ds : Dataset)
    (vars : list (string * cell)) :
  NoDup (time_index ds) ->
  valid_positions void (length (time_index ds)) ->
  NoDup vars.*1 ->
  (forall name fill, (name, fill) ∈ vars ->
     exists a, data_vars ds !! name = Some a /\ length a = length (time_index ds)) ->
  exists ds',
    Mask.mask_timestamps {| Mask.void_timestamps := void |} ds vars = Ok ds' /\
    (forall name fill a, (name, fill) ∈ vars -> data_vars ds !! name = Some a ->
       data_vars ds' !! name = Some (mask_cube void fill a)) /\
    (forall name, name ∉ vars.*1 -> data_vars ds' !! name = data_vars ds !! name).
Proof.
  intros Hnd Hvoid Hkeys Hex.
  rewrite mask_timestamps_unfold. cbn [Mask.void_timestamps].
  destruct (np_take_valid (time_index ds) void Hvoid) as (tm & -> & Htm).
  cbn [mbind result_bind].
  set (cond := map negb (map (fun t => isin t tm) (time_index ds))).
  destruct (mask_loop_spec cond vars ds Hkeys) as (ds' & Hrun & _ & _ & Hmasked & Hframe).
  { intros name fill Hin. destruct (Hex name fill Hin) as (a & Ha & Hl).
    exists a. split; [done |]. unfold cond. by rewrite !length_map. }
  exists ds'. split; [exact Hrun |]. split; [| exact Hframe].
  intros name fill a Hin Ha.
  destruct (Hex name fill Hin) as (a0 & Ha0 & Hl).
  assert (a0 = a) as -> by congruence.
  rewrite <- (where_planes_mask_cube (time_index ds) tm void fill a Hnd Hvoid Htm Hl).
  by apply Hmasked.
Qed.

(** X5: Python indexing wraps: on a dataset with distinct time values and
    void positions in [-n, n), timestep [t] of a named variable is
    overwritten by the fill value exactly when [t] or [t - n] is a void
    position, and kept otherwise; unnamed variables are unchanged. *)
Theorem mask_timestamps_wraps (void : list Z) (ds : Dataset)
    (vars : list (string * cell)) :
  NoDup (time_index ds) ->
  valid_positions void (length (time_index ds)) ->
  NoDup vars.*1 ->
  (forall name fill, (name, fill) ∈ vars ->
     exists a, data_vars ds !! name = Some a /\ length a = length (time_index ds)) ->
  exists ds',
    Mask.mask_timestamps {| Mask.void_timestamps := void |} ds vars = Ok ds' /\
    (forall name fill a, (name, fill) ∈ vars -> data_vars ds !! name = Some a ->
       exists a',
         data_vars ds' !! name = Some a' /\
         length a' = length a /\
         forall (t : nat) (p : plane cell), a !! t = Some p ->
           a' !! t = Some (if masked_position void (length (time_index ds)) t
                           then map_plane (fun _ => fill) p
                           else p)) /\
    (forall name, name ∉ vars.*1 -> data_vars ds' !! name = data_vars ds !! name).
Proof.
  intros Hnd Hvoid Hkeys Hex.
  rewrite mask_timestamps_unfold. cbn [Mask.void_timestamps].
  destruct (np_take_valid (time_index ds) void Hvoid) as (tm & -> & Htm).
  cbn [mbind result_bind].
  set (cond := map negb (map (fun t => isin t tm) (time_index ds))).
  destruct (mask_loop_spec cond vars ds Hkeys) as (ds' & Hrun & _ & _ & Hmasked & Hframe).
  { intros name fill Hin. destruct (Hex name fill Hin) as (a & Ha & Hl).
    exists a. split; [done |]. unfold cond. by rewrite !length_map. }
  exists ds'. split; [exact Hrun |]. split; [| exact Hframe].
  intros name fill a Hin Ha.
  destruct (Hex name fill Hin) as (a0 & Ha0 & Hl).
  assert (a0 = a) as -> by congruence.
  exists (mask_cube void fill a).
  rewrite <- (where_planes_mask_cube (time_index ds) tm void fill a Hnd Hvoid Htm Hl).
  split; [by apply Hmasked |].
  rewrite (where_planes_mask_cube (time_index ds) tm void fill a Hnd Hvoid Htm Hl).
  unfold mask_cube. split; [by rewrite length_imap |].
  intros t p Hp. by rewrite list_lookup_imap, Hp, Hl.
Qed.

Lemma mask_timestamps_wraps_witness :
  exists ds',
    Mask.mask_timestamps {| Mask.void_timestamps := [-1] |} example_group
      [("sdu", CFloat F64.nan)] = Ok ds' /\
    exists a', data_vars ds' !! "sdu" = Some a' /\
               a' !! 2%nat = Some [[CFloat F64.nan]].
Proof.
  destruct (mask_timestamps_wraps [-1] example_group [("sdu", CFloat F64.nan)])
    as (ds' & Hrun & Hmasked & _).
  - apply (bool_decide_unpack _). reflexivity.
  - repeat constructor; cbn; lia.
  - apply (bool_decide_unpack _). reflexivity.
  - intros name fill Hin. apply list_elem_of_singleton in Hin. injection Hin as -> ->.
    eexists. split; reflexivity.
  - exists ds'. split; [exact Hrun |].
    destruct (Hmasked "sdu" (CFloat F64.nan) _ ltac:(left) eq_refl)
      as (a' & Ha' & _ & Hcells).
    exists a'. split; [exact Ha' |]. apply (Hcells 2%nat [[CFloat 1]]). reflexivity.
Defined.

(** X6: with a fill map none of whose keys is a dimension name (time, lat,
    lon) or a dotted name, whenever [mask_timestamps] returns, every key
    names a variable the input holds, and the dataset it returns has the
    attributes, the time index and the variable names of the input, every
    variable with its number of timesteps. *)
Theorem mask_keeps_metadata (self : Mask.t) (ds ds' : Dataset)
    (vars : list (string * cell)) :
  Forall (fun item : string * cell =>
            (item.1 ∉ ["time"; "lat"; "lon"]) /\ String.index 0 "." item.1 = None)
         vars ->
  Mask.mask_timestamps self ds vars = Ok ds' ->
  (forall name fill, (name, fill) ∈ vars -> is_Some (data_vars ds !! name)) /\
  attrs ds' = attrs ds /\
  time_index ds' = time_index ds /\
  dom (data_vars ds') = dom (data_vars ds) /\
  (forall name a', data_vars ds' !! name = Some a' ->
     exists a, data_vars ds !! name = Some a /\ length a' = length a).
Proof.
  intros _. rewrite mask_timestamps_unfold.
  destruct (np_take _ _) as [tm | |]; cbn [mbind result_bind]; [| done | done].
  intros Hrun. split; [by eapply mask_loop_held |].
  split; [by eapply mask_loop_attrs |].
  by eapply mask_loop_keeps.
Qed.

Lemma mask_keeps_metadata_witness :
  exists ds',
    Mask.mask_timestamps {| Mask.void_timestamps := [0] |} example_group
      [("quality", CUInt8 0)] = Ok ds' /\
    dom (data_vars ds') = dom (data_vars example_group).
Proof.
  destruct (Mask.mask_timestamps {| Mask.void_timestamps := [0] |} example_group
              [("quality", CUInt8 0)]) as [ds' | e |] eqn:Hrun;
    [| vm_compute in Hrun; discriminate ..].
  exists ds'. split; [reflexivity |].
  apply (mask_keeps_metadata {| Mask.void_timestamps := [0] |} example_group ds'
           [("quality", CUInt8 0)]); [| exact Hrun].
  repeat constructor; apply (bool_decide_unpack _); reflexivity.
Defined.

Lemma where_planes_idem (cond : list bool) (other : cell) (a : cube cell) :
  where_planes cond other (where_planes cond other a) = where_planes cond other a.
Proof.
  apply list_eq. intros t. unfold where_planes. rewrite !lookup_zip_with.
  destruct (cond !! t) as [c |]; [| done]. cbn.
  destruct (a !! t) as [p |]; [| done]. cbn. f_equal.
  destruct c; [done |]. unfold map_plane. rewrite map_map. apply map_ext.
  intros r. by rewrite map_map.
Qed.

Lemma dataset_eq (d1 d2 : Dataset) :
  time_index d1 = time_index d2 -> attrs d1 = attrs d2 ->
  (forall name, data_vars d1 !! name = data_vars d2 !! name) -> d1 = d2.
Proof.
  destruct d1, d2. cbn. intros -> -> Hv. f_equal. by apply map_eq.
Qed.

(** X7: masking is idempotent: with valid void positions and a fill map
    with distinct keys naming variables of the dataset, masking the masked
    dataset again returns it unchanged. *)
Theorem mask_idempotent (void : list Z) (ds : Dataset) (vars : list (string * cell)) :
  valid_positions void (length (time_index ds)) ->
  NoDup vars.*1 ->
  (forall name fill, (name, fill) ∈ vars ->
     exists a, data_vars ds !! name = Some a /\ length a = length (time_index ds)) ->
  exists ds',
    Mask.mask_timestamps {| Mask.void_timestamps := void |} ds vars = Ok ds' /\
    Mask.mask_timestamps {| Mask.void_timestamps := void |} ds' vars = Ok ds'.
Proof.
  intros Hvoid Hkeys Hex.
  rewrite mask_timestamps_unfold. cbn [Mask.void_timestamps].
  destruct (np_take_ok (time_index ds) void Hvoid) as [tm Htm]. rewrite Htm.
  cbn [mbind result_bind].
  set (cond := map negb (map (fun t => isin t tm) (time_index ds))).
  assert (Hcond : length cond = length (time_index ds))
    by (unfold cond; by rewrite !length_map).
  destruct (mask_loop_spec cond vars ds Hkeys)
    as (ds' & Hrun & Htime & Hattrs & Hmasked & Hframe).
  { intros name fill Hin. destruct (Hex name fill Hin) as (a & Ha & Hl).
    exists a. split; [done | congruence]. }
  exists ds'. split; [exact Hrun |].
  rewrite mask_timestamps_unfold. cbn [Mask.void_timestamps].
  rewrite Htime, Htm. cbn [mbind result_bind]. fold cond.
  destruct (mask_loop_spec cond vars ds' Hkeys)
    as (ds'' & Hrun' & Htime' & Hattrs' & Hmasked' & Hframe').
  { intros name fill Hin. destruct (Hex name fill Hin) as (a & Ha & Hl).
    exists (where_planes cond fill a). split; [by apply Hmasked |].
    rewrite where_planes_length; congruence. }
  rewrite Hrun'. f_equal. apply dataset_eq; [done | done |].
  intros name. destruct (decide (name ∈ vars.*1)) as [Hin | Hout].
  - apply list_elem_of_fmap in Hin as ([name' fill] & -> & Hin). cbn.
    destruct (Hex name' fill Hin) as (a & Ha & _).
    rewrite (Hmasked' name' fill _ Hin (Hmasked name' fill a Hin Ha)).
    rewrite (Hmasked name' fill a Hin Ha). by rewrite where_planes_idem.
  - by apply Hframe'.
Qed.

Lemma mask_idempotent_witness :
  exists ds',
    Mask.mask_timestamps {| Mask.void_timestamps := [1; -1] |} example_group
      [("sdu", CFloat F64.nan); ("quality", CUInt8 0)] = Ok ds' /\
    Mask.mask_timestamps {| Mask.void_timestamps := [1; -1] |} ds'
      [("sdu", CFloat F64.nan); ("quality", CUInt8 0)] = Ok ds'.
Proof.
  apply (mask_idempotent [1; -1] example_group).
  - repeat constructor; cbn; lia.
  - apply (bool_decide_unpack _). reflexivity.
  - intros name fill Hin.
    apply elem_of_cons in Hin as [Heq | Hin];
      [injection Heq as -> ->; eexists; split; reflexivity |].
    apply elem_of_cons in Hin as [Heq | Hin];
      [injection Heq as -> ->; eexists; split; reflexivity |].
    by apply elem_of_nil in Hin.
Defined.

(** ** The generators *)

Lemma grid_cell_at_inv {A} (h : nat -> float -> float -> A) (nt : nat)
    (lat lon : list float) (t i j : nat) (c : A) :
  cell_at (grid nt lat lon h) t i j = Some c ->
  (t < nt)%nat /\ exists x y, lat !! i = Some y /\ lon !! j = Some x /\ c = h t x y.
Proof.
  unfold cell_at, grid, range. rewrite list_lookup_fmap.
  destruct (seq 0 nt !! t) as [t' |] eqn:Ht; [| done].
  apply lookup_seq in Ht as [-> Ht]. cbn.
  rewrite list_lookup_fmap. destruct (lat !! i) as [y |]; [| done]. cbn.
  rewrite list_lookup_fmap. destruct (lon !! j) as [x |]; [| done]. cbn.
  intros [= <-]. split; [done |]. by exists x, y.
Qed.

Lemma abs_opp (y : float) : PrimFloat.abs (- y) = PrimFloat.abs y.
Proof.
  apply Prim2SF_inj. rewrite !FloatAxioms.abs_spec, opp_spec.
  by destruct (Prim2SF y).
Qed.

Lemma quality_code_range (y : float) :
  quality_code y = 0 \/ quality_code y = 1 \/ quality_code y = 2.
Proof.
  unfold quality_code.
  destruct (65 <? PrimFloat.abs y)%float; [by right; right |].
  destruct ((30 <? PrimFloat.abs y)%float && (PrimFloat.abs y <? 65)%float);
    [by right; left |].
  destruct (PrimFloat.abs y <? 30)%float; by left.
Qed.

(** X8: every quality flag is 0, 1 or 2, and the flags are symmetric about
    the equator: rows whose latitudes have the same magnitude (such as [y]
    and [-y], or [0.0] and [-0.0]) carry the same code at every time position
    and longitude. *)
Theorem quality_symmetric_codes (time : list Z) (lon lat : list float) (mask : Mask.t)
    (t i j : nat) (q : Z) :
  cell_at (Clouds._get_quality (Clouds.__init__ time lon lat mask)) t i j = Some q ->
  (q = 0 \/ q = 1 \/ q = 2) /\
  forall (y : float), lat !! i = Some y ->
  forall (t' i' j' : nat) (y' : float) (q' : Z),
    lat !! i' = Some y' ->
    y' = (- y)%float \/ PrimFloat.abs y' = PrimFloat.abs y ->
    cell_at (Clouds._get_quality (Clouds.__init__ time lon lat mask)) t' i' j' = Some q' ->
    q' = q.
Proof.
  rewrite get_quality_grid. intros Hq.
  apply grid_cell_at_inv in Hq as (Ht & x & y0 & Hy0 & Hx & ->).
  split; [apply quality_code_range |].
  intros y Hy t' i' j' y' q' Hy' Habs Hq'.
  assert (y0 = y) as -> by congruence.
  apply grid_cell_at_inv in Hq' as (_ & x' & y1 & Hy1 & _ & ->).
  assert (y1 = y') as -> by congruence.
  assert (Heq : PrimFloat.abs y' = PrimFloat.abs y)
    by (destruct Habs as [-> | Habs]; [apply abs_opp | exact Habs]).
  unfold quality_code. by rewrite Heq.
Qed.

Lemma quality_symmetric_codes_witness :
  cell_at (Clouds._get_quality
             (Clouds.__init__ [0] [0.5%float] [(-70.5)%float; 70.5%float; 0%float]
                {| Mask.void_timestamps := [] |})) 0 0 0 = Some 2.
Proof.
  destruct (cell_at _ 0 0 0) as [q' |] eqn:Hq'; [| vm_compute in Hq'; discriminate].
  f_equal.
  apply (proj2 (quality_symmetric_codes [0] [0.5%float]
                  [(-70.5)%float; 70.5%float; 0%float]
                  {| Mask.void_timestamps := [] |} 0 1 0 2 eq_refl)
           70.5%float eq_refl 0%nat 0%nat 0%nat (-70.5)%float q' eq_refl);
    [by left | exact Hq'].
Defined.

Section MoreGeneratorFacts.
Context `{Numerics}.

Lemma sdu_cell (time : list Z) (lon lat : list float) (mask : Mask.t) (t i j : nat) :
  (t < length time)%nat -> (i < length lat)%nat -> (j < length lon)%nat ->
  cell_at (Radiation.get_sdu (Radiation.__init__ time lon lat mask)) t i j
  = Some (Radiation.float_of_bool
            (rotate_at (Radiation.heart (length lat) (length lon))
                       (angle_of t (length time)) i j)).
Proof.
  intros Ht Hi Hj. rewrite get_sdu_planes. unfold cell_at, range.
  rewrite list_lookup_fmap, lookup_seq_lt by done. cbn.
  unfold map_plane, Radiation.rotate.
  destruct (heart_shape (length lat) (length lon)) as [Hrows Hcols].
  destruct (lookup_lt_is_Some_2 (Radiation.heart (length lat) (length lon)) i)
    as [row Hrow]; [by rewrite Hrows |].
  rewrite list_lookup_fmap, list_lookup_imap, Hrow. cbn.
  rewrite Forall_lookup in Hcols. specialize (Hcols i row Hrow).
  destruct (lookup_lt_is_Some_2 row j) as [b Hb]; [by rewrite Hcols |].
  by rewrite list_lookup_fmap, list_lookup_imap, Hb.
Qed.

(** X9: before masking, every cell of the sunshine-duration field within
    the grid is defined and is exactly 1.0 or 0.0 (the rotated boolean mask
    stored as a float): never NaN and never a fractional value. *)
Theorem sdu_cells_binary (time : list Z) (lon lat : list float) (mask : Mask.t)
    (t i j : nat) :
  (t < length time)%nat -> (i < length lat)%nat -> (j < length lon)%nat ->
  exists v,
    cell_at (Radiation.get_sdu (Radiation.__init__ time lon lat mask)) t i j = Some v /\
    (v = 1%float \/ v = 0%float) /\ F64.is_nan v = false.
Proof.
  intros Ht Hi Hj. rewrite (sdu_cell time lon lat mask t i j Ht Hi Hj).
  eexists. split; [reflexivity |].
  destruct (rotate_at _ _ i j); cbn; split; auto.
Qed.

(** X11: [_get_nobs] returns an array of the grid shape exactly when both
    the time axis and the longitude axis are non-empty; if either is empty
    it raises ValueError ([min] of an empty array, [max] of an empty
    list). *)
Theorem get_nobs_ok_iff_nonempty (time : list Z) (lon lat : list float)
    (mask : Mask.t) :
  (time <> [] /\ lon <> [] ->
   exists a,
     Clouds._get_nobs (Clouds.__init__ time lon lat mask) = Ok a /\
     has_shape a (length time) (length lat) (length lon)) /\
  (time = [] \/ lon = [] ->
   Clouds._get_nobs (Clouds.__init__ time lon lat mask) = Raise ValueError).
Proof.
  split.
  - intros [Ht Hl]. destruct time as [| t0 time']; [done |].
    destruct lon as [| x0 lon']; [done |].
    destruct (get_nobs_grid (t0 :: time') (x0 :: lon') lat mask x0 lon' t0 time'
                eq_refl eq_refl) as (lon_min & lon_max & _ & _ & ->).
    eexists. split; [reflexivity |]. apply grid_shape.
  - intros [-> | ->]; [apply get_nobs_no_time |].
    reflexivity.
Qed.

End MoreGeneratorFacts.

Lemma sdu_cells_binary_witness :
  exists v,
    cell_at (@Radiation.get_sdu example_numerics
               (Radiation.__init__ [0; 86400000] [0%float; 1%float] [0%float]
                  {| Mask.void_timestamps := [] |})) 1 0 1 = Some v /\
    (v = 1%float \/ v = 0%float) /\ F64.is_nan v = false.
Proof.
  apply (@sdu_cells_binary example_numerics); cbn; lia.
Defined.

Lemma get_nobs_ok_iff_nonempty_witness :
  @Clouds._get_nobs example_numerics
    (Clouds.__init__ [0] [] [0%float] {| Mask.void_timestamps := [] |})
  = Raise ValueError.
Proof.
  apply (proj2 (@get_nobs_ok_iff_nonempty example_numerics [0] [] [0%float]
                  {| Mask.void_timestamps := [] |})).
  by right.
Defined.

(** ** The constructed maker and the tree *)

Lemma range_index_NoDup (n : nat) : NoDup (map Z.of_nat (range n)).
Proof.
  apply NoDup_alt. intros i j x Hi Hj. unfold range in *.
  rewrite list_lookup_fmap in Hi, Hj.
  destruct (seq 0 n !! i) as [i' |] eqn:Ei; [| done].
  destruct (seq 0 n !! j) as [j' |] eqn:Ej; [| done].
  apply lookup_seq in Ei as [-> _], Ej as [-> _].
  cbn in Hi, Hj. injection Hi as Hi. injection Hj as Hj. lia.
Qed.

(** Building a group from fields with [nt] timesteps and masking some of
    them: each field comes out masked at the selected positions when it is
    named in the fill map, and as it was otherwise. *)
Lemma masked_dataset_content (n0 : string) (a0 : cube cell)
    (rest : list (string * cube cell)) (attrs0 : list (string * string))
    (void : list Z) (vars : list (string * cell)) (nt : nat) :
  NoDup ((n0, a0) :: rest).*1 ->
  (forall name a, (name, a) ∈ (n0, a0) :: rest -> length a = nt) ->
  valid_positions void nt ->
  NoDup vars.*1 ->
  (forall name fill, (name, fill) ∈ vars -> name ∈ ((n0, a0) :: rest).*1) ->
  exists ds0 ds,
    xr_Dataset ((n0, a0) :: rest) attrs0 = Ok ds0 /\
    Mask.mask_timestamps {| Mask.void_timestamps := void |} ds0 vars = Ok ds /\
    forall name a, (name, a) ∈ (n0, a0) :: rest ->
      (forall fill, (name, fill) ∈ vars ->
         data_vars ds !! name = Some (mask_cube void fill a)) /\
      (name ∉ vars.*1 -> data_vars ds !! name = Some a).
Proof.
  intros Hnd0 Hlen Hvoid Hnd Hnames.
  set (vars0 := (n0, a0) :: rest) in *.
  assert (Hn0 : length a0 = nt) by (apply (Hlen n0 a0); by left).
  set (ds0 := {| time_index := map Z.of_nat (range nt);
                 data_vars := list_to_map vars0; attrs := attrs0 |}).
  assert (Hds0 : xr_Dataset vars0 attrs0 = Ok ds0).
  { unfold xr_Dataset. change (time_size vars0) with (length a0). rewrite Hn0.
    replace (forallb _ vars0) with true; [done |].
    symmetry. apply forallb_forall. intros [name a] Hin.
    apply Nat.eqb_eq. cbn. apply (Hlen name a). by apply list_elem_of_In. }
  assert (Htime : length (time_index ds0) = nt)
    by (cbn; unfold range; by rewrite length_map, length_seq).
  assert (Hlook : forall name a, (name, a) ∈ vars0 -> data_vars ds0 !! name = Some a).
  { intros name a Hin. unfold ds0. cbn [data_vars].
    by apply (elem_of_list_to_map_1 (M := gmap string)). }
  destruct (mask_timestamps_content void ds0 vars) as (ds & Hrun & Hmasked & Hframe).
  - apply range_index_NoDup.
  - by rewrite Htime.
  - exact Hnd.
  - intros name fill Hin.
    apply Hnames, list_elem_of_fmap in Hin as ([name' a] & -> & Hin). cbn.
    exists a. split; [by apply Hlook |].
    transitivity nt; [by apply (Hlen name') | symmetry; exact Htime].
  - exists ds0, ds. split; [exact Hds0 |]. split; [exact Hrun |].
    intros name a Hin. split.
    + intros fill Hf. by apply Hmasked, Hlook.
    + intros Hout. rewrite Hframe by done. by apply Hlook.
Qed.

Lemma xr_Dataset_ok (n0 : string) (a0 : cube cell) (rest : list (string * cube cell))
    (attrs0 : list (string * string)) (nt : nat) :
  (forall name a, (name, a) ∈ (n0, a0) :: rest -> length a = nt) ->
  xr_Dataset ((n0, a0) :: rest) attrs0
  = Ok {| time_index := map Z.of_nat (range nt);
          data_vars := list_to_map ((n0, a0) :: rest);
          attrs := attrs0 |}.
Proof.
  intros Hlen. assert (Hn0 : length a0 = nt) by (apply (Hlen n0 a0); by left).
  unfold xr_Dataset. change (time_size ((n0, a0) :: rest)) with (length a0).
  rewrite Hn0. replace (forallb _ _) with true; [done |].
  symmetry. apply forallb_forall. intros [name a] Hin.
  apply Nat.eqb_eq. cbn. apply (Hlen name a). by apply list_elem_of_In.
Qed.

Lemma masked_grid_cell (void : list Z) (fill : cell) {A} (g : A -> cell)
    (h : nat -> float -> float -> A) (nt : nat) (lat lon : list float)
    (t i j : nat) (x y : float) :
  (t < nt)%nat -> lat !! i = Some y -> lon !! j = Some x ->
  cell_at (mask_cube void fill (map_cube g (grid nt lat lon h))) t i j
  = Some (if masked_position void nt t then fill else g (h t x y)).
Proof.
  intros Ht Hy Hx.
  pose proof (grid_cell_at (fun t x y => g (h t x y)) nt lat lon t i j x y Ht Hy Hx)
    as Hcell.
  rewrite map_cube_grid. unfold cell_at, mask_cube in *.
  rewrite list_lookup_imap.
  destruct (grid nt lat lon _ !! t) as [p |] eqn:Hp; [| done]. cbn.
  destruct (grid_shape (fun t x y => g (h t x y)) nt lat lon) as [-> _].
  destruct (masked_position void nt t); [| exact Hcell].
  unfold map_plane. rewrite list_lookup_fmap.
  destruct (p !! i) as [r |]; [| done]. cbn. rewrite list_lookup_fmap.
  by destruct (r !! j).
Qed.

Lemma masked_cube_cell (void : list Z) (fill : cell) (a : cube cell)
    (t i j : nat) (c : cell) :
  cell_at a t i j = Some c ->
  cell_at (mask_cube void fill a) t i j
  = Some (if masked_position void (length a) t then fill else c).
Proof.
  unfold cell_at, mask_cube. rewrite list_lookup_imap.
  destruct (a !! t) as [p |]; [| done]. cbn.
  destruct (masked_position void (length a) t); [| done].
  unfold map_plane. rewrite list_lookup_fmap.
  destruct (p !! i) as [r |]; [| done]. cbn. rewrite list_lookup_fmap.
  destruct (r !! j); [| done]. done.
Qed.

Lemma masked_position_nonneg (void : list Z) (n t : nat) :
  Forall (fun v => 0 <= v) void -> (t < n)%nat ->
  masked_position void n t = bool_decide (Z.of_nat t ∈ void).
Proof.
  intros Hnn Ht. unfold masked_position. apply bool_decide_ext.
  split; [| by left]. intros [Hin | Hin]; [done |].
  rewrite Forall_forall in Hnn. specialize (Hnn _ Hin). lia.
Qed.

Lemma record_status_lookup (time tvoid : list Z) (t : nat) :
  (t < length time)%nat ->
  RecordStatus.get_record_status
    {| RecordStatus.time := time; RecordStatus.tvoid := tvoid |} !! t
  = Some (if bool_decide (Z.of_nat t ∈ tvoid) then 1 else 0).
Proof.
  intros Ht. unfold RecordStatus.get_record_status, range.
  cbn [RecordStatus.time RecordStatus.tvoid].
  rewrite list_lookup_fmap, lookup_seq_lt by done. cbn.
  by destruct (bool_decide _).
Qed.

Section TreeFacts.
Context `{Numerics}.

Definition nobs_cell (lon_min lon_max : float) (tmax t : nat) (x y : float) : Z :=
  cast_uint8 (Clouds.nobs_value lon_min lon_max t tmax x y).

Definition sdu_value (nt nlat nlon t i j : nat) : float :=
  Radiation.float_of_bool
    (rotate_at (Radiation.heart nlat nlon) (angle_of t nt) i j).

Lemma clouds_dataset_content (time : list Z) (lon lat : list float) (void : list Z) :
  time <> [] -> lon <> [] -> valid_positions void (length time) ->
  exists ds lon_min lon_max,
    np_min lon = Ok lon_min /\ np_max lon = Ok lon_max /\
    Clouds.get_dataset
      (Clouds.__init__ time lon lat {| Mask.void_timestamps := void |}) = Ok ds /\
    data_vars ds !! "cfc_dm"
    = Some (mask_cube void (CFloat F64.nan)
              (map_cube CFloat (grid (length time) lat lon cfc_cell))) /\
    data_vars ds !! "nobs"
    = Some (mask_cube void (CUInt8 0)
              (map_cube CUInt8
                 (grid (length time) lat lon
                    (nobs_cell lon_min lon_max (pred (length time)))))) /\
    data_vars ds !! "quality"
    = Some (map_cube CUInt8 (grid (length time) lat lon (fun _ _ y => quality_code y))).
Proof.
  intros Ht Hl Hvoid.
  destruct time as [| t0 time']; [done |]. destruct lon as [| x0 lon']; [done |].
  set (time := t0 :: time') in *. set (lon := x0 :: lon') in *.
  set (mask := {| Mask.void_timestamps := void |}).
  destruct (get_nobs_grid time lon lat mask x0 lon' t0 time' eq_refl eq_refl)
    as (lon_min & lon_max & Hmin & Hmax & Hnobs).
  unfold Clouds.get_dataset. rewrite Hnobs. cbn [mbind result_bind].
  rewrite get_cfc_grid, get_quality_grid.
  pose proof (fun (A : Type) (g : A -> cell) h =>
                proj1 (map_cube_shape g _ _ _ _ (grid_shape h (length time) lat lon)))
    as Hgrid.
  match goal with
  | |- context [xr_Dataset ((?n0, ?a0) :: ?rest) ?at0] =>
      destruct (masked_dataset_content n0 a0 rest at0 void
                  [("cfc_dm", CFloat F64.nan); ("nobs", CUInt8 0)] (length time))
        as (ds0 & ds & Hds0 & Hrun & Hcontent)
  end.
  - apply (bool_decide_unpack _). reflexivity.
  - intros name a Hin.
    apply elem_of_cons in Hin as [Heq | Hin];
      [injection Heq as _ ->; exact (Hgrid _ _ _) |].
    apply elem_of_cons in Hin as [Heq | Hin];
      [injection Heq as _ ->; exact (Hgrid _ _ _) |].
    apply elem_of_cons in Hin as [Heq | Hin];
      [injection Heq as _ ->; exact (Hgrid _ _ _) |].
    by apply elem_of_nil in Hin.
  - exact Hvoid.
  - apply (bool_decide_unpack _). reflexivity.
  - intros name fill Hin.
    repeat (apply elem_of_cons in Hin as [[= -> ->] | Hin]);
      [| | by apply elem_of_nil in Hin];
      apply (bool_decide_unpack _); reflexivity.
  - exists ds, lon_min, lon_max. rewrite Hds0. cbn [mbind result_bind].
    change (Clouds.mask (Clouds.__init__ time lon lat mask)) with mask.
    split; [exact Hmin |]. split; [exact Hmax |]. split; [exact Hrun |].
    split; [| split].
    + apply (Hcontent "cfc_dm" _ ltac:(left)). left.
    + apply (Hcontent "nobs" _ ltac:(right; left)). right. left.
    + apply (Hcontent "quality" _ ltac:(right; right; left)).
      apply (bool_decide_unpack _). reflexivity.
Qed.

Lemma radiation_dataset_content (time : list Z) (lon lat : list float)
    (void : list Z) :
  valid_positions void (length time) ->
  exists ds,
    Radiation.get_dataset
      (Radiation.__init__ time lon lat {| Mask.void_timestamps := void |}) = Ok ds /\
    data_vars ds !! "sdu"
    = Some (mask_cube void (CFloat F64.nan)
              (map_cube CFloat
                 (Radiation.get_sdu
                    (Radiation.__init__ time lon lat
                       {| Mask.void_timestamps := void |})))).
Proof.
  intros Hvoid.
  set (mask := {| Mask.void_timestamps := void |}).
  unfold Radiation.get_dataset.
  match goal with
  | |- context [xr_Dataset ((?n0, ?a0) :: ?rest) ?at0] =>
      destruct (masked_dataset_content n0 a0 rest at0 void
                  [("sdu", CFloat F64.nan)] (length time))
        as (ds0 & ds & Hds0 & Hrun & Hcontent)
  end.
  - apply (bool_decide_unpack _). reflexivity.
  - intros name a Hin.
    apply elem_of_cons in Hin as [Heq | Hin]; [| by apply elem_of_nil in Hin].
    injection Heq as _ ->.
    apply (proj1 (map_cube_shape CFloat _ _ _ _ (get_sdu_shape time lon lat mask))).
  - exact Hvoid.
  - apply (bool_decide_unpack _). reflexivity.
  - intros name fill Hin.
    apply elem_of_cons in Hin as [[= -> ->] | Hin]; [| by apply elem_of_nil in Hin].
    apply (bool_decide_unpack _); reflexivity.
  - exists ds. rewrite Hds0. cbn [mbind result_bind].
    change (Radiation.mask (Radiation.__init__ time lon lat mask)) with mask.
    split; [exact Hrun |].
    apply (Hcontent "sdu" _ ltac:(left)). left.
Qed.

End TreeFacts.

(** X10: a maker that [__init__] returns is consistent.  The whole second
    of [tstart] is not after [tend]; the time axis starts there and advances
    by one day per position without passing [tend]; the longitude and
    latitude axes are the ones built from the parameters and are non-empty;
    the bounds hold one pair per coordinate (the day starting at each
    timestamp; each lon/lat value minus and plus half the resolution); both
    groups and the record status share the axes and the void positions. *)
Theorem constructed_maker_consistent (tstart tend : Z)
    (lon_min lon_max lat_min lat_max grid_resol : float) (void : list Z)
    (maker : DataTreeMaker.t) :
  DataTreeMaker.__init__ tstart tend lon_min lon_max lat_min lat_max grid_resol void
  = Ok maker ->
  tstart - tstart mod 1000 <= tend /\
  DataTreeMaker.time maker !! 0%nat = Some (tstart - tstart mod 1000) /\
  (forall (k : nat) (t : Z), DataTreeMaker.time maker !! k = Some t ->
     t = tstart - tstart mod 1000 + Z.of_nat k * 86400000 /\ t <= tend) /\
  DataTreeMaker.get_lon lon_min lon_max grid_resol = Ok (DataTreeMaker.lon maker) /\
  DataTreeMaker.get_lat lat_min lat_max grid_resol = Ok (DataTreeMaker.lat maker) /\
  DataTreeMaker.lon maker <> [] /\
  DataTreeMaker.lat maker <> [] /\
  DataTreeMaker.time_bounds maker
  = map (fun t => (t, t + 86400000)) (DataTreeMaker.time maker) /\
  DataTreeMaker.lon_bounds maker
  = map (fun c => ((c - 0.5 * grid_resol)%float, (c + 0.5 * grid_resol)%float))
        (DataTreeMaker.lon maker) /\
  DataTreeMaker.lat_bounds maker
  = map (fun c => ((c - 0.5 * grid_resol)%float, (c + 0.5 * grid_resol)%float))
        (DataTreeMaker.lat maker) /\
  DataTreeMaker.clouds maker
  = Clouds.__init__ (DataTreeMaker.time maker) (DataTreeMaker.lon maker)
      (DataTreeMaker.lat maker) {| Mask.void_timestamps := void |} /\
  DataTreeMaker.radiation maker
  = Radiation.__init__ (DataTreeMaker.time maker) (DataTreeMaker.lon maker)
      (DataTreeMaker.lat maker) {| Mask.void_timestamps := void |} /\
  DataTreeMaker.rec_status maker
  = {| RecordStatus.time := DataTreeMaker.time maker;
       RecordStatus.tvoid := void |}.
Proof.
  unfold DataTreeMaker.__init__.
  destruct (DataTreeMaker.get_lon _ _ _) as [lon | |]; [| done | done].
  destruct (DataTreeMaker.get_lat _ _ _) as [lat | |]; [| done | done].
  cbn [mbind result_bind].
  unfold DataTreeMaker.get_time_bounds, DataTreeMaker.get_lon_bounds,
    DataTreeMaker.get_lat_bounds, DataTreeMaker._get_bounds.
  cbn [String.eqb Ascii.eqb Bool.eqb mbind result_bind].
  destruct (DataTreeMaker.bounds_array (map _ (DataTreeMaker.get_time tstart tend)))
    as [tb | |] eqn:Htb; [| done | done].
  destruct (DataTreeMaker.bounds_array (map _ lon)) as [lob | |] eqn:Hlob; [| done | done].
  destruct (DataTreeMaker.bounds_array (map _ lat)) as [lab | |] eqn:Hlab; [| done | done].
  cbn [mbind result_bind]. intros [= <-].
  apply bounds_array_ok in Htb as [-> Htb], Hlob as [-> Hlob], Hlab as [-> Hlab].
  cbn [DataTreeMaker.time DataTreeMaker.lon DataTreeMaker.lat
       DataTreeMaker.time_bounds DataTreeMaker.lon_bounds DataTreeMaker.lat_bounds
       DataTreeMaker.clouds DataTreeMaker.radiation DataTreeMaker.rec_status].
  assert (Hne : DataTreeMaker.get_time tstart tend <> [])
    by (intros E; by rewrite E in Htb).
  assert (Hle : DataTreeMaker.whole_second tstart <= tend).
  { destruct (Z.le_gt_cases (DataTreeMaker.whole_second tstart) tend) as [Hle | Hgt];
      [done |].
    by rewrite get_time_empty in Hne by (unfold DataTreeMaker.whole_second in Hgt; lia). }
  change (tstart - tstart mod 1000) with (DataTreeMaker.whole_second tstart).
  change 86400000 with DataTreeMaker.day_ms.
  pose proof (day_quotient _ tend Hle) as (Hq & Hlo & Hhi).
  repeat split; try done.
  - apply get_time_lookup; [done |]. split; lia.
  - by apply get_time_lookup in H as [-> _].
  - apply get_time_lookup in H as [-> Hk]; [| done].
    assert (0 < DataTreeMaker.day_ms) by done. nia.
  - intros E. by rewrite E in Hlob.
  - intros E. by rewrite E in Hlab.
Qed.

Lemma constructed_maker_consistent_witness :
  exists maker,
    DataTreeMaker.__init__ 500 86400000 (-0.5) 0.5 (-1) 1 1 [1] = Ok maker /\
    DataTreeMaker.time maker !! 0%nat = Some 0 /\
    DataTreeMaker.time_bounds maker
    = map (fun t => (t, t + 86400000)) (DataTreeMaker.time maker).
Proof.
  destruct (DataTreeMaker.__init__ 500 86400000 (-0.5) 0.5 (-1) 1 1 [1])
    as [maker | e |] eqn:E; [| vm_compute in E; discriminate ..].
  exists maker. split; [reflexivity |].
  destruct (constructed_maker_consistent _ _ _ _ _ _ _ _ _ E)
    as (_ & H0 & _ & _ & _ & _ & _ & Hb & _).
  split; [exact H0 | exact Hb].
Defined.

Section TreeTheorems.
Context `{Numerics}.

(** X12: the tree, cell by cell.  For a constructed maker with void
    positions in [-n, n) the tree is built, and at every grid cell: cfc_dm
    is NaN, nobs is 0 and sdu is NaN when the timestep is selected by a void
    position (as [t] or as the negative index [t - n]), and otherwise they
    are the generated cloud fraction (gap band applied, rounded), the
    generated observation count and the rotated heart value; quality is
    never masked. *)
Theorem tree_cells (tstart tend : Z)
    (lon_min lon_max lat_min lat_max grid_resol : float) (void : list Z)
    (maker : DataTreeMaker.t) :
  DataTreeMaker.__init__ tstart tend lon_min lon_max lat_min lat_max grid_resol void
  = Ok maker ->
  valid_positions void (length (DataTreeMaker.time maker)) ->
  exists tree cfc nobs quality sdu lo hi,
    DataTreeMaker.get_data_tree maker = Ok tree /\
    data_vars (DataTreeMaker.tree_clouds tree) !! "cfc_dm" = Some cfc /\
    data_vars (DataTreeMaker.tree_clouds tree) !! "nobs" = Some nobs /\
    data_vars (DataTreeMaker.tree_clouds tree) !! "quality" = Some quality /\
    data_vars (DataTreeMaker.tree_radiation tree) !! "sdu" = Some sdu /\
    np_min (DataTreeMaker.lon maker) = Ok lo /\
    np_max (DataTreeMaker.lon maker) = Ok hi /\
    forall (t i j : nat) (x y : float),
      (t < length (DataTreeMaker.time maker))%nat ->
      DataTreeMaker.lat maker !! i = Some y ->
      DataTreeMaker.lon maker !! j = Some x ->
      cell_at cfc t i j
      = Some (if masked_position void (length (DataTreeMaker.time maker)) t
              then CFloat F64.nan else CFloat (cfc_cell t x y)) /\
      cell_at nobs t i j
      = Some (if masked_position void (length (DataTreeMaker.time maker)) t
              then CUInt8 0
              else CUInt8 (nobs_cell lo hi
                             (pred (length (DataTreeMaker.time maker))) t x y)) /\
      cell_at quality t i j = Some (CUInt8 (quality_code y)) /\
      cell_at sdu t i j
      = Some (if masked_position void (length (DataTreeMaker.time maker)) t
              then CFloat F64.nan
              else CFloat (sdu_value (length (DataTreeMaker.time maker))
                             (length (DataTreeMaker.lat maker))
                             (length (DataTreeMaker.lon maker)) t i j)).
Proof.
  intros Hinit Hvoid.
  apply init_inv in Hinit
    as (time & lon & lat & Ht & Hlo & Hla & _ & _ & _ & Etime & Elon & Elat & Ecl & Erad & _).
  rewrite Etime, ?Elon, ?Elat in *.
  destruct (clouds_dataset_content time lon lat void Ht Hlo Hvoid)
    as (c & lo & hi & Hmin & Hmax & Hc & Hcfc & Hnobs & Hqual).
  destruct (radiation_dataset_content time lon lat void Hvoid) as (r & Hr & Hsdu).
  unfold DataTreeMaker.get_data_tree. rewrite Ecl, Erad, Hc, Hr.
  cbn [mbind result_bind]. eexists _, _, _, _, _, lo, hi.
  split; [reflexivity |].
  cbn [DataTreeMaker.tree_clouds DataTreeMaker.tree_radiation].
  split; [exact Hcfc |]. split; [exact Hnobs |]. split; [exact Hqual |].
  split; [exact Hsdu |]. split; [exact Hmin |]. split; [exact Hmax |].
  intros t i j x y Hlt Hy Hx.
  split; [by apply masked_grid_cell |]. split; [by apply masked_grid_cell |].
  split.
  - rewrite map_cube_grid.
    exact (grid_cell_at (fun _ _ y => CUInt8 (quality_code y)) _ _ _ t i j x y Hlt Hy Hx).
  - pose proof (lookup_lt_Some _ _ _ Hy) as Hi.
    pose proof (lookup_lt_Some _ _ _ Hx) as Hj.
    pose proof (sdu_cell time lon lat {| Mask.void_timestamps := void |} t i j Hlt Hi Hj)
      as Hcell.
    assert (Hc' : cell_at (map_cube CFloat
                    (Radiation.get_sdu
                       (Radiation.__init__ time lon lat
                          {| Mask.void_timestamps := void |}))) t i j
                  = Some (CFloat (sdu_value (length time) (length lat) (length lon) t i j))).
    { unfold cell_at, map_cube, map_plane in *. rewrite list_lookup_fmap.
      destruct (_ !! t) as [p |]; [| done]. cbn. rewrite list_lookup_fmap.
      destruct (p !! i) as [row |]; [| done]. cbn. rewrite list_lookup_fmap.
      by rewrite Hcell. }
    rewrite (masked_cube_cell void _ _ t i j _ Hc').
    destruct (map_cube_shape CFloat _ _ _ _
                (get_sdu_shape time lon lat {| Mask.void_timestamps := void |}))
      as [-> _].
    reflexivity.
Qed.

(** X13: record status and masking agree when no void position is
    negative: for a constructed maker with void positions in [0, n), at
    every grid cell the record status of a timestep is 1 exactly when the
    sunshine duration there is NaN (masked), and 0 exactly when it is the
    generated 0.0 / 1.0 value. *)
Theorem record_status_flags_masked (tstart tend : Z)
    (lon_min lon_max lat_min lat_max grid_resol : float) (void : list Z)
    (maker : DataTreeMaker.t) :
  DataTreeMaker.__init__ tstart tend lon_min lon_max lat_min lat_max grid_resol void
  = Ok maker ->
  Forall (fun v => 0 <= v < Z.of_nat (length (DataTreeMaker.time maker))) void ->
  exists tree sdu,
    DataTreeMaker.get_data_tree maker = Ok tree /\
    data_vars (DataTreeMaker.tree_radiation tree) !! "sdu" = Some sdu /\
    forall (t i j : nat),
      (t < length (DataTreeMaker.time maker))%nat ->
      (i < length (DataTreeMaker.lat maker))%nat ->
      (j < length (DataTreeMaker.lon maker))%nat ->
      exists (status : Z) (v : float),
        DataTreeMaker.root_record_status (DataTreeMaker.tree_root tree) !! t
        = Some status /\
        cell_at sdu t i j = Some (CFloat v) /\
        (status = 1 \/ status = 0) /\
        (status = 1 <-> F64.is_nan v = true) /\
        (status = 0 <-> v = 1%float \/ v = 0%float).
Proof.
  intros Hinit Hvoid.
  apply init_inv in Hinit
    as (time & lon & lat & Ht & Hlo & Hla & _ & _ & _ & Etime & Elon & Elat & Ecl & Erad & Ers).
  rewrite Etime, ?Elon, ?Elat in *.
  assert (Hvalid : valid_positions void (length time)).
  { eapply Forall_impl; [exact Hvoid |]. cbn. intros; lia. }
  assert (Hnn : Forall (fun v => 0 <= v) void).
  { eapply Forall_impl; [exact Hvoid |]. cbn. intros; lia. }
  destruct (clouds_dataset_content time lon lat void Ht Hlo Hvalid)
    as (c & lo & hi & _ & _ & Hc & _).
  destruct (radiation_dataset_content time lon lat void Hvalid) as (r & Hr & Hsdu).
  unfold DataTreeMaker.get_data_tree. rewrite Ecl, Erad, Hc, Hr.
  cbn [mbind result_bind]. eexists _, _. split; [reflexivity |].
  cbn [DataTreeMaker.tree_radiation DataTreeMaker.tree_root DataTreeMaker.get_root
       DataTreeMaker.root_record_status].
  split; [exact Hsdu |]. intros t i j Hlt Hi Hj.
  rewrite Ers, (record_status_lookup time void t Hlt).
  pose proof (sdu_cell time lon lat {| Mask.void_timestamps := void |} t i j Hlt Hi Hj)
    as Hcell.
  assert (Hc' : cell_at (map_cube CFloat
                  (Radiation.get_sdu
                     (Radiation.__init__ time lon lat
                        {| Mask.void_timestamps := void |}))) t i j
                = Some (CFloat (sdu_value (length time) (length lat) (length lon) t i j))).
  { unfold cell_at, map_cube, map_plane in *. rewrite list_lookup_fmap.
    destruct (_ !! t) as [p |]; [| done]. cbn. rewrite list_lookup_fmap.
    destruct (p !! i) as [row |]; [| done]. cbn. rewrite list_lookup_fmap.
    by rewrite Hcell. }
  rewrite (masked_cube_cell void _ _ t i j _ Hc').
  destruct (map_cube_shape CFloat _ _ _ _
              (get_sdu_shape time lon lat {| Mask.void_timestamps := void |}))
    as [-> _].
  rewrite (masked_position_nonneg void (length time) t Hnn Hlt).
  destruct (bool_decide (Z.of_nat t ∈ void)).
  - exists 1, F64.nan. split; [done |]. split; [done |].
    split; [by left |]. split; [done |].
    split; [done |]. intros [E | E]; vm_compute in E; discriminate.
  - eexists 0, _. split; [done |]. split; [reflexivity |].
    split; [by right |]. unfold sdu_value.
    destruct (rotate_at _ _ i j); cbn; split; split; auto; done.
Qed.

(** X14: for a constructed maker, a void position outside [-n, n) makes
    [get_data_tree] raise IndexError (in the masking of the clouds
    group). *)
Theorem tree_index_error (tstart tend : Z)
    (lon_min lon_max lat_min lat_max grid_resol : float) (void : list Z)
    (maker : DataTreeMaker.t) :
  DataTreeMaker.__init__ tstart tend lon_min lon_max lat_min lat_max grid_resol void
  = Ok maker ->
  Exists (fun v => ~ (- Z.of_nat (length (DataTreeMaker.time maker)) <= v
                      < Z.of_nat (length (DataTreeMaker.time maker)))) void ->
  DataTreeMaker.get_data_tree maker = Raise IndexError.
Proof.
  intros Hinit Hbad.
  apply init_inv in Hinit
    as (time & lon & lat & Ht & Hlo & Hla & _ & _ & _ & Etime & Elon & Elat & Ecl & Erad & _).
  rewrite Etime in Hbad.
  destruct time as [| t0 time']; [done |]. destruct lon as [| x0 lon']; [done |].
  set (time := t0 :: time') in *. set (lon := x0 :: lon') in *.
  destruct (get_nobs_grid time lon lat {| Mask.void_timestamps := void |}
              x0 lon' t0 time' eq_refl eq_refl)
    as (lo & hi & _ & _ & Hnobs).
  unfold DataTreeMaker.get_data_tree, Clouds.get_dataset.
  rewrite Ecl, Hnobs. cbn [mbind result_bind].
  rewrite get_cfc_grid, get_quality_grid.
  rewrite (xr_Dataset_ok _ _ _ _ (length time)).
  - cbn [mbind result_bind]. rewrite mask_timestamps_unfold.
    cbn [Clouds.mask Clouds.__init__ Mask.void_timestamps time_index].
    rewrite np_take_invalid; [done |].
    unfold range. by rewrite length_map, length_seq.
  - pose proof (fun (A : Type) (g : A -> cell) h =>
                  proj1 (map_cube_shape g _ _ _ _ (grid_shape h (length time) lat lon)))
      as Hgrid.
    intros name a Hin.
    apply elem_of_cons in Hin as [Heq | Hin];
      [injection Heq as _ ->; exact (Hgrid _ _ _) |].
    apply elem_of_cons in Hin as [Heq | Hin];
      [injection Heq as _ ->; exact (Hgrid _ _ _) |].
    apply elem_of_cons in Hin as [Heq | Hin];
      [injection Heq as _ ->; exact (Hgrid _ _ _) |].
    by apply elem_of_nil in Hin.
Qed.

End TreeTheorems.

Lemma tree_cells_witness :
  exists maker tree sdu,
    DataTreeMaker.__init__ 0 86400000 (-0.5) 0.5 (-1) 1 1 [-1] = Ok maker /\
    @DataTreeMaker.get_data_tree example_numerics maker = Ok tree /\
    data_vars (DataTreeMaker.tree_radiation tree) !! "sdu" = Some sdu /\
    cell_at sdu 1 0 0 = Some (CFloat F64.nan).
Proof.
  destruct (DataTreeMaker.__init__ 0 86400000 (-0.5) 0.5 (-1) 1 1 [-1])
    as [maker | e |] eqn:E; [| vm_compute in E; discriminate ..].
  pose proof E as E'. vm_compute in E'. injection E' as <-.
  destruct (@tree_cells example_numerics _ _ _ _ _ _ _ _ _ E)
    as (tree & cfc & nobs & quality & sdu & lo & hi & Htree & _ & _ & _ & Hsdu & _ & _ & Hcells).
  - repeat constructor; cbn; lia.
  - eexists _, tree, sdu. split; [reflexivity |]. split; [exact Htree |].
    split; [exact Hsdu |].
    destruct (Hcells 1%nat 0%nat 0%nat (-0.5)%float (-1)%float)
      as (_ & _ & _ & Hs); [cbn; lia | reflexivity | reflexivity |].
    rewrite Hs. reflexivity.
Defined.

Lemma record_status_flags_masked_witness :
  exists maker tree sdu status v,
    DataTreeMaker.__init__ 0 86400000 (-0.5) 0.5 (-1) 1 1 [1] = Ok maker /\
    @DataTreeMaker.get_data_tree example_numerics maker = Ok tree /\
    DataTreeMaker.root_record_status (DataTreeMaker.tree_root tree) !! 1%nat
    = Some status /\
    cell_at sdu 1 0 0 = Some (CFloat v) /\
    (status = 1 <-> F64.is_nan v = true).
Proof.
  destruct (DataTreeMaker.__init__ 0 86400000 (-0.5) 0.5 (-1) 1 1 [1])
    as [maker | e |] eqn:E; [| vm_compute in E; discriminate ..].
  pose proof E as E'. vm_compute in E'. injection E' as <-.
  destruct (@record_status_flags_masked example_numerics _ _ _ _ _ _ _ _ _ E)
    as (tree & sdu & Htree & _ & Hcells).
  - repeat constructor; cbn; lia.
  - destruct (Hcells 1%nat 0%nat 0%nat) as (status & v & Hst & Hv & _ & Hiff & _);
      [cbn; lia | cbn; lia | cbn; lia |].
    eexists _, tree, sdu, status, v. split; [reflexivity |].
    split; [exact Htree |]. split; [exact Hst |]. split; [exact Hv | exact Hiff].
Defined.

Lemma tree_index_error_witness :
  exists maker,
    DataTreeMaker.__init__ 0 86400000 (-0.5) 0.5 (-1) 1 1 [4; 20] = Ok maker /\
    @DataTreeMaker.get_data_tree example_numerics maker = Raise IndexError.
Proof.
  destruct (DataTreeMaker.__init__ 0 86400000 (-0.5) 0.5 (-1) 1 1 [4; 20])
    as [maker | e |] eqn:E; [| vm_compute in E; discriminate ..].
  pose proof E as E'. vm_compute in E'. injection E' as <-.
  eexists. split; [reflexivity |].
  apply (@tree_index_error example_numerics _ _ _ _ _ _ _ _ _ E).
  apply Exists_cons. left. cbn. lia.
Defined.

(** ** The writer's encoding table against the tree *)

Lemma encoding_clouds_names (name : string) :
  is_Some (DatasetWriter.encoding_dtype "/clouds" name)
  <-> name ∈ ["cfc_dm"; "nobs"; "quality"].
Proof.
  unfold DatasetWriter.encoding_dtype.
  cbn -[String.eqb]. cbn [String.eqb Ascii.eqb Bool.eqb].
  rewrite !elem_of_cons, elem_of_nil.
  destruct (String.eqb_spec "cfc_dm" name) as [<- | H1];
    [cbn; split; [intros _; by left | intros _; by eexists] |].
  destruct (String.eqb_spec "nobs" name) as [<- | H2];
    [cbn; split; [intros _; right; by left | intros _; by eexists] |].
  destruct (String.eqb_spec "quality" name) as [<- | H3];
    [cbn; split; [intros _; right; right; by left | intros _; by eexists] |].
  apply String.eqb_neq in H1, H2, H3.
  cbn [DatasetWriter.dict_get]. rewrite H1, H2, H3.
  apply String.eqb_neq in H1, H2, H3.
  split; [by intros [? ?] |].
  intros [? | [? | [? | []]]]; congruence.
Qed.

Lemma encoding_radiation_names (name : string) :
  is_Some (DatasetWriter.encoding_dtype "/radiation" name) <-> name ∈ ["sdu"].
Proof.
  unfold DatasetWriter.encoding_dtype.
  cbn -[String.eqb]. cbn [String.eqb Ascii.eqb Bool.eqb].
  rewrite !elem_of_cons, elem_of_nil.
  destruct (String.eqb_spec "sdu" name) as [<- | H1];
    [cbn; split; [intros _; by left | intros _; by eexists] |].
  apply String.eqb_neq in H1.
  cbn [DatasetWriter.dict_get]. rewrite H1.
  apply String.eqb_neq in H1.
  split; [by intros [? ?] |].
  intros [? | []]; congruence.
Qed.

Section EncodingFacts.
Context `{Numerics}.

(** X15: the encoding table matches the tree that is written: for a
    constructed maker with valid void positions, the variables of the clouds
    group are exactly the names the "/clouds" entry of the encoding gives a
    dtype, and those of the radiation group exactly the names of the
    "/radiation" entry: no variable is written without an encoding and no
    encoding names a variable that is absent. *)
Theorem encoding_matches_tree (tstart tend : Z)
    (lon_min lon_max lat_min lat_max grid_resol : float) (void : list Z)
    (maker : DataTreeMaker.t) :
  DataTreeMaker.__init__ tstart tend lon_min lon_max lat_min lat_max grid_resol void
  = Ok maker ->
  valid_positions void (length (DataTreeMaker.time maker)) ->
  exists tree,
    DataTreeMaker.get_data_tree maker = Ok tree /\
    (forall name,
       is_Some (data_vars (DataTreeMaker.tree_clouds tree) !! name)
       <-> is_Some (DatasetWriter.encoding_dtype "/clouds" name)) /\
    (forall name,
       is_Some (data_vars (DataTreeMaker.tree_radiation tree) !! name)
       <-> is_Some (DatasetWriter.encoding_dtype "/radiation" name)).
Proof.
  intros Hinit Hvoid.
  apply init_inv in Hinit
    as (time & lon & lat & Ht & Hlo & Hla & _ & _ & _ & Etime & Elon & Elat & Ecl & Erad & _).
  rewrite Etime in Hvoid.
  destruct (clouds_dataset_shape time lon lat void Ht Hlo Hvoid)
    as (c & Hc & _ & _ & Hcnames).
  destruct (radiation_dataset_shape time lon lat void Hvoid)
    as (r & Hr & _ & _ & Hrnames).
  unfold DataTreeMaker.get_data_tree. rewrite Ecl, Erad, Hc, Hr.
  cbn [mbind result_bind]. eexists. split; [reflexivity |].
  cbn [DataTreeMaker.tree_clouds DataTreeMaker.tree_radiation].
  split; [intros name; by rewrite Hcnames, encoding_clouds_names |].
  intros name; by rewrite Hrnames, encoding_radiation_names.
Qed.

End EncodingFacts.

Lemma encoding_matches_tree_witness :
  exists maker tree,
    DataTreeMaker.__init__ 0 86400000 (-0.5) 0.5 (-1) 1 1 [1] = Ok maker /\
    @DataTreeMaker.get_data_tree example_numerics maker = Ok tree /\
    (forall name,
       is_Some (data_vars (DataTreeMaker.tree_clouds tree) !! name)
       <-> is_Some (DatasetWriter.encoding_dtype "/clouds" name)).
Proof.
  destruct (DataTreeMaker.__init__ 0 86400000 (-0.5) 0.5 (-1) 1 1 [1])
    as [maker | e |] eqn:E; [| vm_compute in E; discriminate ..].
  pose proof E as E'. vm_compute in E'. injection E' as <-.
  destruct (@encoding_matches_tree example_numerics _ _ _ _ _ _ _ _ _ E)
    as (tree & Htree & Hnames & _).
  - repeat constructor; cbn; lia.
  - eexists _, tree. split; [reflexivity |]. split; [exact Htree | exact Hnames].
Defined.

(** ** Remaining edge cases *)

Lemma where_planes_all_true (cond : list bool) (other : cell) (a : cube cell) :
  Forall (fun c => c = true) cond -> length cond = length a ->
  where_planes cond other a = a.
Proof.
  intros Hall Hlen. apply list_eq. intros t. unfold where_planes.
  rewrite lookup_zip_with.
  destruct (a !! t) as [p |] eqn:Hp.
  - destruct (lookup_lt_is_Some_2 cond t) as [c Hc];
      [rewrite Hlen; by eapply lookup_lt_Some |].
    rewrite Hc. cbn. rewrite Forall_lookup in Hall. by rewrite (Hall t c Hc).
  - by destruct (cond !! t).
Qed.

(** X16: with no void positions masking changes nothing: for a fill map
    with distinct keys naming variables of the dataset (each with one plane
    per time value), [mask_timestamps] returns the dataset itself. *)
Theorem mask_empty_void_identity (ds : Dataset) (vars : list (string * cell)) :
  NoDup vars.*1 ->
  (forall name fill, (name, fill) ∈ vars ->
     exists a, data_vars ds !! name = Some a /\ length a = length (time_index ds)) ->
  Mask.mask_timestamps {| Mask.void_timestamps := [] |} ds vars = Ok ds.
Proof.
  intros Hkeys Hex. rewrite mask_timestamps_unfold.
  cbn [Mask.void_timestamps np_take mbind result_bind].
  set (cond := map negb (map (fun t => isin t []) (time_index ds))).
  assert (Hcond : length cond = length (time_index ds))
    by (unfold cond; by rewrite !length_map).
  assert (Hall : Forall (fun c => c = true) cond).
  { unfold cond. apply Forall_lookup. intros t c Hc.
    rewrite !list_lookup_fmap in Hc.
    destruct (time_index ds !! t) as [x |]; [| done]. cbn in Hc.
    injection Hc as <-. unfold isin.
    by rewrite ?bool_decide_eq_false_2 by apply not_elem_of_nil. }
  destruct (mask_loop_spec cond vars ds Hkeys)
    as (ds' & Hrun & Htime & Hattrs & Hmasked & Hframe).
  { intros name fill Hin. destruct (Hex name fill Hin) as (a & Ha & Hl).
    exists a. split; [done | congruence]. }
  rewrite Hrun. f_equal. apply dataset_eq; [done | done |].
  intros name. destruct (decide (name ∈ vars.*1)) as [Hin | Hout].
  - apply list_elem_of_fmap in Hin as ([name' fill] & -> & Hin). cbn.
    destruct (Hex name' fill Hin) as (a & Ha & Hl).
    rewrite (Hmasked name' fill a Hin Ha), Ha. f_equal.
    apply where_planes_all_true; [done | congruence].
  - by apply Hframe.
Qed.

Lemma mask_empty_void_identity_witness :
  Mask.mask_timestamps {| Mask.void_timestamps := [] |} example_group
    [("sdu", CFloat F64.nan)] = Ok example_group.
Proof.
  apply (mask_empty_void_identity example_group).
  - apply (bool_decide_unpack _). reflexivity.
  - intros name fill Hin. apply list_elem_of_singleton in Hin. injection Hin as -> ->.
    eexists. split; reflexivity.
Defined.

(** X17: the root group of a constructed maker is aligned with its
    coordinates: one bounds pair per time, lon and lat value, one record
    status per time value, and the coordinates are the axes the two groups
    were generated on. *)
Theorem root_aligned (tstart tend : Z)
    (lon_min lon_max lat_min lat_max grid_resol : float) (void : list Z)
    (maker : DataTreeMaker.t) :
  DataTreeMaker.__init__ tstart tend lon_min lon_max lat_min lat_max grid_resol void
  = Ok maker ->
  length (DataTreeMaker.root_time_bounds (DataTreeMaker.get_root maker))
  = length (DataTreeMaker.coord_time (DataTreeMaker.get_root maker)) /\
  length (DataTreeMaker.root_lon_bounds (DataTreeMaker.get_root maker))
  = length (DataTreeMaker.coord_lon (DataTreeMaker.get_root maker)) /\
  length (DataTreeMaker.root_lat_bounds (DataTreeMaker.get_root maker))
  = length (DataTreeMaker.coord_lat (DataTreeMaker.get_root maker)) /\
  length (DataTreeMaker.root_record_status (DataTreeMaker.get_root maker))
  = length (DataTreeMaker.coord_time (DataTreeMaker.get_root maker)) /\
  DataTreeMaker.coord_time (DataTreeMaker.get_root maker)
  = Clouds.time (DataTreeMaker.clouds maker) /\
  DataTreeMaker.coord_lon (DataTreeMaker.get_root maker)
  = Clouds.lon (DataTreeMaker.clouds maker) /\
  DataTreeMaker.coord_lat (DataTreeMaker.get_root maker)
  = Clouds.lat (DataTreeMaker.clouds maker) /\
  DataTreeMaker.coord_time (DataTreeMaker.get_root maker)
  = Radiation.time (DataTreeMaker.radiation maker) /\
  DataTreeMaker.coord_lon (DataTreeMaker.get_root maker)
  = Radiation.lon (DataTreeMaker.radiation maker) /\
  DataTreeMaker.coord_lat (DataTreeMaker.get_root maker)
  = Radiation.lat (DataTreeMaker.radiation maker).
Proof.
  unfold DataTreeMaker.__init__.
  destruct (DataTreeMaker.get_lon _ _ _) as [lon | |]; [| done | done].
  destruct (DataTreeMaker.get_lat _ _ _) as [lat | |]; [| done | done].
  cbn [mbind result_bind].
  destruct (DataTreeMaker.get_time_bounds _) as [tb | |] eqn:Htb; [| done | done].
  destruct (DataTreeMaker.get_lon_bounds _ _) as [lob | |] eqn:Hlob; [| done | done].
  destruct (DataTreeMaker.get_lat_bounds _ _) as [lab | |] eqn:Hlab; [| done | done].
  cbn [mbind result_bind]. intros [= <-].
  unfold DataTreeMaker.get_time_bounds, DataTreeMaker.get_lon_bounds,
    DataTreeMaker.get_lat_bounds in *.
  destruct (DataTreeMaker._get_bounds (DataTreeMaker.get_time tstart tend) 1 "left")
    as [tb0 | |] eqn:Htb0; [| done | done].
  destruct (DataTreeMaker._get_bounds lon grid_resol "center")
    as [lob0 | |] eqn:Hlob0; [| done | done].
  destruct (DataTreeMaker._get_bounds lat grid_resol "center")
    as [lab0 | |] eqn:Hlab0; [| done | done].
  cbn [mbind result_bind] in *.
  apply bounds_array_ok in Htb as [-> _], Hlob as [-> _], Hlab as [-> _].
  apply get_bounds_length in Htb0, Hlob0, Hlab0.
  cbn. unfold RecordStatus.get_record_status, range. cbn.
  by rewrite length_map, length_seq.
Qed.

Lemma root_aligned_witness :
  exists maker,
    DataTreeMaker.__init__ 0 86400000 (-0.5) 0.5 (-1) 1 1 [1] = Ok maker /\
    length (DataTreeMaker.root_record_status (DataTreeMaker.get_root maker))
    = length (DataTreeMaker.coord_time (DataTreeMaker.get_root maker)).
Proof.
  destruct (DataTreeMaker.__init__ 0 86400000 (-0.5) 0.5 (-1) 1 1 [1])
    as [maker | e |] eqn:E; [| vm_compute in E; discriminate ..].
  exists maker. split; [reflexivity |].
  apply (root_aligned _ _ _ _ _ _ _ _ _ E).
Defined.

Section NegativeVoid.
Context `{Numerics}.

(** X18: a negative void position masks a timestep that the record status
    does not flag: for a constructed maker with valid void positions, if
    [t - n] is a void position and [t] itself is not, the record status at
    [t] is 0 although the sunshine duration at [t] is NaN in every cell. *)
Theorem negative_void_unflagged (tstart tend : Z)
    (lon_min lon_max lat_min lat_max grid_resol : float) (void : list Z)
    (maker : DataTreeMaker.t) (t : nat) :
  DataTreeMaker.__init__ tstart tend lon_min lon_max lat_min lat_max grid_resol void
  = Ok maker ->
  valid_positions void (length (DataTreeMaker.time maker)) ->
  (t < length (DataTreeMaker.time maker))%nat ->
  Z.of_nat t - Z.of_nat (length (DataTreeMaker.time maker)) ∈ void ->
  Z.of_nat t ∉ void ->
  exists tree sdu,
    DataTreeMaker.get_data_tree maker = Ok tree /\
    data_vars (DataTreeMaker.tree_radiation tree) !! "sdu" = Some sdu /\
    DataTreeMaker.root_record_status (DataTreeMaker.tree_root tree) !! t = Some 0 /\
    forall i j : nat,
      (i < length (DataTreeMaker.lat maker))%nat ->
      (j < length (DataTreeMaker.lon maker))%nat ->
      cell_at sdu t i j = Some (CFloat F64.nan).
Proof.
  intros Hinit Hvalid Hlt Hneg Hnot.
  apply init_inv in Hinit
    as (time & lon & lat & Ht & Hlo & Hla & _ & _ & _ & Etime & Elon & Elat & Ecl & Erad & Ers).
  rewrite Etime, ?Elon, ?Elat in *.
  destruct (clouds_dataset_content time lon lat void Ht Hlo Hvalid)
    as (c & lo & hi & _ & _ & Hc & _).
  destruct (radiation_dataset_content time lon lat void Hvalid) as (r & Hr & Hsdu).
  unfold DataTreeMaker.get_data_tree. rewrite Ecl, Erad, Hc, Hr.
  cbn [mbind result_bind]. eexists _, _. split; [reflexivity |].
  cbn [DataTreeMaker.tree_radiation DataTreeMaker.tree_root DataTreeMaker.get_root
       DataTreeMaker.root_record_status].
  split; [exact Hsdu |]. split.
  - rewrite Ers, (record_status_lookup time void t Hlt).
    by rewrite bool_decide_eq_false_2.
  - intros i j Hi Hj.
    pose proof (sdu_cell time lon lat {| Mask.void_timestamps := void |} t i j Hlt Hi Hj)
      as Hcell.
    assert (Hc' : cell_at (map_cube CFloat
                    (Radiation.get_sdu
                       (Radiation.__init__ time lon lat
                          {| Mask.void_timestamps := void |}))) t i j
                  = Some (CFloat (sdu_value (length time) (length lat) (length lon) t i j))).
    { unfold cell_at, map_cube, map_plane in *. rewrite list_lookup_fmap.
      destruct (_ !! t) as [p |]; [| done]. cbn. rewrite list_lookup_fmap.
      destruct (p !! i) as [row |]; [| done]. cbn. rewrite list_lookup_fmap.
      by rewrite Hcell. }
    rewrite (masked_cube_cell void _ _ t i j _ Hc').
    destruct (map_cube_shape CFloat _ _ _ _
                (get_sdu_shape time lon lat {| Mask.void_timestamps := void |}))
      as [-> _].
    unfold masked_position. rewrite bool_decide_eq_true_2; [done |]. by right.
Qed.

End NegativeVoid.

Lemma negative_void_unflagged_witness :
  exists maker tree sdu,
    DataTreeMaker.__init__ 0 86400000 (-0.5) 0.5 (-1) 1 1 [-1] = Ok maker /\
    @DataTreeMaker.get_data_tree example_numerics maker = Ok tree /\
    data_vars (DataTreeMaker.tree_radiation tree) !! "sdu" = Some sdu /\
    DataTreeMaker.root_record_status (DataTreeMaker.tree_root tree) !! 1%nat = Some 0 /\
    cell_at sdu 1 0 0 = Some (CFloat F64.nan).
Proof.
  destruct (DataTreeMaker.__init__ 0 86400000 (-0.5) 0.5 (-1) 1 1 [-1])
    as [maker | e |] eqn:E; [| vm_compute in E; discriminate ..].
  pose proof E as E'. vm_compute in E'. injection E' as <-.
  destruct (@negative_void_unflagged example_numerics _ _ _ _ _ _ _ _ _ 1%nat E)
    as (tree & sdu & Htree & Hsdu & Hst & Hcells).
  - repeat constructor; cbn; lia.
  - cbn; lia.
  - apply (bool_decide_unpack _). reflexivity.
  - apply (bool_decide_unpack _). reflexivity.
  - eexists _, tree, sdu. split; [reflexivity |]. split; [exact Htree |].
    split; [exact Hsdu |]. split; [exact Hst |].
    apply Hcells; cbn; lia.
Defined.

(** ** The run of the script *)

Section MainRun.
Context `{Numerics}.

(** X19: the run of the script.  With the parameters of [__main__] (January
    2020, the global one-degree grid, void positions 4 and 20) the maker is
    built on 31 days from 2020-01-01 to 2020-01-31, 360 longitudes from
    -179.5 to 179.5 and 180 latitudes from -89.5 to 89.5; the tree is built,
    and its record status is 1 at the positions 4 and 20 and 0 at the other
    29. *)
Theorem main_run_builds_tree :
  exists maker tree,
    DataTreeMaker.__init__ 1577836800000 1580428800000
      (-179.5) 179.5 (-89.5) 89.5 1 [4; 20] = Ok maker /\
    length (DataTreeMaker.time maker) = 31%nat /\
    DataTreeMaker.time maker !! 0%nat = Some 1577836800000 /\
    DataTreeMaker.time maker !! 30%nat = Some 1580428800000 /\
    length (DataTreeMaker.lon maker) = 360%nat /\
    DataTreeMaker.lon maker !! 0%nat = Some (-179.5)%float /\
    DataTreeMaker.lon maker !! 359%nat = Some 179.5%float /\
    length (DataTreeMaker.lat maker) = 180%nat /\
    DataTreeMaker.lat maker !! 0%nat = Some (-89.5)%float /\
    DataTreeMaker.lat maker !! 179%nat = Some 89.5%float /\
    DataTreeMaker.get_data_tree maker = Ok tree /\
    forall t : nat, (t < 31)%nat ->
      DataTreeMaker.root_record_status (DataTreeMaker.tree_root tree) !! t
      = Some (if bool_decide (t = 4%nat \/ t = 20%nat) then 1 else 0).
Proof.
  destruct (DataTreeMaker.__init__ 1577836800000 1580428800000
              (-179.5) 179.5 (-89.5) 89.5 1 [4; 20])
    as [maker | e |] eqn:E; [| vm_compute in E; discriminate ..].
  apply init_inv in E
    as (time & lon & lat & Ht & Hlo & Hla & Htime & Hlon & Hlat
        & Etime & Elon & Elat & Ecl & Erad & Ers).
  assert (Htime' : (length time, time !! 0%nat, time !! 30%nat)
                   = (31%nat, Some 1577836800000, Some 1580428800000))
    by (rewrite Htime; vm_compute; reflexivity).
  assert (Hlon' : (length lon, lon !! 0%nat, lon !! 359%nat)
                  = (360%nat, Some (-179.5)%float, Some 179.5%float)).
  { assert (Hc : match DataTreeMaker.get_lon (-179.5) 179.5 1 with
                 | Ok l => (length l, l !! 0%nat, l !! 359%nat)
                 | _ => (0%nat, None, None)
                 end = (360%nat, Some (-179.5)%float, Some 179.5%float))
      by (vm_compute; reflexivity).
    by rewrite Hlon in Hc. }
  assert (Hlat' : (length lat, lat !! 0%nat, lat !! 179%nat)
                  = (180%nat, Some (-89.5)%float, Some 89.5%float)).
  { assert (Hc : match DataTreeMaker.get_lat (-89.5) 89.5 1 with
                 | Ok l => (length l, l !! 0%nat, l !! 179%nat)
                 | _ => (0%nat, None, None)
                 end = (180%nat, Some (-89.5)%float, Some 89.5%float))
      by (vm_compute; reflexivity).
    by rewrite Hlat in Hc. }
  injection Htime' as Ht1 Ht2 Ht3. injection Hlon' as Hl1 Hl2 Hl3.
  injection Hlat' as Ha1 Ha2 Ha3.
  assert (Hvoid : valid_positions [4; 20] (length time))
    by (rewrite Ht1; repeat constructor; cbn; lia).
  destruct (clouds_dataset_shape time lon lat [4; 20] Ht Hlo Hvoid) as (c & Hc & _).
  destruct (radiation_dataset_shape time lon lat [4; 20] Hvoid) as (r & Hr & _).
  eexists maker, _. split; [reflexivity |].
  rewrite Etime, Elon, Elat.
  do 9 (split; [assumption |]).
  unfold DataTreeMaker.get_data_tree. rewrite Ecl, Erad, Hc, Hr.
  cbn [mbind result_bind]. split; [reflexivity |].
  intros t Hlt.
  cbn [DataTreeMaker.tree_root DataTreeMaker.get_root DataTreeMaker.root_record_status].
  rewrite Ers, record_status_lookup by lia. f_equal.
  rewrite (bool_decide_ext (Z.of_nat t ∈ [4; 20]) (t = 4%nat \/ t = 20%nat));
    [reflexivity |].
  rewrite !elem_of_cons, elem_of_nil. lia.
Qed.

End MainRun.
